(** * IrisToRenderDataCalculator: a shallow embedding and its properties

    Source: mediapipe/graphs/iris_tracking/calculators/iris_to_render_data_calculator.cc

    The calculator is a per-frame state transformer over C++ [float] members.
    [float] is IEEE-754 binary32; it is modelled with the Standard Library's
    executable specification of floating-point arithmetic ([SpecFloat]) at
    precision 24 and maximal exponent 128, round-to-nearest-even, each C++
    operation rounding once (no fused or extended-precision evaluation).
    [int] members are modelled on [Z] with the 32-bit wrap-around written
    out. *)

From Stdlib Require Import ZArith List Bool Lia String.
From Stdlib Require Import Floats.SpecFloat.
Import ListNotations.
Open Scope Z_scope.

(** ** binary32 arithmetic *)

Module F32.

Definition prec : Z := 24.
Definition emax : Z := 128.

Definition float : Type := spec_float.

Definition add : float -> float -> float := SFadd prec emax.
Definition sub : float -> float -> float := SFsub prec emax.
Definition mul : float -> float -> float := SFmul prec emax.
Definition div : float -> float -> float := SFdiv prec emax.
Definition sqrt : float -> float := SFsqrt prec emax.

(** [a < b] and [a > b] of C++: false as soon as an operand is NaN. *)
Definition ltb (a b : float) : bool := SFltb a b.
Definition gtb (a b : float) : bool := SFltb b a.
Definition leb (a b : float) : bool := SFleb a b.

(** [std::isinf] *)
Definition isinf (a : float) : bool :=
  match a with S754_infinity _ => true | _ => false end.

Definition isnan (a : float) : bool :=
  match a with S754_nan => true | _ => false end.

(** Conversion of an integer to [float] (the usual arithmetic conversion of
    a mixed [int]/[float] expression, and integer literals). *)
Definition of_int (z : Z) : float := binary_normalize prec emax z 0 false.

(** [std::ceil] on [float]. *)
Definition ceil (a : float) : float :=
  match a with
  | S754_finite s m e =>
      if 0 <=? e then a
      else
        let q := Z.shiftr (Zpos m) (- e) in
        let exact := Z.shiftl q (- e) =? Zpos m in
        if s then binary_normalize prec emax (- q) 0 true
        else binary_normalize prec emax (if exact then q else q + 1) 0 false
  | _ => a
  end.

(** The integral part of a [float], by truncation toward zero; an infinity
    or a NaN has none. *)
Definition trunc (a : float) : option Z :=
  match a with
  | S754_zero _ => Some 0
  | S754_finite s m e =>
      let q := if 0 <=? e then Z.shiftl (Zpos m) e else Z.shiftr (Zpos m) (- e) in
      Some (if s then - q else q)
  | _ => None
  end.

End F32.

Import F32.

Declare Scope f32_scope.
Delimit Scope f32_scope with f32.
Bind Scope f32_scope with float.
Infix "+" := add : f32_scope.
Infix "-" := sub : f32_scope.
Infix "*" := mul : f32_scope.
Infix "/" := div : f32_scope.
Infix "<?" := ltb : f32_scope.
Infix ">?" := gtb : f32_scope.

(** ** Constants of the anonymous namespace *)

Definition kFontHeightScale : float := S754_finite false 12582912 (-23). (* 1.5f *)
Definition kNumIrisLandmarksPerEye : Z := 5.
Definition kIrisSizeInMM : float := S754_finite false 12373197 (-20).   (* (float)11.8 *)
Definition kDeltaAdjustInMM : float := of_int 4.
Definition kDeltaStrabismusThresholdInMM : float := of_int 6.
Definition kDepthWeightUpdate : float := S754_finite false 13421773 (-27). (* (float)0.1 *)

(** ** Landmarks (framework/formats/landmark.proto) *)

(** Modelled from the spec: the message [NormalizedLandmark], declared in
    landmark.proto, which is not among the sources; a landmark is a normalized
    2D point.  The calculator reads [x] and [y]; [z] stands for the rest of
    the message, which is copied along. *)
Record NormalizedLandmark : Type := {
  x : float;
  y : float;
  z : float
}.

Definition NormalizedLandmarkList : Type := list NormalizedLandmark.

Definition landmark_size (lds : NormalizedLandmarkList) : Z :=
  Z.of_nat (List.length lds).

(** [lds.landmark(i)], the accessor that the protobuf compiler generates for
    a repeated field.  It checks its index only by a debug assertion: outside
    [0, landmark_size) the call has no defined result, which is [None]
    here. *)
Definition landmark (lds : NormalizedLandmarkList) (i : nat)
  : option NormalizedLandmark := nth_error lds i.

(** Sequencing of computations that may be undefined. *)
Definition bind {A B : Type} (m : option A) (k : A -> option B) : option B :=
  match m with Some a => k a | None => None end.

Notation "'let?' p ':=' m 'in' k" := (bind m (fun p => k))
  (at level 10, p pattern, m at level 100, k at level 200).

(** ** Geometry helpers *)

Definition GetDepth (x0 y0 x1 y1 : float) : float :=
  sqrt ((x0 - x1) * (x0 - x1) + (y0 - y1) * (y0 - y1))%f32.

Definition GetLandmarkDepth (ld0 ld1 : NormalizedLandmark)
    (image_size : Z * Z) : float :=
  GetDepth (x ld0 * of_int (fst image_size))%f32
           (y ld0 * of_int (snd image_size))%f32
           (x ld1 * of_int (fst image_size))%f32
           (y ld1 * of_int (snd image_size))%f32.

Definition CalculateIrisDiameter (landmarks : NormalizedLandmarkList)
    (image_size : Z * Z) : option float :=
  let? l1 := landmark landmarks 1 in
  let? l2 := landmark landmarks 2 in
  let dist_vert := GetLandmarkDepth l1 l2 image_size in
  let? l3 := landmark landmarks 3 in
  let? l4 := landmark landmarks 4 in
  let dist_hori := GetLandmarkDepth l3 l4 image_size in
  Some ((dist_hori + dist_vert) / of_int 2)%f32.

Definition CalculateDepth (center : NormalizedLandmark)
    (focal_length iris_size img_w img_h : float) : float :=
  let origin := ((img_w / of_int 2)%f32, (img_h / of_int 2)%f32) in
  let y' := GetDepth (fst origin) (snd origin)
                     (x center * img_w)%f32 (y center * img_h)%f32 in
  let x' := sqrt (focal_length * focal_length + y' * y')%f32 in
  let depth := (kIrisSizeInMM * x' / iris_size)%f32 in
  depth.

(** ** Landmark partitioner *)

(** [GetLeftIris(lds, iris)]: appends to the output list [iris]. *)
Definition GetLeftIris (lds iris : NormalizedLandmarkList)
  : option NormalizedLandmarkList :=
  (* Center, top, bottom, left, right *)
  let? c := landmark lds 0 in
  let? t := landmark lds 2 in
  let? b := landmark lds 4 in
  let? l := landmark lds 3 in
  let? r := landmark lds 1 in
  Some (iris ++ [c; t; b; l; r]).

Definition GetRightIris (lds iris : NormalizedLandmarkList)
  : option NormalizedLandmarkList :=
  (* Center, top, bottom, left, right *)
  let? c := landmark lds 5 in
  let? t := landmark lds 7 in
  let? b := landmark lds 9 in
  let? l := landmark lds 6 in
  let? r := landmark lds 8 in
  Some (iris ++ [c; t; b; l; r]).

(** ** Persistent members of the calculator

    The 18 members [plu_dt_K] and the 18 members [last_plu_dt_K] carry the
    same suffixes K: both groups are a [Distances] record, so that the source
    member [plu_dt_a_r] is [dt_a_r (plu s)] and [last_plu_dt_a_r] is
    [dt_a_r (last_plu s)].  Segment a joins the two corners of an eye, t the
    outer corner and the iris centre, n the inner corner and the iris centre;
    r and l are the sides; the suffixes _x and _y are the axes, no suffix is
    the Euclidean length. *)
Record Distances : Type := {
  dt_a_r_x : float;
  dt_a_r_y : float;
  dt_a_r : float;
  dt_a_l_x : float;
  dt_a_l_y : float;
  dt_a_l : float;
  dt_t_r_x : float;
  dt_t_r_y : float;
  dt_t_r : float;
  dt_t_l_x : float;
  dt_t_l_y : float;
  dt_t_l : float;
  dt_n_r_x : float;
  dt_n_r_y : float;
  dt_n_r : float;
  dt_n_l_x : float;
  dt_n_l_y : float;
  dt_n_l : float
}.

(** The members [warn_delta_plu_K_count], C++ [int]s. *)
Record Counters : Type := {
  delta_plu_r_x_count : Z;
  delta_plu_l_x_count : Z;
  delta_plu_r_y_count : Z;
  delta_plu_l_y_count : Z;
  delta_plu_r_count : Z;
  delta_plu_l_count : Z;
  delta_plu_x_count : Z;
  delta_plu_y_count : Z;
  delta_plu_count : Z
}.

Record State : Type := {
  last_plu : Distances;
  warn : Counters;
  plu_iris_size : float;
  plu : Distances
}.

(** The members under their names in the source. *)
Definition last_plu_dt_a_r_x (s : State) : float := dt_a_r_x (last_plu s).
Definition last_plu_dt_a_r_y (s : State) : float := dt_a_r_y (last_plu s).
Definition last_plu_dt_a_r (s : State) : float := dt_a_r (last_plu s).
Definition last_plu_dt_a_l_x (s : State) : float := dt_a_l_x (last_plu s).
Definition last_plu_dt_a_l_y (s : State) : float := dt_a_l_y (last_plu s).
Definition last_plu_dt_a_l (s : State) : float := dt_a_l (last_plu s).
Definition last_plu_dt_t_r_x (s : State) : float := dt_t_r_x (last_plu s).
Definition last_plu_dt_t_r_y (s : State) : float := dt_t_r_y (last_plu s).
Definition last_plu_dt_t_r (s : State) : float := dt_t_r (last_plu s).
Definition last_plu_dt_t_l_x (s : State) : float := dt_t_l_x (last_plu s).
Definition last_plu_dt_t_l_y (s : State) : float := dt_t_l_y (last_plu s).
Definition last_plu_dt_t_l (s : State) : float := dt_t_l (last_plu s).
Definition last_plu_dt_n_r_x (s : State) : float := dt_n_r_x (last_plu s).
Definition last_plu_dt_n_r_y (s : State) : float := dt_n_r_y (last_plu s).
Definition last_plu_dt_n_r (s : State) : float := dt_n_r (last_plu s).
Definition last_plu_dt_n_l_x (s : State) : float := dt_n_l_x (last_plu s).
Definition last_plu_dt_n_l_y (s : State) : float := dt_n_l_y (last_plu s).
Definition last_plu_dt_n_l (s : State) : float := dt_n_l (last_plu s).
Definition warn_delta_plu_r_x_count (s : State) : Z := delta_plu_r_x_count (warn s).
Definition warn_delta_plu_l_x_count (s : State) : Z := delta_plu_l_x_count (warn s).
Definition warn_delta_plu_r_y_count (s : State) : Z := delta_plu_r_y_count (warn s).
Definition warn_delta_plu_l_y_count (s : State) : Z := delta_plu_l_y_count (warn s).
Definition warn_delta_plu_r_count (s : State) : Z := delta_plu_r_count (warn s).
Definition warn_delta_plu_l_count (s : State) : Z := delta_plu_l_count (warn s).
Definition warn_delta_plu_x_count (s : State) : Z := delta_plu_x_count (warn s).
Definition warn_delta_plu_y_count (s : State) : Z := delta_plu_y_count (warn s).
Definition warn_delta_plu_count (s : State) : Z := delta_plu_count (warn s).
Definition plu_dt_a_r_x (s : State) : float := dt_a_r_x (plu s).
Definition plu_dt_a_r_y (s : State) : float := dt_a_r_y (plu s).
Definition plu_dt_a_r (s : State) : float := dt_a_r (plu s).
Definition plu_dt_a_l_x (s : State) : float := dt_a_l_x (plu s).
Definition plu_dt_a_l_y (s : State) : float := dt_a_l_y (plu s).
Definition plu_dt_a_l (s : State) : float := dt_a_l (plu s).
Definition plu_dt_t_r_x (s : State) : float := dt_t_r_x (plu s).
Definition plu_dt_t_r_y (s : State) : float := dt_t_r_y (plu s).
Definition plu_dt_t_r (s : State) : float := dt_t_r (plu s).
Definition plu_dt_t_l_x (s : State) : float := dt_t_l_x (plu s).
Definition plu_dt_t_l_y (s : State) : float := dt_t_l_y (plu s).
Definition plu_dt_t_l (s : State) : float := dt_t_l (plu s).
Definition plu_dt_n_r_x (s : State) : float := dt_n_r_x (plu s).
Definition plu_dt_n_r_y (s : State) : float := dt_n_r_y (plu s).
Definition plu_dt_n_r (s : State) : float := dt_n_r (plu s).
Definition plu_dt_n_l_x (s : State) : float := dt_n_l_x (plu s).
Definition plu_dt_n_l_y (s : State) : float := dt_n_l_y (plu s).
Definition plu_dt_n_l (s : State) : float := dt_n_l (plu s).

Definition minus_one : float := of_int (-1).

Definition all_distances (v : float) : Distances :=
  {| dt_a_r_x := v;
     dt_a_r_y := v;
     dt_a_r := v;
     dt_a_l_x := v;
     dt_a_l_y := v;
     dt_a_l := v;
     dt_t_r_x := v;
     dt_t_r_y := v;
     dt_t_r := v;
     dt_t_l_x := v;
     dt_t_l_y := v;
     dt_t_l := v;
     dt_n_r_x := v;
     dt_n_r_y := v;
     dt_n_r := v;
     dt_n_l_x := v;
     dt_n_l_y := v;
     dt_n_l := v |}.

(** The default member initializers. *)
Definition initial : State :=
  {| last_plu := all_distances minus_one;
     warn := {| delta_plu_r_x_count := 0;
               delta_plu_l_x_count := 0;
               delta_plu_r_y_count := 0;
               delta_plu_l_y_count := 0;
               delta_plu_r_count := 0;
               delta_plu_l_count := 0;
               delta_plu_x_count := 0;
               delta_plu_y_count := 0;
               delta_plu_count := 0 |};
     plu_iris_size := minus_one;
     plu := all_distances minus_one |}.

(** The nine deltas, locals of [Process]. *)
Record Deltas : Type := {
  delta_plu_r_x : float;
  delta_plu_l_x : float;
  delta_plu_r_y : float;
  delta_plu_l_y : float;
  delta_plu_r : float;
  delta_plu_l : float;
  delta_plu_x : float;
  delta_plu_y : float;
  delta_plu : float
}.

(** ** The numeric body of [Process] (lines 313-544 of the source) *)

(** The conditional expression assigned to [plu_iris_size] (l.319-323) and,
    member for member, to every [plu_dt_K] (l.358-464). *)
Definition smoothed (stored raw : float) : float :=
  if (stored <? of_int 0)%f32 || isinf stored
  then raw
  else (stored * (of_int 1 - kDepthWeightUpdate) + raw * kDepthWeightUpdate)%f32.

(** l.314-317 *)
Definition raw_plu_iris_size (left_iris_size right_iris_size : float) : float :=
  if (left_iris_size <? right_iris_size)%f32 then right_iris_size else left_iris_size.

(** l.333-355: the raw distances, scaled to millimetres through
    [image_size_x] and [image_size_y]. *)
Definition raw_plu_dt (image_size_x image_size_y : float)
    (plu_c_r plu_c_l plu_t_r plu_n_r plu_n_l plu_t_l : NormalizedLandmark)
  : Distances :=
  let raw_plu_dt_a_r_x := (sqrt ((x plu_t_r - x plu_n_r) * (x plu_t_r - x plu_n_r)) * image_size_x)%f32 in
  let raw_plu_dt_a_r_y := (sqrt ((y plu_t_r - y plu_n_r) * (y plu_t_r - y plu_n_r)) * image_size_y)%f32 in
  let raw_plu_dt_a_r := sqrt (raw_plu_dt_a_r_x * raw_plu_dt_a_r_x + raw_plu_dt_a_r_y * raw_plu_dt_a_r_y)%f32 in
  let raw_plu_dt_a_l_x := (sqrt ((x plu_t_l - x plu_n_l) * (x plu_t_l - x plu_n_l)) * image_size_x)%f32 in
  let raw_plu_dt_a_l_y := (sqrt ((y plu_t_l - y plu_n_l) * (y plu_t_l - y plu_n_l)) * image_size_y)%f32 in
  let raw_plu_dt_a_l := sqrt (raw_plu_dt_a_l_x * raw_plu_dt_a_l_x + raw_plu_dt_a_l_y * raw_plu_dt_a_l_y)%f32 in
  let raw_plu_dt_t_r_x := (sqrt ((x plu_t_r - x plu_c_r) * (x plu_t_r - x plu_c_r)) * image_size_x)%f32 in
  let raw_plu_dt_t_r_y := (sqrt ((y plu_t_r - y plu_c_r) * (y plu_t_r - y plu_c_r)) * image_size_y)%f32 in
  let raw_plu_dt_t_r := sqrt (raw_plu_dt_t_r_x * raw_plu_dt_t_r_x + raw_plu_dt_t_r_y * raw_plu_dt_t_r_y)%f32 in
  let raw_plu_dt_t_l_x := (sqrt ((x plu_t_l - x plu_c_l) * (x plu_t_l - x plu_c_l)) * image_size_x)%f32 in
  let raw_plu_dt_t_l_y := (sqrt ((y plu_t_l - y plu_c_l) * (y plu_t_l - y plu_c_l)) * image_size_y)%f32 in
  let raw_plu_dt_t_l := sqrt (raw_plu_dt_t_l_x * raw_plu_dt_t_l_x + raw_plu_dt_t_l_y * raw_plu_dt_t_l_y)%f32 in
  let raw_plu_dt_n_r_x := (sqrt ((x plu_n_r - x plu_c_r) * (x plu_n_r - x plu_c_r)) * image_size_x)%f32 in
  let raw_plu_dt_n_r_y := (sqrt ((y plu_n_r - y plu_c_r) * (y plu_n_r - y plu_c_r)) * image_size_y)%f32 in
  let raw_plu_dt_n_r := sqrt (raw_plu_dt_n_r_x * raw_plu_dt_n_r_x + raw_plu_dt_n_r_y * raw_plu_dt_n_r_y)%f32 in
  let raw_plu_dt_n_l_x := (sqrt ((x plu_n_l - x plu_c_l) * (x plu_n_l - x plu_c_l)) * image_size_x)%f32 in
  let raw_plu_dt_n_l_y := (sqrt ((y plu_n_l - y plu_c_l) * (y plu_n_l - y plu_c_l)) * image_size_y)%f32 in
  let raw_plu_dt_n_l := sqrt (raw_plu_dt_n_l_x * raw_plu_dt_n_l_x + raw_plu_dt_n_l_y * raw_plu_dt_n_l_y)%f32 in
  {| dt_a_r_x := raw_plu_dt_a_r_x;
     dt_a_r_y := raw_plu_dt_a_r_y;
     dt_a_r := raw_plu_dt_a_r;
     dt_a_l_x := raw_plu_dt_a_l_x;
     dt_a_l_y := raw_plu_dt_a_l_y;
     dt_a_l := raw_plu_dt_a_l;
     dt_t_r_x := raw_plu_dt_t_r_x;
     dt_t_r_y := raw_plu_dt_t_r_y;
     dt_t_r := raw_plu_dt_t_r;
     dt_t_l_x := raw_plu_dt_t_l_x;
     dt_t_l_y := raw_plu_dt_t_l_y;
     dt_t_l := raw_plu_dt_t_l;
     dt_n_r_x := raw_plu_dt_n_r_x;
     dt_n_r_y := raw_plu_dt_n_r_y;
     dt_n_r := raw_plu_dt_n_r;
     dt_n_l_x := raw_plu_dt_n_l_x;
     dt_n_l_y := raw_plu_dt_n_l_y;
     dt_n_l := raw_plu_dt_n_l |}.

(** l.358-464: every channel is smoothed with its raw value. *)
Definition update_plu_dt (plu_dt raw : Distances) : Distances :=
  {| dt_a_r_x := smoothed (dt_a_r_x plu_dt) (dt_a_r_x raw);
     dt_a_r_y := smoothed (dt_a_r_y plu_dt) (dt_a_r_y raw);
     dt_a_r := smoothed (dt_a_r plu_dt) (dt_a_r raw);
     dt_a_l_x := smoothed (dt_a_l_x plu_dt) (dt_a_l_x raw);
     dt_a_l_y := smoothed (dt_a_l_y plu_dt) (dt_a_l_y raw);
     dt_a_l := smoothed (dt_a_l plu_dt) (dt_a_l raw);
     dt_t_r_x := smoothed (dt_t_r_x plu_dt) (dt_t_r_x raw);
     dt_t_r_y := smoothed (dt_t_r_y plu_dt) (dt_t_r_y raw);
     dt_t_r := smoothed (dt_t_r plu_dt) (dt_t_r raw);
     dt_t_l_x := smoothed (dt_t_l_x plu_dt) (dt_t_l_x raw);
     dt_t_l_y := smoothed (dt_t_l_y plu_dt) (dt_t_l_y raw);
     dt_t_l := smoothed (dt_t_l plu_dt) (dt_t_l raw);
     dt_n_r_x := smoothed (dt_n_r_x plu_dt) (dt_n_r_x raw);
     dt_n_r_y := smoothed (dt_n_r_y plu_dt) (dt_n_r_y raw);
     dt_n_r := smoothed (dt_n_r plu_dt) (dt_n_r raw);
     dt_n_l_x := smoothed (dt_n_l_x plu_dt) (dt_n_l_x raw);
     dt_n_l_y := smoothed (dt_n_l_y plu_dt) (dt_n_l_y raw);
     dt_n_l := smoothed (dt_n_l plu_dt) (dt_n_l raw) |}.

Definition unavailable : float := of_int (-100).

(** l.467-487 *)
Definition calculate_delta (last_plu_dt plu_dt : Distances) : Deltas :=
  if (dt_a_r last_plu_dt >? of_int 0)%f32 && (dt_a_r plu_dt >? of_int 0)%f32 then
    let delta_plu_r_x := (((dt_n_r_x plu_dt - dt_n_r_x last_plu_dt) - (dt_t_r_x plu_dt - dt_t_r_x last_plu_dt)) * kDeltaAdjustInMM / of_int 2)%f32 in
    let delta_plu_l_x := (((dt_n_l_x plu_dt - dt_n_l_x last_plu_dt) - (dt_t_l_x plu_dt - dt_t_l_x last_plu_dt)) * kDeltaAdjustInMM / of_int 2)%f32 in
    let delta_plu_r_y := (((dt_n_r_y plu_dt - dt_n_r_y last_plu_dt) - (dt_t_r_y plu_dt - dt_t_r_y last_plu_dt)) * kDeltaAdjustInMM / of_int 2)%f32 in
    let delta_plu_l_y := (((dt_n_l_y plu_dt - dt_n_l_y last_plu_dt) - (dt_t_l_y plu_dt - dt_t_l_y last_plu_dt)) * kDeltaAdjustInMM / of_int 2)%f32 in
    let delta_plu_r := (((dt_n_r plu_dt - dt_n_r last_plu_dt) - (dt_t_r plu_dt - dt_t_r last_plu_dt)) * kDeltaAdjustInMM / of_int 2)%f32 in
    let delta_plu_l := (((dt_n_l plu_dt - dt_n_l last_plu_dt) - (dt_t_l plu_dt - dt_t_l last_plu_dt)) * kDeltaAdjustInMM / of_int 2)%f32 in
    let delta_plu_x := (delta_plu_l_x - delta_plu_r_x)%f32 in
    let delta_plu_y := (delta_plu_l_y - delta_plu_r_y)%f32 in
    let delta_plu := (delta_plu_l - delta_plu_r)%f32 in
    {| delta_plu_r_x := delta_plu_r_x;
       delta_plu_l_x := delta_plu_l_x;
       delta_plu_r_y := delta_plu_r_y;
       delta_plu_l_y := delta_plu_l_y;
       delta_plu_r := delta_plu_r;
       delta_plu_l := delta_plu_l;
       delta_plu_x := delta_plu_x;
       delta_plu_y := delta_plu_y;
       delta_plu := delta_plu |}
  else
    {| delta_plu_r_x := unavailable;
       delta_plu_l_x := unavailable;
       delta_plu_r_y := unavailable;
       delta_plu_l_y := unavailable;
       delta_plu_r := unavailable;
       delta_plu_l := unavailable;
       delta_plu_x := unavailable;
       delta_plu_y := unavailable;
       delta_plu := unavailable |}.

(** [int] arithmetic: the value is kept in [-2^31, 2^31) by wrapping. *)
Definition INT_MAX : Z := 2147483647.
Definition wrap_int (n : Z) : Z := (n + 2147483648) mod 4294967296 - 2147483648.

Definition INT_MIN : Z := -2147483648.

(** Conversion of a [float] to [int] (here: the assignment of a [float] sum
    to an [int] variable).  The C++ conversion truncates toward zero and is
    only defined when the truncated value fits an [int]: [None] is a
    conversion that the language leaves undefined. *)
Definition to_int (a : float) : option Z :=
  match trunc a with
  | Some n => if (INT_MIN <=? n) && (n <=? INT_MAX) then Some n else None
  | None => None
  end.

(** [count += 1] *)
Definition incr (count : Z) : Z := wrap_int (count + 1).

(** l.489-515 *)
Definition count_warnings (w : Counters) (d : Deltas) : Counters :=
  {| delta_plu_r_x_count :=
       if (delta_plu_r_x d >? kDeltaStrabismusThresholdInMM)%f32
       then incr (delta_plu_r_x_count w) else delta_plu_r_x_count w;
     delta_plu_l_x_count :=
       if (delta_plu_l_x d >? kDeltaStrabismusThresholdInMM)%f32
       then incr (delta_plu_l_x_count w) else delta_plu_l_x_count w;
     delta_plu_r_y_count :=
       if (delta_plu_r_y d >? kDeltaStrabismusThresholdInMM)%f32
       then incr (delta_plu_r_y_count w) else delta_plu_r_y_count w;
     delta_plu_l_y_count :=
       if (delta_plu_l_y d >? kDeltaStrabismusThresholdInMM)%f32
       then incr (delta_plu_l_y_count w) else delta_plu_l_y_count w;
     delta_plu_r_count :=
       if (delta_plu_r d >? kDeltaStrabismusThresholdInMM)%f32
       then incr (delta_plu_r_count w) else delta_plu_r_count w;
     delta_plu_l_count :=
       if (delta_plu_l d >? kDeltaStrabismusThresholdInMM)%f32
       then incr (delta_plu_l_count w) else delta_plu_l_count w;
     delta_plu_x_count :=
       if (delta_plu_x d >? kDeltaStrabismusThresholdInMM)%f32
       then incr (delta_plu_x_count w) else delta_plu_x_count w;
     delta_plu_y_count :=
       if (delta_plu_y d >? kDeltaStrabismusThresholdInMM)%f32
       then incr (delta_plu_y_count w) else delta_plu_y_count w;
     delta_plu_count :=
       if (delta_plu d >? kDeltaStrabismusThresholdInMM)%f32
       then incr (delta_plu_count w) else delta_plu_count w |}.

(** l.517-544: lastly update last_xxx values *)
Definition update_last_plu_dt (last_plu_dt plu_dt : Distances) : Distances :=
  if (dt_a_r last_plu_dt <? of_int 0)%f32 || isinf (dt_a_r last_plu_dt) then
    if (dt_a_r plu_dt >? of_int 0)%f32 then
      {| dt_a_r_x := dt_a_r_x plu_dt;
         dt_a_r_y := dt_a_r_y plu_dt;
         dt_a_r := dt_a_r plu_dt;
         dt_a_l_x := dt_a_l_x plu_dt;
         dt_a_l_y := dt_a_l_y plu_dt;
         dt_a_l := dt_a_l plu_dt;
         dt_t_r_x := dt_t_r_x plu_dt;
         dt_t_r_y := dt_t_r_y plu_dt;
         dt_t_r := dt_t_r plu_dt;
         dt_t_l_x := dt_t_l_x plu_dt;
         dt_t_l_y := dt_t_l_y plu_dt;
         dt_t_l := dt_t_l plu_dt;
         dt_n_r_x := dt_n_r_x plu_dt;
         dt_n_r_y := dt_n_r_y plu_dt;
         dt_n_r := dt_n_r plu_dt;
         dt_n_l_x := dt_n_l_x plu_dt;
         dt_n_l_y := dt_n_l_y plu_dt;
         dt_n_l := dt_n_l plu_dt |}
    else last_plu_dt
  else last_plu_dt.

(** ** Render data and options

    The messages of render_data.proto, color.proto and
    iris_to_render_data_calculator.proto are not among the sources; they are
    modelled by the fields the calculator writes or reads.  Setters taking a
    [double] receive [float] values, which widen exactly, so the [float] is
    kept. *)

(** Modelled from the spec: the message [Color], a colour of an annotation. *)
Record Color : Type := { color_r : Z; color_g : Z; color_b : Z }.

(** Modelled from the spec: the text anchor position of the options,
    top-left or bottom-left. *)
Inductive Location : Type := TOP_LEFT | BOTTOM_LEFT.

(** Modelled from the spec: the options message, fixed once per stream:
    oval and point colours and stroke thickness, font size and face, text
    anchor position, horizontal and vertical pixel offsets.  The pixel sizes
    and the font face are integers, which [Process] combines with [float]s. *)
Record IrisToRenderDataCalculatorOptions : Type := {
  oval_color : Color;
  landmark_color : Color;
  oval_thickness : float;
  landmark_thickness : float;
  font_height_px : Z;
  horizontal_offset_px : Z;
  vertical_offset_px : Z;
  location : Location;
  font_face : Z
}.

(** A diagnostic line before it is rendered to characters: the pieces handed
    to [absl::StrAppend], in order.  [Fmt] is a call of [absl::StrFormat] with
    its arguments, [Rounded v] is the number [std::round(v)]. *)
Inductive Number : Type := NFloat (v : float) | NInt (v : Z).

Inductive Piece : Type :=
| Str (s : string)
| Fmt (format : string) (args : list Number)
| Rounded (v : float).

Definition Line : Type := list Piece.

(** Modelled from the spec: the message [RenderAnnotation], a drawable
    shape: an oval (rectangle, normalized flag), a point (normalized x, y) or
    a text line (string, pixel position, font metrics), with its colour and
    thickness.  The baseline of a text is computed from an [int] that is the
    result of a conversion: it is [None] when that conversion is undefined,
    so that a baseline that the language does not define is given no value. *)
Inductive AnnotationData : Type :=
| Oval (top bottom left right : float) (normalized : bool)
| Point (point_x point_y : float) (normalized : bool)
| Text (display_text : Line) (font_height left : Z) (baseline : option float)
       (text_font_face : Z).

Record RenderAnnotation : Type := {
  scene_tag : option string;
  color : Color;
  thickness : float;
  data : AnnotationData
}.

Definition RenderData : Type := list RenderAnnotation.

Definition kOvalLabel : string := "OVAL".

(** [AddOvalRenderData] followed by the writes through the returned pointer. *)
Definition AddOvalRenderData (options : IrisToRenderDataCalculatorOptions)
    (oval : AnnotationData) (render_data : RenderData) : RenderData :=
  render_data ++
  [{| scene_tag := Some kOvalLabel;
      color := oval_color options;
      thickness := oval_thickness options;
      data := oval |}].

(** [AddPointRenderData] followed by the writes through the returned pointer. *)
Definition AddPointRenderData (options : IrisToRenderDataCalculatorOptions)
    (point : AnnotationData) (render_data : RenderData) : RenderData :=
  render_data ++
  [{| scene_tag := None;
      color := landmark_color options;
      thickness := landmark_thickness options;
      data := point |}].

Definition landmark_point (ld : NormalizedLandmark) : AnnotationData :=
  Point (x ld) (y ld) true.

Definition RenderIris (iris_landmarks : NormalizedLandmarkList)
    (options : IrisToRenderDataCalculatorOptions) (image_size : Z * Z)
    (iris_size : float) (render_data : RenderData) : option RenderData :=
  let iris_radius := (iris_size / of_int 2)%f32 in
  let? iris_center := landmark iris_landmarks 0 in
  let oval :=
    Oval (y iris_center - iris_radius / of_int (snd image_size))%f32
         (y iris_center + iris_radius / of_int (snd image_size))%f32
         (x iris_center - iris_radius / of_int (fst image_size))%f32
         (x iris_center + iris_radius / of_int (fst image_size))%f32
         true in
  let render_data := AddOvalRenderData options oval render_data in
  Some (fold_left
          (fun rd ld => AddPointRenderData options (landmark_point ld) rd)
          iris_landmarks render_data).

(** The loop of [AddTextRenderData], from index [i] on.  The [int]
    [label_baseline_px] is [None] when the conversion that produced it is
    undefined. *)
Fixpoint add_text_lines (options : IrisToRenderDataCalculatorOptions)
    (label_left_px : Z) (label_baseline_px : option Z) (label_height_px : float)
    (i : Z) (lines : list Line) (render_data : RenderData) : RenderData :=
  match lines with
  | [] => render_data
  | line :: rest =>
      let label_annotation :=
        {| scene_tag := None;
           color := {| color_r := 255; color_g := 0; color_b := 0 |};
           thickness := of_int 2;
           data := Text line (font_height_px options) label_left_px
                     (option_map
                        (fun label_baseline_px =>
                           (of_int label_baseline_px + of_int i * label_height_px)%f32)
                        label_baseline_px)
                     (font_face options) |} in
      add_text_lines options label_left_px label_baseline_px label_height_px
        (i + 1) rest (render_data ++ [label_annotation])
  end.

(** [label_baseline_px += e] on the [int] [label_baseline_px] with a [float]
    [e] is the sum in [float], converted back to [int] by [to_int]. *)
Definition AddTextRenderData (options : IrisToRenderDataCalculatorOptions)
    (image_size : Z * Z) (lines : list Line) (render_data : RenderData)
  : RenderData :=
  let label_baseline_px := vertical_offset_px options in
  let label_height_px := ceil (of_int (font_height_px options) * kFontHeightScale)%f32 in
  let label_baseline_px :=
    match location options with
    | TOP_LEFT => to_int (of_int label_baseline_px + label_height_px)%f32
    | BOTTOM_LEFT =>
        to_int (of_int label_baseline_px +
                (of_int (snd image_size) -
                 label_height_px * of_int (Z.of_nat (List.length lines))))%f32
    end in
  let label_left_px := horizontal_offset_px options in
  add_text_lines options label_left_px label_baseline_px label_height_px 0
    lines render_data.

(** ** Diagnostic lines *)

Definition depth_line (label : string) (depth : option float) : list Line :=
  match depth with
  | Some iris_depth =>
      if negb (isinf iris_depth)
      then [[Str label; Str ":"; Rounded (iris_depth / of_int 10)%f32; Str " cm"]]
      else []
  | None => []
  end.

Definition fmt1 : string := "% 5.1f".
Definition fmt3 : string := "d% 5.1f, x% 5.1f, y% 5.1f".
Definition fmt_const : string := "iris % 5.1f, calc % 5.1f, delta % 5.1f".

Definition line1 (label : string) (v : float) : Line :=
  [Str label; Fmt fmt1 [NFloat v]; Str " mm"].

Definition line3 (label : string) (d vx vy : float) : Line :=
  [Str label; Fmt fmt3 [NFloat d; NFloat vx; NFloat vy]; Str " mm"].

Definition line_count (label : string) (d vx vy : Z) : Line :=
  [Str label; Fmt fmt3 [NInt d; NInt vx; NInt vy]].

(** l.546-598 *)
Definition detector_lines (plu_left_iris_size plu_right_iris_size
    show_plu_iris_size : float) (plu_dt : Distances) (d : Deltas)
    (w : Counters) : list Line :=
  [ (* left *)
    line1 "left iris size : " plu_left_iris_size;
    line3 "left ab : " (dt_a_l plu_dt) (dt_a_l_x plu_dt) (dt_a_l_y plu_dt);
    line3 "left tb : " (dt_t_l plu_dt) (dt_t_l_x plu_dt) (dt_t_l_y plu_dt);
    line3 "left nb : " (dt_n_l plu_dt) (dt_n_l_x plu_dt) (dt_n_l_y plu_dt);
    line3 "left delta : " (delta_plu_l d) (delta_plu_l_x d) (delta_plu_l_y d);
    line_count "left count : " (delta_plu_l_count w) (delta_plu_l_x_count w)
      (delta_plu_l_y_count w);
    (* right *)
    line1 "right iris size : " plu_right_iris_size;
    line3 "right ab : " (dt_a_r plu_dt) (dt_a_r_x plu_dt) (dt_a_r_y plu_dt);
    line3 "right tb : " (dt_t_r plu_dt) (dt_t_r_x plu_dt) (dt_t_r_y plu_dt);
    line3 "right nb : " (dt_n_r plu_dt) (dt_n_r_x plu_dt) (dt_n_r_y plu_dt);
    line3 "right delta : " (delta_plu_r d) (delta_plu_r_x d) (delta_plu_r_y d);
    line_count "right count : " (delta_plu_r_count w) (delta_plu_r_x_count w)
      (delta_plu_r_y_count w);
    (* total *)
    line1 "iris  : " show_plu_iris_size;
    line3 "delta : " (delta_plu d) (delta_plu_x d) (delta_plu_y d);
    line_count "count : " (delta_plu_count w) (delta_plu_x_count w)
      (delta_plu_y_count w);
    [Str "const : ";
     Fmt fmt_const [NFloat kIrisSizeInMM; NFloat kDeltaAdjustInMM;
                    NFloat kDeltaStrabismusThresholdInMM];
     Str " mm"] ].

(** ** The detector block (the body of [if (raw_plu_iris_size > 0)]) *)

(** What one run of the block computes: the members after it, and the
    locals the properties speak about. *)
Record Detection : Type := {
  det_state : State;
  det_raw_iris_size : float; (* raw_plu_iris_size *)
  det_ratio : float;        (* plu_adjust_iris_size_ratio *)
  det_raw : Distances;      (* raw_plu_dt_K *)
  det_deltas : Deltas;      (* delta_plu_K *)
  det_lines : list Line
}.

Definition detect (s : State) (left_iris_size right_iris_size raw_iris_size : float)
    (image_size : Z * Z)
    (plu_c_r plu_c_l plu_t_r plu_n_r plu_n_l plu_t_l : NormalizedLandmark)
  : Detection :=
  let plu_iris_size' := smoothed (plu_iris_size s) raw_iris_size in
  let plu_adjust_iris_size_ratio := (kIrisSizeInMM / plu_iris_size')%f32 in
  let show_plu_iris_size := (plu_iris_size' * plu_adjust_iris_size_ratio)%f32 in
  let plu_left_iris_size := (left_iris_size * plu_adjust_iris_size_ratio)%f32 in
  let plu_right_iris_size := (right_iris_size * plu_adjust_iris_size_ratio)%f32 in
  let image_size_x := (of_int (fst image_size) * plu_adjust_iris_size_ratio)%f32 in
  let image_size_y := (of_int (snd image_size) * plu_adjust_iris_size_ratio)%f32 in
  let raw := raw_plu_dt image_size_x image_size_y
               plu_c_r plu_c_l plu_t_r plu_n_r plu_n_l plu_t_l in
  let plu_dt := update_plu_dt (plu s) raw in
  (* calculate delta_xxx *)
  let d := calculate_delta (last_plu s) plu_dt in
  let w := count_warnings (warn s) d in
  (* lastly update last_xxx values *)
  let last_plu_dt := update_last_plu_dt (last_plu s) plu_dt in
  {| det_state := {| last_plu := last_plu_dt; warn := w;
                     plu_iris_size := plu_iris_size'; plu := plu_dt |};
     det_raw_iris_size := raw_iris_size;
     det_ratio := plu_adjust_iris_size_ratio;
     det_raw := raw;
     det_deltas := d;
     det_lines := detector_lines plu_left_iris_size plu_right_iris_size
                    show_plu_iris_size plu_dt d w |}.

(** ** The calculator *)

(** The input packets of one timestamp; [None] is an empty input (for the
    two depth inputs also: a tag that is not connected). *)
Record Frame : Type := {
  IRIS : option NormalizedLandmarkList;
  NORM_LANDMARKS : option NormalizedLandmarkList;
  IMAGE_SIZE : option (Z * Z);
  LEFT_IRIS_DEPTH_MM : option float;
  RIGHT_IRIS_DEPTH_MM : option float
}.

Inductive Status : Type :=
| OkStatus
| InternalError (message : string).   (* a failed RET_CHECK *)

Record Outcome : Type := {
  status : Status;
  state : State;                        (* the members after the call *)
  RENDER_DATA : option RenderData       (* the packet added to the output *)
}.

(** [Open] sets the timestamp offset of the context and touches no member. *)
Definition Open (s : State) : Status * State := (OkStatus, s).

(** l.283-600: the part of [Process] guarded by the face landmarks. *)
Definition face_block (options : IrisToRenderDataCalculatorOptions)
    (s : State) (cc : Frame) (image_size : Z * Z)
    (left_iris_size right_iris_size : float)
    (plu_c_r plu_c_l : NormalizedLandmark) (render_data : RenderData)
  : option (State * RenderData * list Line * option Detection) :=
  match NORM_LANDMARKS cc with
  | None => Some (s, render_data, [], None)
  | Some update_face_landmarks =>
      let? plu_t_r := landmark update_face_landmarks 263 in
      let? plu_n_r := landmark update_face_landmarks 362 in
      let? plu_n_l := landmark update_face_landmarks 133 in
      let? plu_t_l := landmark update_face_landmarks 33 in
      (* draw 4 eye points *)
      let render_data := AddPointRenderData options (landmark_point plu_t_r) render_data in
      let render_data := AddPointRenderData options (landmark_point plu_n_r) render_data in
      let render_data := AddPointRenderData options (landmark_point plu_n_l) render_data in
      let render_data := AddPointRenderData options (landmark_point plu_t_l) render_data in
      (* iris plu size *)
      let raw_iris_size := raw_plu_iris_size left_iris_size right_iris_size in
      if (raw_iris_size >? of_int 0)%f32 then
        let det := detect s left_iris_size right_iris_size raw_iris_size
                     image_size plu_c_r plu_c_l plu_t_r plu_n_r plu_n_l plu_t_l in
        Some (det_state det, render_data, det_lines det, Some det)
      else Some (s, render_data, [], None)
  end.

Definition failed (message : string) (s : State) : Outcome :=
  {| status := InternalError message; state := s; RENDER_DATA := None |}.

(** [Process], together with the run of the detector block when there is
    one.  The result is [None] when an accessor is called out of range; a
    text baseline that comes from an undefined conversion is [None] inside
    the render data. *)
Definition Process_detect (options : IrisToRenderDataCalculatorOptions)
    (s : State) (cc : Frame) : option (Outcome * option Detection) :=
  match IRIS cc with
  | None =>
      (* Only process if there's input landmarks. *)
      Some ({| status := OkStatus; state := s; RENDER_DATA := None |}, None)
  | Some iris_landmarks =>
      if negb (landmark_size iris_landmarks =? kNumIrisLandmarksPerEye * 2)
      then Some (failed "Wrong number of iris landmarks" s, None)
      else
        match IMAGE_SIZE cc with
        | None => Some (failed "" s, None)
        | Some image_size =>
            let render_data : RenderData := [] in
            let? left_iris := GetLeftIris iris_landmarks [] in
            let? right_iris := GetRightIris iris_landmarks [] in
            let? left_iris_size := CalculateIrisDiameter left_iris image_size in
            let? right_iris_size := CalculateIrisDiameter right_iris image_size in
            let? render_data :=
              RenderIris left_iris options image_size left_iris_size render_data in
            let? render_data :=
              RenderIris right_iris options image_size right_iris_size render_data in
            let lines := depth_line "Left : " (LEFT_IRIS_DEPTH_MM cc) ++
                         depth_line "Right : " (RIGHT_IRIS_DEPTH_MM cc) in
            let? plu_c_r := landmark right_iris 0 in
            let? plu_c_l := landmark left_iris 0 in
            let? (s', render_data, face_lines, det) :=
              face_block options s cc image_size left_iris_size right_iris_size
                plu_c_r plu_c_l render_data in
            let lines := lines ++ face_lines in
            let render_data := AddTextRenderData options image_size lines render_data in
            Some ({| status := OkStatus; state := s';
                     RENDER_DATA := Some render_data |}, det)
        end
  end.

Definition Process (options : IrisToRenderDataCalculatorOptions)
    (s : State) (cc : Frame) : option Outcome :=
  option_map fst (Process_detect options s cc).

(** The detector run of a frame, if the block is entered. *)
Definition detection (options : IrisToRenderDataCalculatorOptions)
    (s : State) (cc : Frame) : option Detection :=
  let? r := Process_detect options s cc in snd r.

(** Frames in timestamp order through one calculator instance. *)
Fixpoint run (options : IrisToRenderDataCalculatorOptions) (s : State)
    (frames : list Frame) : option State :=
  match frames with
  | [] => Some s
  | cc :: rest =>
      let? r := Process options s cc in
      run options (state r) rest
  end.

(** ** Concrete inputs *)

Module Examples.

(** The decimal [n/d] as a [float] literal. *)
Definition dec (n d : Z) : float := (of_int n / of_int d)%f32.

Definition pt (a b : float) : NormalizedLandmark :=
  {| x := a; y := b; z := of_int 0 |}.

(** An eye of the iris input: centre, then the four boundary points at
    distance [r] in the order of the input (right, top, left, bottom). *)
Definition eye (cx cy r : float) : NormalizedLandmarkList :=
  [pt cx cy; pt (cx + r) cy; pt cx (cy - r); pt (cx - r) cy; pt cx (cy + r)]%f32.

Definition origin : NormalizedLandmark := pt (of_int 0) (of_int 0).

(** A 468-point face mesh with the four eye corners at their indices. *)
Definition face (t_l n_l t_r n_r : NormalizedLandmark) : NormalizedLandmarkList :=
  repeat origin 33 ++ [t_l] ++ repeat origin 99 ++ [n_l] ++
  repeat origin 129 ++ [t_r] ++ repeat origin 98 ++ [n_r] ++ repeat origin 105.

Definition options : IrisToRenderDataCalculatorOptions :=
  {| oval_color := {| color_r := 0; color_g := 0; color_b := 255 |};
     landmark_color := {| color_r := 255; color_g := 0; color_b := 0 |};
     oval_thickness := of_int 2;
     landmark_thickness := of_int 1;
     font_height_px := 50;
     horizontal_offset_px := 200;
     vertical_offset_px := 200;
     location := TOP_LEFT;
     font_face := 0 |}.

Definition half : float := dec 1 2.

(** Two irises of radius 0.02 around (0.3, 0.5) and (0.7, 0.5). *)
Definition iris10 : NormalizedLandmarkList :=
  eye (dec 3 10) half (dec 2 100) ++ eye (dec 7 10) half (dec 2 100).

(** The landmark of index [i] of [iris10]. *)
Definition lm (i : nat) : NormalizedLandmark := nth i iris10 origin.

Definition corners : NormalizedLandmarkList :=
  face (pt (dec 2 10) half) (pt (dec 4 10) half)
       (pt (dec 8 10) half) (pt (dec 6 10) half).

(** A 640x480 frame with all inputs. *)
Definition frame_full : Frame :=
  {| IRIS := Some iris10;
     NORM_LANDMARKS := Some corners;
     IMAGE_SIZE := Some (640, 480);
     LEFT_IRIS_DEPTH_MM := None;
     RIGHT_IRIS_DEPTH_MM := None |}.

(** 2^-70, a normalized coordinate next to the origin. *)
Definition tiny : float := S754_finite false 8388608 (-93).

(** Ten iris landmarks at the origin but the top of the first eye, which is
    2^-70 above it: the first iris is 240 * 2^-70 pixels wide, the second
    one 0. *)
Definition tiny_iris : NormalizedLandmarkList :=
  [origin; origin; pt (of_int 0) tiny; origin; origin;
   origin; origin; origin; origin; origin].

Definition frame (iris face_landmarks : NormalizedLandmarkList) : Frame :=
  {| IRIS := Some iris;
     NORM_LANDMARKS := Some face_landmarks;
     IMAGE_SIZE := Some (640, 480);
     LEFT_IRIS_DEPTH_MM := None;
     RIGHT_IRIS_DEPTH_MM := None |}.

(** The tiny iris with the eye corners of [corners], far apart. *)
Definition frame_tiny_far : Frame := frame tiny_iris corners.

(** The tiny iris with corner 263 at (2^-70, 0) and the others at the origin. *)
Definition frame_tiny_near : Frame :=
  frame tiny_iris (face origin origin (pt tiny (of_int 0)) origin).

(** The irises of [iris10] with the four corners on one point. *)
Definition frame_merged : Frame :=
  frame iris10 (face origin origin origin origin).

(** No face landmarks. *)
Definition frame_no_face : Frame :=
  {| IRIS := Some iris10;
     NORM_LANDMARKS := None;
     IMAGE_SIZE := Some (640, 480);
     LEFT_IRIS_DEPTH_MM := Some (of_int 500);
     RIGHT_IRIS_DEPTH_MM := None |}.

(** Nine iris landmarks. *)
Definition frame_nine : Frame :=
  {| IRIS := Some (removelast iris10);
     NORM_LANDMARKS := Some corners;
     IMAGE_SIZE := Some (640, 480);
     LEFT_IRIS_DEPTH_MM := None;
     RIGHT_IRIS_DEPTH_MM := None |}.

(** Face landmarks only: no iris landmarks and no image size. *)
Definition frame_face_only : Frame :=
  {| IRIS := None;
     NORM_LANDMARKS := Some corners;
     IMAGE_SIZE := None;
     LEFT_IRIS_DEPTH_MM := None;
     RIGHT_IRIS_DEPTH_MM := None |}.

(** A face list of 362 points: index 362 is missing. *)
Definition frame_short_face : Frame :=
  frame iris10 (firstn 362 corners).

(** The irises of [iris10] with the centre of the second one moved to
    x = 0.78, between corner 362 at x = 0.6 and corner 263 at x = 0.8. *)
Definition frame_shifted : Frame :=
  frame (eye (dec 3 10) half (dec 2 100) ++ eye (dec 78 100) half (dec 2 100))
        corners.

(** The coordinates of a frame are binary32 values in canonical form. *)
Definition valid (v : float) : bool := valid_binary prec emax v.

Definition valid_landmarks (lds : option NormalizedLandmarkList) : bool :=
  match lds with
  | Some l => forallb (fun ld => valid (x ld) && valid (y ld) && valid (z ld)) l
  | None => true
  end.

Definition unit_interval (v : float) : bool :=
  leb (of_int 0) v && leb v (of_int 1).

Definition normalized_landmarks (lds : option NormalizedLandmarkList) : bool :=
  match lds with
  | Some l => forallb (fun ld => unit_interval (x ld) && unit_interval (y ld)) l
  | None => true
  end.

(** A frame of canonical binary32 coordinates, all within [0, 1]. *)
Definition well_formed (cc : Frame) : bool :=
  valid_landmarks (IRIS cc) && valid_landmarks (NORM_LANDMARKS cc) &&
  normalized_landmarks (IRIS cc) && normalized_landmarks (NORM_LANDMARKS cc).

(** The outcome of a defined call, for the examples below. *)
Definition outcome_of (r : option Outcome) : Outcome :=
  match r with Some o => o | None => failed "undefined" initial end.

Definition state_of (s : option State) : State :=
  match s with Some s' => s' | None => initial end.

(** The first call on [frame_full]. *)
Definition outcome_full : Outcome :=
  Eval vm_compute in outcome_of (Process options initial frame_full).

(** The members after [frame_full; frame_merged; frame_full]. *)
Definition state_full3 : State :=
  Eval vm_compute in
    state_of (run options initial [frame_full; frame_merged; frame_full]).

(** The members after [frame_tiny_far]. *)
Definition state_far : State :=
  Eval vm_compute in state_of (run options initial [frame_tiny_far]).

(** The members after [frame_tiny_far; frame_full]. *)
Definition state_far_full : State :=
  Eval vm_compute in state_of (run options initial [frame_tiny_far; frame_full]).

(** The members after [frame_tiny_near; frame_tiny_far]. *)
Definition state_near_far : State :=
  Eval vm_compute in
    state_of (run options initial [frame_tiny_near; frame_tiny_far]).

(** The members after [frame_full; frame_shifted; frame_full]. *)
Definition state_shifted : State :=
  Eval vm_compute in
    state_of (run options initial [frame_full; frame_shifted; frame_full]).

Definition detection_of (d : option Detection) : Detection :=
  match d with
  | Some det => det
  | None => detect initial (of_int 0) (of_int 0) (of_int 0) (0, 0)
              origin origin origin origin origin origin
  end.

(** The detector run of [frame_merged] after [frame_tiny_near; frame_tiny_far]. *)
Definition detection_merged : Detection :=
  Eval vm_compute in
    detection_of (detection options state_near_far frame_merged).

(** The detector run of [frame_merged] on a new instance. *)
Definition detection_merged_first : Detection :=
  Eval vm_compute in detection_of (detection options initial frame_merged).

(** The detector run of [frame_full] after [frame_full]. *)
Definition detection_full_second : Detection :=
  Eval vm_compute in
    detection_of (detection options (state outcome_full) frame_full).

End Examples.

(** ** Iris geometry *)

(** The formulas of the specification, in its words. *)

(** A normalized landmark in pixel space. *)
Definition to_pixels (ld : NormalizedLandmark) (image_size : Z * Z)
  : float * float :=
  ((x ld * of_int (fst image_size))%f32, (y ld * of_int (snd image_size))%f32).

Definition euclidean (p q : float * float) : float :=
  sqrt ((fst p - fst q) * (fst p - fst q) + (snd p - snd q) * (snd p - snd q))%f32.

Definition chord (a b : NormalizedLandmark) (image_size : Z * Z) : float :=
  euclidean (to_pixels a image_size) (to_pixels b image_size).

(** diameter = (chord(top, bottom) + chord(left, right)) / 2 *)
Definition spec_diameter (top bottom left right : NormalizedLandmark)
    (image_size : Z * Z) : float :=
  ((chord top bottom image_size + chord left right image_size) / of_int 2)%f32.

(** depth = 11.8 * sqrt(focal^2 + dist(image_center, center_px)^2) / iris_size *)
Definition spec_depth_mm (center : NormalizedLandmark)
    (focal_length_px iris_size_px img_w img_h : float) : float :=
  let image_center := ((img_w / of_int 2)%f32, (img_h / of_int 2)%f32) in
  let center_px := ((x center * img_w)%f32, (y center * img_h)%f32) in
  let dist := euclidean image_center center_px in
  (kIrisSizeInMM * sqrt (focal_length_px * focal_length_px + dist * dist)
   / iris_size_px)%f32.

(** ** Distances in millimetres *)

(** The specification rescales all raw pixel distances by the factor
    11.8 / smoothed aggregate iris size.  Along one axis, the distance between
    two normalized coordinates is their absolute difference, taken as
    sqrt(d * d), times the image extent in pixels times the factor. *)
Definition scaled_extent (scale : float) (extent : Z) (a b : float) : float :=
  (sqrt ((a - b) * (a - b)) * (of_int extent * scale))%f32.

(** The segment from [p] to [q] in millimetres: its extent along x, its
    extent along y, and its length. *)
Definition scaled_segment (scale : float) (image_size : Z * Z)
    (p q : NormalizedLandmark) : list float :=
  let dx := scaled_extent scale (fst image_size) (x p) (x q) in
  let dy := scaled_extent scale (snd image_size) (y p) (y q) in
  [dx; dy; sqrt (dx * dx + dy * dy)%f32].

(** The 18 raw distances of a frame, in the order of declaration of the
    channels: the segment between the two corners of an eye (a), from its
    outer corner to the iris centre (t) and from its inner corner to the iris
    centre (n), each for the right eye, then for the left eye. *)
Definition spec_raw_distances (scale : float) (image_size : Z * Z)
    (c_r c_l t_r n_r n_l t_l : NormalizedLandmark) : list float :=
  flat_map (fun s => scaled_segment scale image_size (fst s) (snd s))
    [(t_r, n_r); (t_l, n_l); (t_r, c_r); (t_l, c_l); (n_r, c_r); (n_l, c_l)].

(** ** Warning counters and deltas as lists, in the order of declaration *)

Definition counter_values (w : Counters) : list Z :=
  [delta_plu_r_x_count w; delta_plu_l_x_count w; delta_plu_r_y_count w;
   delta_plu_l_y_count w; delta_plu_r_count w; delta_plu_l_count w;
   delta_plu_x_count w; delta_plu_y_count w; delta_plu_count w].

Definition delta_values (d : Deltas) : list float :=
  [delta_plu_r_x d; delta_plu_l_x d; delta_plu_r_y d; delta_plu_l_y d;
   delta_plu_r d; delta_plu_l d; delta_plu_x d; delta_plu_y d; delta_plu d].

(** Which of the nine deltas of a frame exceed the threshold; none does on
    a frame that computes no delta. *)
Definition frame_exceeds (options : IrisToRenderDataCalculatorOptions)
    (s : State) (cc : Frame) : list bool :=
  match detection options s cc with
  | Some det =>
      map (fun v => (v >? kDeltaStrabismusThresholdInMM)%f32)
          (delta_values (det_deltas det))
  | None => repeat false 9
  end.

(** Each counter plus 1 where its flag is set, plus 0 elsewhere. *)
Fixpoint add_flags (counts : list Z) (flags : list bool) : list Z :=
  match counts, flags with
  | c :: counts', b :: flags' => (if b then c + 1 else c) :: add_flags counts' flags'
  | _, _ => []
  end.

(** Along a sequence of frames, every frame moves the counters by its flags. *)
Fixpoint counted_by_frame (options : IrisToRenderDataCalculatorOptions)
    (s : State) (frames : list Frame) : Prop :=
  match frames with
  | [] => True
  | cc :: rest =>
      match Process options s cc with
      | Some r =>
          counter_values (warn (state r))
          = add_flags (counter_values (warn s)) (frame_exceeds options s cc) /\
          Forall2 Z.le (counter_values (warn s)) (counter_values (warn (state r))) /\
          counted_by_frame options (state r) rest
      | None => True
      end
  end.

(** The counters are non-negative and leave room for [n] increments of an
    [int]. *)
Definition counters_fit (n : Z) (w : Counters) : Prop :=
  Forall (fun c => 0 <= c /\ c + n <= INT_MAX) (counter_values w).

(** ** Baseline and deltas *)

(** The guard of the baseline write is closed: the stored reference
    [last_plu_dt_a_r] is neither negative nor infinite. *)
Definition sealed (s : State) : bool :=
  negb ((last_plu_dt_a_r s <? of_int 0)%f32 || isinf (last_plu_dt_a_r s)).

(** The frame writes the baseline: the detector block runs on it, the guard
    is open, and the updated [plu_dt_a_r] is above zero. *)
Definition freezes (options : IrisToRenderDataCalculatorOptions)
    (s : State) (cc : Frame) : bool :=
  match detection options s cc with
  | Some det =>
      negb (sealed s) && (plu_dt_a_r (det_state det) >? of_int 0)%f32
  | None => false
  end.

(** The specification's delta of one side and axis:
    ((inner - inner baseline) - (outer - outer baseline)) * 4.0 / 2. *)
Definition spec_delta (inner inner_baseline outer outer_baseline : float)
  : float :=
  (((inner - inner_baseline) - (outer - outer_baseline)) * of_int 4 / of_int 2)%f32.

(** The nine deltas of the specification: n is the inner-corner-to-centre
    segment, t the outer-corner-to-centre one; an aggregate delta is the left
    delta minus the right one. *)
Definition spec_deltas (baseline current : Distances) : Deltas :=
  let r_x := spec_delta (dt_n_r_x current) (dt_n_r_x baseline)
                        (dt_t_r_x current) (dt_t_r_x baseline) in
  let l_x := spec_delta (dt_n_l_x current) (dt_n_l_x baseline)
                        (dt_t_l_x current) (dt_t_l_x baseline) in
  let r_y := spec_delta (dt_n_r_y current) (dt_n_r_y baseline)
                        (dt_t_r_y current) (dt_t_r_y baseline) in
  let l_y := spec_delta (dt_n_l_y current) (dt_n_l_y baseline)
                        (dt_t_l_y current) (dt_t_l_y baseline) in
  let r := spec_delta (dt_n_r current) (dt_n_r baseline)
                      (dt_t_r current) (dt_t_r baseline) in
  let l := spec_delta (dt_n_l current) (dt_n_l baseline)
                      (dt_t_l current) (dt_t_l baseline) in
  {| delta_plu_r_x := r_x;
     delta_plu_l_x := l_x;
     delta_plu_r_y := r_y;
     delta_plu_l_y := l_y;
     delta_plu_r := r;
     delta_plu_l := l;
     delta_plu_x := (l_x - r_x)%f32;
     delta_plu_y := (l_y - r_y)%f32;
     delta_plu := (l - r)%f32 |}.

Definition all_unavailable : Deltas :=
  {| delta_plu_r_x := unavailable;
     delta_plu_l_x := unavailable;
     delta_plu_r_y := unavailable;
     delta_plu_l_y := unavailable;
     delta_plu_r := unavailable;
     delta_plu_l := unavailable;
     delta_plu_x := unavailable;
     delta_plu_y := unavailable;
     delta_plu := unavailable |}.

(** ** Channels as lists, in the order of declaration *)

Definition distance_values (d : Distances) : list float :=
  [dt_a_r_x d; dt_a_r_y d; dt_a_r d; dt_a_l_x d; dt_a_l_y d; dt_a_l d;
   dt_t_r_x d; dt_t_r_y d; dt_t_r d; dt_t_l_x d; dt_t_l_y d; dt_t_l d;
   dt_n_r_x d; dt_n_r_y d; dt_n_r d; dt_n_l_x d; dt_n_l_y d; dt_n_l d].

(** Every stored value smoothed with the raw value of the same position. *)
Fixpoint smoothed_each (stored raw : list float) : list float :=
  match stored, raw with
  | v :: stored', r :: raw' => smoothed v r :: smoothed_each stored' raw'
  | _, _ => []
  end.

(** ** Render data of a frame *)

(** The text lines of a list of annotations, in order. *)
Definition text_lines (render_data : RenderData) : list Line :=
  flat_map (fun a => match data a with
                     | Text line _ _ _ _ => [line]
                     | _ => []
                     end) render_data.

(** The oval of an iris: the rectangle around its centre, half the diameter
    wide in pixels on each side, in normalized coordinates. *)
Definition oval_annotation (options : IrisToRenderDataCalculatorOptions)
    (center : NormalizedLandmark) (iris_size : float) (image_size : Z * Z)
  : RenderAnnotation :=
  let radius := (iris_size / of_int 2)%f32 in
  {| scene_tag := Some "OVAL"%string;
     color := oval_color options;
     thickness := oval_thickness options;
     data := Oval (y center - radius / of_int (snd image_size))%f32
                  (y center + radius / of_int (snd image_size))%f32
                  (x center - radius / of_int (fst image_size))%f32
                  (x center + radius / of_int (fst image_size))%f32
                  true |}.

Definition point_annotation (options : IrisToRenderDataCalculatorOptions)
    (ld : NormalizedLandmark) : RenderAnnotation :=
  {| scene_tag := None;
     color := landmark_color options;
     thickness := landmark_thickness options;
     data := Point (x ld) (y ld) true |}.

(** The annotations of one eye: its oval, then a point per landmark. *)
Definition iris_annotations (options : IrisToRenderDataCalculatorOptions)
    (center : NormalizedLandmark) (eye : NormalizedLandmarkList)
    (iris_size : float) (image_size : Z * Z) : RenderData :=
  oval_annotation options center iris_size image_size ::
  map (point_annotation options) eye.

(** The lines of the two optional depth inputs. *)
Definition depth_lines (cc : Frame) : list Line :=
  depth_line "Left : " (LEFT_IRIS_DEPTH_MM cc) ++
  depth_line "Right : " (RIGHT_IRIS_DEPTH_MM cc).

(** ** Signs *)

(** The sign bit of a value is clear, or the value is NaN. *)
Definition sign_clear (v : float) : bool :=
  match v with
  | S754_zero s => negb s
  | S754_infinity s => negb s
  | S754_finite s _ _ => negb s
  | S754_nan => true
  end.

(** All 18 values of a group of channels satisfy [p]. *)
Definition all_distance_values (p : float -> bool) (d : Distances) : bool :=
  forallb p (distance_values d).

(** The six Euclidean lengths of a group of channels. *)
Definition euclidean_values (d : Distances) : list float :=
  [dt_a_r d; dt_a_l d; dt_t_r d; dt_t_l d; dt_n_r d; dt_n_l d].

(** [v < 0] is false. *)
Definition not_below_zero (v : float) : bool := negb (v <? of_int 0)%f32.

(** A NaN stays a NaN. *)
Definition stays_nan (a b : float) : Prop := a = S754_nan -> b = S754_nan.

(** ** More concrete inputs *)

Module MoreExamples.

(** The frame [Examples.frame_full] with a NaN abscissa at corner 263. *)
Definition frame_nan : Frame :=
  Examples.frame Examples.iris10
    (Examples.face (Examples.pt (Examples.dec 2 10) Examples.half)
                   (Examples.pt (Examples.dec 4 10) Examples.half)
                   (Examples.pt S754_nan Examples.half)
                   (Examples.pt (Examples.dec 6 10) Examples.half)).

(** The members after [frame_full; frame_nan]. *)
Definition state_nan : State :=
  Eval vm_compute in
    Examples.state_of
      (run Examples.options initial [Examples.frame_full; frame_nan]).

(** The members after [frame_full; frame_nan; frame_shifted; frame_full]. *)
Definition state_nan_later : State :=
  Eval vm_compute in
    Examples.state_of
      (run Examples.options initial
           [Examples.frame_full; frame_nan; Examples.frame_shifted;
            Examples.frame_full]).

(** Other options: bottom-left anchor, other colours and sizes. *)
Definition options_bottom : IrisToRenderDataCalculatorOptions :=
  {| oval_color := {| color_r := 0; color_g := 255; color_b := 0 |};
     landmark_color := {| color_r := 0; color_g := 0; color_b := 255 |};
     oval_thickness := of_int 4;
     landmark_thickness := of_int 3;
     font_height_px := 20;
     horizontal_offset_px := 10;
     vertical_offset_px := 0;
     location := BOTTOM_LEFT;
     font_face := 1 |}.

(** [Examples.options] with a font height of 2000000000 pixels. *)
Definition options_large_font : IrisToRenderDataCalculatorOptions :=
  {| oval_color := oval_color Examples.options;
     landmark_color := landmark_color Examples.options;
     oval_thickness := oval_thickness Examples.options;
     landmark_thickness := landmark_thickness Examples.options;
     font_height_px := 2000000000;
     horizontal_offset_px := horizontal_offset_px Examples.options;
     vertical_offset_px := vertical_offset_px Examples.options;
     location := TOP_LEFT;
     font_face := font_face Examples.options |}.

(** [Examples.frame_full] with both depth inputs. *)
Definition frame_full_depth : Frame :=
  {| IRIS := Some Examples.iris10;
     NORM_LANDMARKS := Some Examples.corners;
     IMAGE_SIZE := Some (640, 480);
     LEFT_IRIS_DEPTH_MM := Some (of_int 500);
     RIGHT_IRIS_DEPTH_MM := Some (of_int 510) |}.

(** The outcome of [frame_full_depth] on a new instance under
    [options_bottom]. *)
Definition outcome_full_depth : Outcome :=
  Eval vm_compute in
    Examples.outcome_of (Process options_bottom initial frame_full_depth).

End MoreExamples.

(** ** Layout of the text annotations *)

(** The height of a text line: the font height times 1.5, rounded up. *)
Definition label_height (options : IrisToRenderDataCalculatorOptions) : float :=
  ceil (of_int (font_height_px options) * kFontHeightScale)%f32.

(** The position of the first of [n] lines before it is stored in an [int]:
    the vertical offset plus one line height from the top, or the vertical
    offset plus the image height minus [n] line heights. *)
Definition first_position (options : IrisToRenderDataCalculatorOptions)
    (image_size : Z * Z) (n : nat) : float :=
  match location options with
  | TOP_LEFT => (of_int (vertical_offset_px options) + label_height options)%f32
  | BOTTOM_LEFT =>
      (of_int (vertical_offset_px options) +
       (of_int (snd image_size) - label_height options * of_int (Z.of_nat n)))%f32
  end.

(** The baseline of the first of [n] lines: the first position truncated
    toward zero, when that is an [int] (from -2^31 to 2^31 - 1); otherwise
    there is none. *)
Definition first_baseline (options : IrisToRenderDataCalculatorOptions)
    (image_size : Z * Z) (n : nat) : option Z :=
  match trunc (first_position options image_size n) with
  | Some b => if (- 2 ^ 31 <=? b) && (b <? 2 ^ 31) then Some b else None
  | None => None
  end.

(** The annotation of line number [i] when the first baseline is [first]:
    red, of thickness 2, [i] line heights below the first baseline. *)
Definition label_annotation (options : IrisToRenderDataCalculatorOptions)
    (first : Z) (i : nat) (line : Line) : RenderAnnotation :=
  {| scene_tag := None;
     color := {| color_r := 255; color_g := 0; color_b := 0 |};
     thickness := of_int 2;
     data := Text line (font_height_px options) (horizontal_offset_px options)
               (Some (of_int first + of_int (Z.of_nat i) * label_height options)%f32)
               (font_face options) |}.

(** The lines numbered from [i]. *)
Fixpoint numbered (i : nat) (lines : list Line) : list (nat * Line) :=
  match lines with
  | [] => []
  | line :: rest => (i, line) :: numbered (S i) rest
  end.

Definition label_annotations (options : IrisToRenderDataCalculatorOptions)
    (first : Z) (lines : list Line) : RenderData :=
  map (fun p => label_annotation options first (fst p) (snd p))
      (numbered 0 lines).

(** The baseline of a text annotation, when the annotation is a text. *)
Definition text_baseline (a : RenderAnnotation) : option (option float) :=
  match data a with
  | Text _ _ _ baseline _ => Some baseline
  | _ => None
  end.

(** The four eye corners of a face landmark list, in the order they are
    drawn. *)
Definition face_corners (face : option NormalizedLandmarkList)
  : list NormalizedLandmark :=
  match face with
  | Some fl =>
      flat_map (fun i => match nth_error fl i with
                         | Some ld => [ld]
                         | None => []
                         end) [263; 362; 133; 33]%nat
  | None => []
  end.

(** The diagnostic lines of the detector run of a frame, if any. *)
Definition frame_detector_lines (options : IrisToRenderDataCalculatorOptions)
    (s : State) (cc : Frame) : list Line :=
  match detection options s cc with
  | Some det => det_lines det
  | None => []
  end.

(** ** Deltas at the baseline *)

(** A zero or a finite number. *)
Definition finite_value (v : float) : bool :=
  match v with
  | S754_zero _ | S754_finite _ _ _ => true
  | _ => false
  end.

(** The 12 channels the deltas are taken from: the inner (n) and outer (t)
    corner-to-centre segments. *)
Definition inner_outer_values (d : Distances) : list float :=
  [dt_t_r_x d; dt_t_r_y d; dt_t_r d; dt_t_l_x d; dt_t_l_y d; dt_t_l d;
   dt_n_r_x d; dt_n_r_y d; dt_n_r d; dt_n_l_x d; dt_n_l_y d; dt_n_l d].

Definition all_zero : Deltas :=
  {| delta_plu_r_x := of_int 0;
     delta_plu_l_x := of_int 0;
     delta_plu_r_y := of_int 0;
     delta_plu_l_y := of_int 0;
     delta_plu_r := of_int 0;
     delta_plu_l := of_int 0;
     delta_plu_x := of_int 0;
     delta_plu_y := of_int 0;
     delta_plu := of_int 0 |}.

(** * Properties *)



(** ** Facts of binary32 arithmetic used below *)

Lemma add_comm (a b : float) : (a + b)%f32 = (b + a)%f32.
Proof.
  destruct a as [[|]|[|]| |sa ma ea], b as [[|]|[|]| |sb mb eb];
    try reflexivity.
  unfold add, SFadd. cbv zeta.
  rewrite (Z.min_comm eb ea). f_equal. apply Z.add_comm.
Qed.

Lemma compare_antisym (a b : float) (c : comparison) :
  SFcompare a b = Some c -> SFcompare b a = Some (CompOpp c).
Proof.
  destruct a as [sa|sa| |sa ma ea], b as [sb|sb| |sb mb eb]; simpl;
    try discriminate;
    try (destruct sa; intros [= <-]; reflexivity);
    try (destruct sb; intros [= <-]; reflexivity);
    try (intros [= <-]; reflexivity).
  - destruct sa, sb; intros [= <-]; reflexivity.
  - destruct sa, sb; intros [= <-]; try reflexivity;
      rewrite (Z.compare_antisym ea eb);
      destruct (ea ?= eb) eqn:E; simpl; try reflexivity;
      rewrite (Pos.compare_cont_antisym ma mb Eq); reflexivity.
Qed.

(** For operands that are not NaN, [a < b] is false exactly when [b <= a]. *)
Lemma ltb_false_leb (a b : float) :
  isnan a = false -> isnan b = false -> (a <? b)%f32 = false -> leb b a = true.
Proof.
  unfold ltb, leb, SFltb, SFleb. intros Ha Hb.
  destruct (SFcompare a b) as [c|] eqn:E.
  - rewrite (compare_antisym _ _ _ E). destruct c; simpl; congruence.
  - destruct a, b; simpl in *; try discriminate;
      repeat match goal with s : bool |- _ => destruct s end; discriminate.
Qed.

Lemma ltb_leb (a b : float) : (a <? b)%f32 = true -> leb a b = true.
Proof.
  unfold ltb, leb, SFltb, SFleb.
  destruct (SFcompare a b) as [[| |]|]; congruence.
Qed.

Lemma leb_refl (a : float) : isnan a = false -> leb a a = true.
Proof.
  unfold leb, SFleb. destruct a as [s|s| |s m e]; simpl; try discriminate;
    intros _; try reflexivity; destruct s; try reflexivity;
    rewrite Z.compare_refl, Pos.compare_cont_refl; reflexivity.
Qed.

(** A value above zero is not below zero. *)
Lemma gtb_zero_not_ltb (a : float) :
  (a >? of_int 0)%f32 = true -> (a <? of_int 0)%f32 = false.
Proof.
  unfold gtb, ltb, SFltb. intros H.
  destruct (SFcompare (of_int 0) a) as [c|] eqn:E; try discriminate.
  rewrite (compare_antisym _ _ _ E). destruct c; try discriminate.
  reflexivity.
Qed.

(** ** The example frames *)

(** Every example frame holds canonical binary32 coordinates within [0, 1]. *)
Example example_frames_well_formed :
  forallb Examples.well_formed
    [Examples.frame_full; Examples.frame_shifted; Examples.frame_tiny_far;
     Examples.frame_tiny_near; Examples.frame_merged; Examples.frame_no_face;
     Examples.frame_nine; Examples.frame_face_only; Examples.frame_short_face]
  = true.
Proof. vm_compute. reflexivity. Qed.

(** The constants are the binary32 values nearest to their decimals. *)
Example constants_rounded :
  kIrisSizeInMM = (of_int 118 / of_int 10)%f32 /\
  kDepthWeightUpdate = (of_int 1 / of_int 10)%f32 /\
  kFontHeightScale = (of_int 3 / of_int 2)%f32.
Proof. repeat split; vm_compute; reflexivity. Qed.
(** ** Landmark partitioner *)

(** C7. For every 10-point iris landmark list, [GetLeftIris] and
    [GetRightIris] (each started on an empty output list) are defined and
    give two 5-point lists in the order centre, top, bottom, left, right:
    the first eye holds the input landmarks of indices 0, 2, 4, 3, 1 and the
    second those of indices 5, 7, 9, 6, 8.  In particular the first element of
    each eye is the input landmark at index 0, respectively 5.  The input list
    is only read: it is an argument of the two functions, which return the
    new lists. *)
Theorem partition_fixed_indices (lds : NormalizedLandmarkList) :
  List.length lds = 10%nat ->
  exists left_iris right_iris,
    GetLeftIris lds [] = Some left_iris /\
    GetRightIris lds [] = Some right_iris /\
    List.length left_iris = 5%nat /\
    List.length right_iris = 5%nat /\
    map Some left_iris = map (nth_error lds) [0; 2; 4; 3; 1]%nat /\
    map Some right_iris = map (nth_error lds) [5; 7; 9; 6; 8]%nat /\
    nth_error left_iris 0 = nth_error lds 0 /\
    nth_error right_iris 0 = nth_error lds 5.
Proof.
  intros H.
  do 10 (destruct lds as [|? lds]; [discriminate H|]).
  destruct lds; [|discriminate H].
  eexists. eexists. repeat split; reflexivity.
Qed.

Lemma partition_fixed_indices_witness :
  List.length Examples.iris10 = 10%nat /\
  exists left_iris right_iris,
    GetLeftIris Examples.iris10 [] = Some left_iris /\
    GetRightIris Examples.iris10 [] = Some right_iris /\
    List.length left_iris = 5%nat /\
    List.length right_iris = 5%nat /\
    map Some left_iris = map (nth_error Examples.iris10) [0; 2; 4; 3; 1]%nat /\
    map Some right_iris = map (nth_error Examples.iris10) [5; 7; 9; 6; 8]%nat /\
    nth_error left_iris 0 = nth_error Examples.iris10 0 /\
    nth_error right_iris 0 = nth_error Examples.iris10 5.
Proof.
  split; [reflexivity|].
  apply (partition_fixed_indices Examples.iris10). reflexivity.
Defined.

(** ** Iris geometry *)

Lemma CalculateIrisDiameter_spec
    (center top bottom left right : NormalizedLandmark) (image_size : Z * Z) :
  CalculateIrisDiameter [center; top; bottom; left; right] image_size
  = Some (spec_diameter top bottom left right image_size).
Proof.
  unfold CalculateIrisDiameter, spec_diameter, chord. simpl.
  rewrite add_comm. reflexivity.
Qed.

(** C8. For every partitioned eye (centre, top, bottom, left, right) and
    every image size, [CalculateIrisDiameter] is defined and equals the
    average of the pixel-space distance from top to bottom and of that from
    left to right, the normalized coordinates being scaled by the image width
    and height before the distance is taken; and for every centre landmark,
    focal length, iris size and image size, [CalculateDepth] equals
    11.8 * sqrt(focal_length^2 + dist(image_centre, centre_px)^2) / iris_size,
    all operations being those of binary32. *)
Theorem iris_geometry_formulas :
  (forall (center top bottom left right : NormalizedLandmark)
          (image_size : Z * Z),
      CalculateIrisDiameter [center; top; bottom; left; right] image_size
      = Some (spec_diameter top bottom left right image_size)) /\
  (forall (center : NormalizedLandmark)
          (focal_length iris_size img_w img_h : float),
      CalculateDepth center focal_length iris_size img_w img_h
      = spec_depth_mm center focal_length iris_size img_w img_h).
Proof.
  split.
  - apply CalculateIrisDiameter_spec.
  - intros. reflexivity.
Qed.

(** The diameter of each eye of a 10-point input, through the partition. *)
Lemma diameter_of_partition (l0 l1 l2 l3 l4 l5 l6 l7 l8 l9 : NormalizedLandmark)
    (image_size : Z * Z) :
  let lds := [l0; l1; l2; l3; l4; l5; l6; l7; l8; l9] in
  (let? e := GetLeftIris lds [] in CalculateIrisDiameter e image_size)
  = Some (spec_diameter l2 l4 l3 l1 image_size) /\
  (let? e := GetRightIris lds [] in CalculateIrisDiameter e image_size)
  = Some (spec_diameter l7 l9 l6 l8 image_size).
Proof.
  split; simpl; apply CalculateIrisDiameter_spec.
Qed.

(** ** The shape of a call of [Process] *)

Ltac bind_case H :=
  match type of H with
  | bind ?m _ = Some _ =>
      let E := fresh "E" in
      destruct m eqn:E; cbn [bind] in H; [|discriminate H]
  end.

Lemma face_block_inv options s cc image_size left_size right_size
    plu_c_r plu_c_l rd s' rd' lines det :
  face_block options s cc image_size left_size right_size plu_c_r plu_c_l rd
  = Some (s', rd', lines, det) ->
  match det with
  | None => s' = s /\ lines = []
  | Some d =>
      exists update_face_landmarks plu_t_r plu_n_r plu_n_l plu_t_l,
        NORM_LANDMARKS cc = Some update_face_landmarks /\
        landmark update_face_landmarks 263 = Some plu_t_r /\
        landmark update_face_landmarks 362 = Some plu_n_r /\
        landmark update_face_landmarks 133 = Some plu_n_l /\
        landmark update_face_landmarks 33 = Some plu_t_l /\
        (raw_plu_iris_size left_size right_size >? of_int 0)%f32 = true /\
        d = detect s left_size right_size
              (raw_plu_iris_size left_size right_size) image_size
              plu_c_r plu_c_l plu_t_r plu_n_r plu_n_l plu_t_l /\
        s' = det_state d /\ lines = det_lines d
  end.
Proof.
  unfold face_block. intros H.
  destruct (NORM_LANDMARKS cc) as [fl|].
  - do 4 bind_case H.
    destruct (raw_plu_iris_size left_size right_size >? of_int 0)%f32 eqn:G;
      injection H as <- <- <- <-.
    + exists fl. do 4 eexists. repeat split; eassumption || reflexivity.
    + split; reflexivity.
  - injection H as <- <- <- <-. split; reflexivity.
Qed.

(** A call either leaves the members alone or is one run of the detector
    block, on a frame that returns [OkStatus]. *)
Lemma Process_detect_inv options s cc r det :
  Process_detect options s cc = Some (r, det) ->
  match det with
  | None => state r = s
  | Some d =>
      status r = OkStatus /\ state r = det_state d /\
      exists left_size right_size image_size c_r c_l t_r n_r n_l t_l,
        (raw_plu_iris_size left_size right_size >? of_int 0)%f32 = true /\
        d = detect s left_size right_size
              (raw_plu_iris_size left_size right_size) image_size
              c_r c_l t_r n_r n_l t_l
  end.
Proof.
  unfold Process_detect. intros H.
  destruct (IRIS cc) as [iris|].
  2:{ injection H as <- <-. reflexivity. }
  destruct (negb _).
  { injection H as <- <-. reflexivity. }
  destruct (IMAGE_SIZE cc) as [image_size|].
  2:{ injection H as <- <-. reflexivity. }
  do 8 bind_case H.
  bind_case H. destruct p as [[[s' rd'] lines] det'].
  injection H as <- <-. simpl.
  apply face_block_inv in E7.
  destruct det' as [d|].
  - destruct E7 as (fl & t_r & n_r & n_l & t_l & _ & _ & _ & _ & _ & G & -> & -> & _).
    repeat split. do 9 eexists. split; [exact G|reflexivity].
  - apply E7.
Qed.

Lemma Process_detection options s cc r :
  Process options s cc = Some r ->
  Process_detect options s cc = Some (r, detection options s cc).
Proof.
  unfold Process, detection.
  destruct (Process_detect options s cc) as [[r' det]|]; simpl; [|discriminate].
  intros [= ->]. reflexivity.
Qed.

Lemma detection_Process options s cc det :
  detection options s cc = Some det ->
  exists r, Process options s cc = Some r /\
            Process_detect options s cc = Some (r, Some det).
Proof.
  unfold Process, detection.
  destruct (Process_detect options s cc) as [[r' det']|]; simpl; [|discriminate].
  intros ->. exists r'. split; reflexivity.
Qed.

(** Without a detector run the members are those before the call. *)
Lemma Process_no_detection options s cc r :
  Process options s cc = Some r ->
  detection options s cc = None -> state r = s.
Proof.
  intros H D. apply Process_detection in H. rewrite D in H.
  apply (Process_detect_inv _ _ _ _ _ H).
Qed.

(** With a detector run the members are those it leaves. *)
Lemma Process_with_detection options s cc r det :
  Process options s cc = Some r ->
  detection options s cc = Some det ->
  status r = OkStatus /\ state r = det_state det /\
  exists left_size right_size image_size c_r c_l t_r n_r n_l t_l,
    (raw_plu_iris_size left_size right_size >? of_int 0)%f32 = true /\
    det = detect s left_size right_size
            (raw_plu_iris_size left_size right_size) image_size
            c_r c_l t_r n_r n_l t_l.
Proof.
  intros H D. apply Process_detection in H. rewrite D in H.
  apply (Process_detect_inv _ _ _ _ _ H).
Qed.

(** ** What one run of the detector block leaves *)

Section Detect.
Variables (s : State) (left_size right_size raw_iris : float)
          (image_size : Z * Z)
          (c_r c_l t_r n_r n_l t_l : NormalizedLandmark).

Lemma detect_iris_size :
  let det := (detect s left_size right_size raw_iris image_size
                    c_r c_l t_r n_r n_l t_l) in
  plu_iris_size (det_state det) = smoothed (plu_iris_size s) raw_iris.
Proof. reflexivity. Qed.

Lemma detect_raw_iris_size :
  let det := (detect s left_size right_size raw_iris image_size
                    c_r c_l t_r n_r n_l t_l) in
  det_raw_iris_size det = raw_iris.
Proof. reflexivity. Qed.

Lemma detect_ratio :
  let det := (detect s left_size right_size raw_iris image_size
                    c_r c_l t_r n_r n_l t_l) in
  det_ratio det = (kIrisSizeInMM / plu_iris_size (det_state det))%f32.
Proof. reflexivity. Qed.

Lemma detect_raw :
  let det := (detect s left_size right_size raw_iris image_size
                    c_r c_l t_r n_r n_l t_l) in
  det_raw det
  = raw_plu_dt (of_int (fst image_size) * det_ratio det)%f32
               (of_int (snd image_size) * det_ratio det)%f32
               c_r c_l t_r n_r n_l t_l.
Proof. reflexivity. Qed.

Lemma detect_plu :
  let det := (detect s left_size right_size raw_iris image_size
                    c_r c_l t_r n_r n_l t_l) in
  plu (det_state det) = update_plu_dt (plu s) (det_raw det).
Proof. reflexivity. Qed.

Lemma detect_deltas :
  let det := (detect s left_size right_size raw_iris image_size
                    c_r c_l t_r n_r n_l t_l) in
  det_deltas det = calculate_delta (last_plu s) (plu (det_state det)).
Proof. reflexivity. Qed.

Lemma detect_warn :
  let det := (detect s left_size right_size raw_iris image_size
                    c_r c_l t_r n_r n_l t_l) in
  warn (det_state det) = count_warnings (warn s) (det_deltas det).
Proof. reflexivity. Qed.

Lemma detect_last_plu :
  let det := (detect s left_size right_size raw_iris image_size
                    c_r c_l t_r n_r n_l t_l) in
  last_plu (det_state det)
  = update_last_plu_dt (last_plu s) (plu (det_state det)).
Proof. reflexivity. Qed.

End Detect.

(** The same facts for the detector run of a frame. *)
Lemma detection_facts options s cc det :
  detection options s cc = Some det ->
  (det_raw_iris_size det >? of_int 0)%f32 = true /\
  plu_iris_size (det_state det)
  = smoothed (plu_iris_size s) (det_raw_iris_size det) /\
  det_ratio det = (kIrisSizeInMM / plu_iris_size (det_state det))%f32 /\
  plu (det_state det) = update_plu_dt (plu s) (det_raw det) /\
  det_deltas det = calculate_delta (last_plu s) (plu (det_state det)) /\
  warn (det_state det) = count_warnings (warn s) (det_deltas det) /\
  last_plu (det_state det)
  = update_last_plu_dt (last_plu s) (plu (det_state det)).
Proof.
  intros H. destruct (detection_Process _ _ _ _ H) as (r & Hr & _).
  destruct (Process_with_detection _ _ _ _ _ Hr H)
    as (_ & _ & ls & rs & sz & c_r & c_l & t_r & n_r & n_l & t_l & G & ->).
  split; [exact G|].
  split; [apply detect_iris_size|].
  split; [apply detect_ratio|].
  split; [apply detect_plu|].
  split; [apply detect_deltas|].
  split; [apply detect_warn|apply detect_last_plu].
Qed.

(** ** Warning counters *)

Lemma incr_fits (c : Z) : 0 <= c -> c + 1 <= INT_MAX -> incr c = c + 1.
Proof.
  unfold incr, wrap_int, INT_MAX. intros H0 H1.
  rewrite Z.mod_small; lia.
Qed.

Lemma add_flags_le (counts : list Z) :
  forall flags, List.length flags = List.length counts ->
                Forall2 Z.le counts (add_flags counts flags).
Proof.
  induction counts as [|c counts IH]; intros [|b flags] H; simpl in *;
    try discriminate; constructor.
  - destruct b; lia.
  - apply IH. congruence.
Qed.

Lemma add_flags_fit (n : Z) (counts : list Z) :
  forall flags,
    List.length flags = List.length counts ->
    Forall (fun c => 0 <= c /\ c + (n + 1) <= INT_MAX) counts ->
    Forall (fun c => 0 <= c /\ c + n <= INT_MAX) (add_flags counts flags).
Proof.
  induction counts as [|c counts IH]; intros [|b flags] H F; simpl in *;
    try discriminate; constructor; inversion F; subst.
  - destruct b; lia.
  - apply IH; congruence.
Qed.

Lemma add_no_flags (counts : list Z) :
  add_flags counts (repeat false (List.length counts)) = counts.
Proof. induction counts; simpl; congruence. Qed.

Lemma Forall2_le_trans (a b c : list Z) :
  Forall2 Z.le a b -> Forall2 Z.le b c -> Forall2 Z.le a c.
Proof.
  intros H. revert c. induction H; intros c' H'; inversion H'; subst;
    constructor; [lia|auto].
Qed.

Lemma Forall2_le_refl (a : list Z) : Forall2 Z.le a a.
Proof. induction a; constructor; [lia|assumption]. Qed.

Lemma counters_fit_weaken (n m : Z) (w : Counters) :
  m <= n -> counters_fit n w -> counters_fit m w.
Proof.
  unfold counters_fit. intros H F.
  eapply Forall_impl; [|exact F]. simpl. intros c Hc. lia.
Qed.

(** The nine conditional increments, as a list. *)
Lemma count_warnings_values (w : Counters) (d : Deltas) :
  counters_fit 1 w ->
  counter_values (count_warnings w d)
  = add_flags (counter_values w)
      (map (fun v => (v >? kDeltaStrabismusThresholdInMM)%f32) (delta_values d)).
Proof.
  unfold counters_fit, counter_values. intros F.
  repeat match goal with
         | H : Forall _ (_ :: _) |- _ =>
             apply Forall_cons_iff in H; destruct H as [[? ?] H]
         end.
  unfold count_warnings, delta_values.
  cbn -[gtb incr Z.add kDeltaStrabismusThresholdInMM].
  repeat match goal with
         | |- context [incr ?c] => rewrite (incr_fits c) by assumption
         end.
  reflexivity.
Qed.

(** One frame: every counter moves by the flag of its delta. *)
Lemma Process_counters options s cc r :
  counters_fit 1 (warn s) ->
  Process options s cc = Some r ->
  counter_values (warn (state r))
  = add_flags (counter_values (warn s)) (frame_exceeds options s cc).
Proof.
  intros F H. unfold frame_exceeds.
  destruct (detection options s cc) as [det|] eqn:D.
  - destruct (Process_with_detection _ _ _ _ _ H D) as (_ & -> & _).
    destruct (detection_facts _ _ _ _ D) as (_ & _ & _ & _ & _ & -> & _).
    apply count_warnings_values, F.
  - rewrite (Process_no_detection _ _ _ _ H D).
    symmetry. apply (add_no_flags (counter_values (warn s))).
Qed.

Lemma frame_exceeds_length options s cc :
  List.length (frame_exceeds options s cc) = 9%nat.
Proof.
  unfold frame_exceeds. destruct (detection options s cc); reflexivity.
Qed.

(** C3. Along every sequence of frames through one instance whose [int]
    counters do not overflow (they start non-negative with room for one
    increment per frame), on each frame each of the 9 warning counters moves
    by exactly 1 if the corresponding delta of that frame exceeds the
    threshold 6.0 and by 0 otherwise (a frame that computes no delta moves
    none), whatever the size of the delta; hence no counter ever decreases,
    from one frame to the next and over the whole sequence; and [Open], the
    only other operation, leaves the counters as they are. *)
Theorem warning_counters_count_frames options s frames s' :
  counters_fit (Z.of_nat (List.length frames)) (warn s) ->
  run options s frames = Some s' ->
  counted_by_frame options s frames /\
  Forall2 Z.le (counter_values (warn s)) (counter_values (warn s')) /\
  counter_values (warn (snd (Open s'))) = counter_values (warn s').
Proof.
  revert s. induction frames as [|cc rest IH]; intros s F R.
  - injection R as <-. repeat split. apply Forall2_le_refl.
  - cbn [run] in R. destruct (Process options s cc) as [r|] eqn:P;
      [|discriminate R]. cbn [bind] in R.
    cbn [counted_by_frame]. rewrite P.
    assert (F1 : counters_fit 1 (warn s)).
    { eapply counters_fit_weaken; [|exact F]. cbn [List.length]. lia. }
    pose proof (Process_counters _ _ _ _ F1 P) as V.
    assert (L : Forall2 Z.le (counter_values (warn s))
                             (counter_values (warn (state r)))).
    { rewrite V. apply add_flags_le. rewrite frame_exceeds_length. reflexivity. }
    assert (F' : counters_fit (Z.of_nat (List.length rest)) (warn (state r))).
    { unfold counters_fit. rewrite V. apply add_flags_fit.
      - rewrite frame_exceeds_length. reflexivity.
      - replace (Z.of_nat (List.length rest) + 1)
          with (Z.of_nat (List.length (cc :: rest))) by (cbn [List.length]; lia).
        exact F. }
    destruct (IH _ F' R) as (C & M & O).
    repeat split; try assumption.
    eapply Forall2_le_trans; eassumption.
Qed.

Lemma warning_counters_count_frames_witness :
  counters_fit
    (Z.of_nat (List.length [Examples.frame_full; Examples.frame_shifted;
                            Examples.frame_full]))
    (warn initial) /\
  run Examples.options initial
      [Examples.frame_full; Examples.frame_shifted; Examples.frame_full]
  = Some Examples.state_shifted /\
  counted_by_frame Examples.options initial
    [Examples.frame_full; Examples.frame_shifted; Examples.frame_full] /\
  Forall2 Z.le (counter_values (warn initial))
          (counter_values (warn Examples.state_shifted)) /\
  counter_values (warn (snd (Open Examples.state_shifted)))
  = counter_values (warn Examples.state_shifted).
Proof.
  assert (F : counters_fit
                (Z.of_nat (List.length [Examples.frame_full;
                                        Examples.frame_shifted;
                                        Examples.frame_full]))
                (warn initial))
    by (repeat constructor; vm_compute; discriminate).
  assert (R : run Examples.options initial
                  [Examples.frame_full; Examples.frame_shifted;
                   Examples.frame_full]
              = Some Examples.state_shifted) by (vm_compute; reflexivity).
  split; [exact F|]. split; [exact R|].
  exact (warning_counters_count_frames Examples.options initial
           [Examples.frame_full; Examples.frame_shifted; Examples.frame_full]
           Examples.state_shifted F R).
Defined.

(** On the shifted frame the right x delta and the right Euclidean delta
    exceed 6 mm, and they still do on the next frame: their counters move by
    1 on each of the two frames, and the others stay. *)
Example counters_after_shift :
  counter_values (warn Examples.state_shifted) = [2; 0; 0; 0; 2; 0; 0; 0; 0].
Proof. vm_compute. reflexivity. Qed.

(** ** Baseline *)

(** The 18 assignments of the freeze copy the whole group of channels. *)
Lemma update_last_plu_dt_copy (last_plu_dt plu_dt : Distances) :
  update_last_plu_dt last_plu_dt plu_dt
  = if ((dt_a_r last_plu_dt <? of_int 0)%f32 || isinf (dt_a_r last_plu_dt))
       && (dt_a_r plu_dt >? of_int 0)%f32
    then plu_dt else last_plu_dt.
Proof.
  unfold update_last_plu_dt.
  destruct ((dt_a_r last_plu_dt <? of_int 0)%f32 || isinf (dt_a_r last_plu_dt));
    [|reflexivity].
  cbn [andb]. destruct (dt_a_r plu_dt >? of_int 0)%f32; [|reflexivity].
  destruct plu_dt; reflexivity.
Qed.

(** One frame: the baseline is the copy of the channels if the frame
    freezes, and the baseline before the frame otherwise. *)
Lemma Process_last_plu options s cc r :
  Process options s cc = Some r ->
  last_plu (state r)
  = if freezes options s cc then plu (state r) else last_plu s.
Proof.
  intros H. unfold freezes.
  destruct (detection options s cc) as [det|] eqn:D.
  - destruct (Process_with_detection _ _ _ _ _ H D) as (_ & -> & _).
    destruct (detection_facts _ _ _ _ D) as (_ & _ & _ & _ & _ & _ & ->).
    rewrite update_last_plu_dt_copy. unfold sealed, last_plu_dt_a_r, plu_dt_a_r.
    rewrite negb_involutive. reflexivity.
  - rewrite (Process_no_detection _ _ _ _ H D). reflexivity.
Qed.

Lemma freezes_sealed options s cc :
  sealed s = true -> freezes options s cc = false.
Proof.
  intros S. unfold freezes. rewrite S.
  destruct (detection options s cc); reflexivity.
Qed.

(** A sealed baseline goes through every sequence of frames. *)
Lemma sealed_run options frames :
  forall s s', sealed s = true ->
               run options s frames = Some s' ->
               last_plu s' = last_plu s.
Proof.
  induction frames as [|cc rest IH]; intros s s' S R.
  - injection R as <-. reflexivity.
  - cbn [run] in R. destruct (Process options s cc) as [r|] eqn:P;
      [|discriminate R]. cbn [bind] in R.
    pose proof (Process_last_plu _ _ _ _ P) as L.
    rewrite (freezes_sealed _ _ _ S) in L.
    rewrite <- L. apply IH; [|exact R].
    unfold sealed, last_plu_dt_a_r in *. rewrite L. exact S.
Qed.

(** C1 (amended). A frame writes the baseline exactly when the detector
    block runs on it, the stored reference [last_plu_dt_a_r] is negative or
    infinite, and the updated [plu_dt_a_r] is above zero: the current value of
    every one of the 18 distance channels is then copied into its baseline
    slot, and on any other frame no slot changes.  Such a write with a finite
    [plu_dt_a_r] seals the baseline, and once the baseline is sealed (the
    reference neither negative nor infinite) no slot is modified by any later
    frame. *)
Theorem baseline_written_until_sealed options s cc r frames s' :
  Process options s cc = Some r ->
  run options (state r) frames = Some s' ->
  last_plu (state r)
  = (if freezes options s cc then plu (state r) else last_plu s) /\
  (freezes options s cc = true ->
   isinf (plu_dt_a_r (state r)) = false ->
   sealed (state r) = true) /\
  (sealed (state r) = true -> last_plu s' = last_plu (state r)).
Proof.
  intros P R. pose proof (Process_last_plu _ _ _ _ P) as L.
  split; [exact L|]. split.
  - intros Fz I. rewrite Fz in L.
    unfold sealed, last_plu_dt_a_r, plu_dt_a_r in *. rewrite L, I.
    unfold freezes in Fz.
    destruct (detection options s cc) as [det|] eqn:D; [|discriminate Fz].
    destruct (Process_with_detection _ _ _ _ _ P D) as (_ & E & _).
    rewrite <- E in Fz. apply andb_prop in Fz. destruct Fz as [_ G].
    unfold plu_dt_a_r in G. rewrite (gtb_zero_not_ltb _ G). reflexivity.
  - intros S. eapply sealed_run; eassumption.
Qed.

Lemma baseline_written_until_sealed_witness :
  Process Examples.options initial Examples.frame_full
  = Some Examples.outcome_full /\
  run Examples.options (state Examples.outcome_full)
      [Examples.frame_merged; Examples.frame_full]
  = Some Examples.state_full3 /\
  last_plu (state Examples.outcome_full)
  = (if freezes Examples.options initial Examples.frame_full
     then plu (state Examples.outcome_full) else last_plu initial) /\
  (freezes Examples.options initial Examples.frame_full = true ->
   isinf (plu_dt_a_r (state Examples.outcome_full)) = false ->
   sealed (state Examples.outcome_full) = true) /\
  (sealed (state Examples.outcome_full) = true ->
   last_plu Examples.state_full3 = last_plu (state Examples.outcome_full)).
Proof.
  assert (P : Process Examples.options initial Examples.frame_full
              = Some Examples.outcome_full) by (vm_compute; reflexivity).
  assert (R : run Examples.options (state Examples.outcome_full)
                  [Examples.frame_merged; Examples.frame_full]
              = Some Examples.state_full3) by (vm_compute; reflexivity).
  split; [exact P|]. split; [exact R|].
  exact (baseline_written_until_sealed Examples.options initial
           Examples.frame_full Examples.outcome_full
           [Examples.frame_merged; Examples.frame_full]
           Examples.state_full3 P R).
Defined.

(** C1, as stated, fails.  The first frame has an iris of 240 * 2^-70
    pixels, so that the millimetre scale overflows the corner-to-corner
    length: [plu_dt_a_r] becomes +infinity, which is above zero, and the
    baseline is written with it.  On the second frame the guard finds the
    stored reference infinite and the baseline, already written, is
    overwritten with the channels of that frame. *)
Lemma baseline_rewritten_when_infinite :
  run Examples.options initial [Examples.frame_tiny_far]
  = Some Examples.state_far /\
  freezes Examples.options initial Examples.frame_tiny_far = true /\
  last_plu Examples.state_far = plu Examples.state_far /\
  last_plu Examples.state_far <> last_plu initial /\
  run Examples.options Examples.state_far [Examples.frame_full]
  = Some Examples.state_far_full /\
  freezes Examples.options Examples.state_far Examples.frame_full = true /\
  last_plu Examples.state_far_full <> last_plu Examples.state_far.
Proof.
  repeat apply conj; try (vm_compute; reflexivity);
    vm_compute; intros H; discriminate H.
Qed.

(** The write does not wait for the frame on which [plu_dt_a_r] leaves its
    sentinel either: when the two right corners coincide on the first frame
    the channel goes from -1 to 0, the baseline is not written, and it is
    written on the next frame with a positive length. *)
Lemma baseline_not_written_on_zero_start :
  exists s1 s2,
    run Examples.options initial [Examples.frame_merged] = Some s1 /\
    (plu_dt_a_r initial <? of_int 0)%f32 = true /\
    plu_dt_a_r s1 = of_int 0 /\
    last_plu s1 = last_plu initial /\
    run Examples.options s1 [Examples.frame_full] = Some s2 /\
    last_plu s2 = plu s2 /\ last_plu s2 <> last_plu s1.
Proof.
  exists (Examples.state_of (run Examples.options initial [Examples.frame_merged])).
  exists (Examples.state_of
            (run Examples.options initial
                 [Examples.frame_merged; Examples.frame_full])).
  repeat apply conj; try (vm_compute; reflexivity);
    vm_compute; intros H; discriminate H.
Qed.

(** ** Deltas *)

(** The code's deltas are those of the specification's formula. *)
Lemma calculate_delta_spec (last_plu_dt plu_dt : Distances) :
  calculate_delta last_plu_dt plu_dt
  = if (dt_a_r last_plu_dt >? of_int 0)%f32 && (dt_a_r plu_dt >? of_int 0)%f32
    then spec_deltas last_plu_dt plu_dt
    else all_unavailable.
Proof. reflexivity. Qed.

Lemma unavailable_not_zero : unavailable <> of_int 0.
Proof. vm_compute. discriminate. Qed.

(** C2 (amended). On every frame on which the detector block runs, if the
    stored reference [last_plu_dt_a_r] is above zero and the updated
    [plu_dt_a_r] is above zero, each of the 6 per-side deltas equals
    ((inner-corner-to-centre channel minus its baseline) minus
    (outer-corner-to-centre channel minus its baseline)) * 4.0 / 2 for its
    side and axis, and each of the 3 aggregate deltas is the left delta minus
    the right one; on every other such frame, in particular as long as the
    baseline has not been written, all 9 deltas are the value -100, which is
    not zero; the deltas are computed afresh on every frame. *)
Theorem deltas_against_baseline options s cc det :
  detection options s cc = Some det ->
  det_deltas det
  = (if (last_plu_dt_a_r s >? of_int 0)%f32 &&
        (plu_dt_a_r (det_state det) >? of_int 0)%f32
     then spec_deltas (last_plu s) (plu (det_state det))
     else all_unavailable) /\
  ((last_plu_dt_a_r s >? of_int 0)%f32 = false ->
   det_deltas det = all_unavailable) /\
  unavailable <> of_int 0.
Proof.
  intros D.
  destruct (detection_facts _ _ _ _ D) as (_ & _ & _ & _ & E & _).
  rewrite E, calculate_delta_spec. unfold last_plu_dt_a_r, plu_dt_a_r.
  repeat split.
  - intros G. rewrite G. reflexivity.
  - exact unavailable_not_zero.
Qed.

Lemma deltas_against_baseline_witness :
  detection Examples.options (state Examples.outcome_full) Examples.frame_full
  = Some Examples.detection_full_second /\
  det_deltas Examples.detection_full_second
  = (if (last_plu_dt_a_r (state Examples.outcome_full) >? of_int 0)%f32 &&
        (plu_dt_a_r (det_state Examples.detection_full_second) >? of_int 0)%f32
     then spec_deltas (last_plu (state Examples.outcome_full))
            (plu (det_state Examples.detection_full_second))
     else all_unavailable) /\
  ((last_plu_dt_a_r (state Examples.outcome_full) >? of_int 0)%f32 = false ->
   det_deltas Examples.detection_full_second = all_unavailable) /\
  unavailable <> of_int 0.
Proof.
  assert (D : detection Examples.options (state Examples.outcome_full)
                Examples.frame_full
              = Some Examples.detection_full_second)
    by (vm_compute; reflexivity).
  split; [exact D|].
  exact (deltas_against_baseline Examples.options
           (state Examples.outcome_full) Examples.frame_full
           Examples.detection_full_second D).
Defined.

(** C2, as stated, fails.  After [frame_tiny_near; frame_tiny_far] the
    baseline exists: it was written on the first frame, with the finite
    positive reference 31.47 mm, and [plu_dt_a_r] is +infinity.  On the next
    frame the two right corners coincide: the infinite channel restarts from
    its raw value 0, the guard [plu_dt_a_r > 0] fails, and all 9 deltas are
    -100, not the values of the formula. *)
Lemma deltas_unavailable_with_baseline :
  run Examples.options initial
      [Examples.frame_tiny_near; Examples.frame_tiny_far]
  = Some Examples.state_near_far /\
  freezes Examples.options initial Examples.frame_tiny_near = true /\
  sealed Examples.state_near_far = true /\
  (last_plu_dt_a_r Examples.state_near_far >? of_int 0)%f32 = true /\
  detection Examples.options Examples.state_near_far Examples.frame_merged
  = Some Examples.detection_merged /\
  plu_dt_a_r (det_state Examples.detection_merged) = of_int 0 /\
  det_deltas Examples.detection_merged = all_unavailable /\
  det_deltas Examples.detection_merged
  <> spec_deltas (last_plu Examples.state_near_far)
       (plu (det_state Examples.detection_merged)).
Proof.
  repeat apply conj; try (vm_compute; reflexivity).
  vm_compute. intros H. discriminate H.
Qed.

(** ** A frame with 10 iris landmarks and an image size *)

Lemma fold_AddPointRenderData options (lds : NormalizedLandmarkList) :
  forall rd,
    fold_left (fun rd ld => AddPointRenderData options (landmark_point ld) rd)
              lds rd
    = rd ++ map (point_annotation options) lds.
Proof.
  induction lds as [|ld lds IH]; intros rd; simpl.
  - symmetry. apply app_nil_r.
  - rewrite IH. unfold AddPointRenderData at 1. rewrite <- app_assoc.
    reflexivity.
Qed.

Lemma RenderIris_annotations options center rest image_size iris_size rd :
  RenderIris (center :: rest) options image_size iris_size rd
  = Some (rd ++ iris_annotations options center (center :: rest)
                  iris_size image_size).
Proof.
  unfold RenderIris. cbn [landmark nth_error bind].
  rewrite fold_AddPointRenderData. unfold AddOvalRenderData.
  rewrite <- app_assoc. reflexivity.
Qed.

Lemma add_text_lines_app options left_px baseline_px height lines :
  forall i rd,
    add_text_lines options left_px baseline_px height i lines rd
    = rd ++ add_text_lines options left_px baseline_px height i lines [].
Proof.
  induction lines as [|line rest IH]; intros i rd; cbn [add_text_lines].
  - symmetry. apply app_nil_r.
  - rewrite IH. rewrite (IH _ ([] ++ _)). rewrite app_assoc. reflexivity.
Qed.

Lemma text_lines_app (a b : RenderData) :
  text_lines (a ++ b) = text_lines a ++ text_lines b.
Proof. apply flat_map_app. Qed.

Lemma text_lines_add_text_lines options left_px baseline_px height lines :
  forall i,
    text_lines (add_text_lines options left_px baseline_px height i lines [])
    = lines.
Proof.
  induction lines as [|line rest IH]; intros i; cbn [add_text_lines].
  - reflexivity.
  - rewrite add_text_lines_app, text_lines_app, IH. reflexivity.
Qed.

Lemma length_add_text_lines options left_px baseline_px height lines :
  forall i,
    List.length (add_text_lines options left_px baseline_px height i lines [])
    = List.length lines.
Proof.
  induction lines as [|line rest IH]; intros i; cbn [add_text_lines].
  - reflexivity.
  - rewrite add_text_lines_app, length_app, IH. reflexivity.
Qed.

(** [AddTextRenderData] appends one text annotation per line, in order. *)
Lemma AddTextRenderData_app options image_size lines rd :
  exists texts,
    AddTextRenderData options image_size lines rd = rd ++ texts /\
    text_lines texts = lines /\
    List.length texts = List.length lines.
Proof.
  unfold AddTextRenderData.
  eexists. split; [apply add_text_lines_app|]. split.
  - apply text_lines_add_text_lines.
  - apply length_add_text_lines.
Qed.

Lemma text_lines_points options (lds : NormalizedLandmarkList) :
  text_lines (map (point_annotation options) lds) = [].
Proof. induction lds; simpl; auto. Qed.

Lemma text_lines_iris_annotations options center eye iris_size image_size :
  text_lines (iris_annotations options center eye iris_size image_size) = [].
Proof.
  unfold iris_annotations. cbn [text_lines flat_map oval_annotation data app].
  apply (text_lines_points options eye).
Qed.

(** The eyes, their diameters and their annotations on such a frame; what
    remains is the block guarded by the face landmarks. *)
Lemma Process_detect_valid options s cc
    (l0 l1 l2 l3 l4 l5 l6 l7 l8 l9 : NormalizedLandmark) (image_size : Z * Z) :
  IRIS cc = Some [l0; l1; l2; l3; l4; l5; l6; l7; l8; l9] ->
  IMAGE_SIZE cc = Some image_size ->
  let left_size := spec_diameter l2 l4 l3 l1 image_size in
  let right_size := spec_diameter l7 l9 l6 l8 image_size in
  let rd :=
    iris_annotations options l0 [l0; l2; l4; l3; l1] left_size image_size ++
    iris_annotations options l5 [l5; l7; l9; l6; l8] right_size image_size in
  Process_detect options s cc
  = let? (s', render_data, face_lines, det) :=
      face_block options s cc image_size left_size right_size l5 l0 rd in
    Some ({| status := OkStatus; state := s';
             RENDER_DATA :=
               Some (AddTextRenderData options image_size
                       (depth_lines cc ++ face_lines) render_data) |}, det).
Proof.
  intros HI HS left_size right_size rd.
  unfold Process_detect. rewrite HI, HS.
  cbn [landmark_size List.length negb Z.of_nat].
  change (Z.of_nat 10 =? kNumIrisLandmarksPerEye * 2) with true.
  cbn [negb GetLeftIris GetRightIris landmark nth_error bind app].
  rewrite !CalculateIrisDiameter_spec. cbn [bind].
  rewrite !RenderIris_annotations. cbn [bind app].
  reflexivity.
Qed.

(** The face block without face landmarks. *)
Lemma face_block_absent options s cc image_size left_size right_size c_r c_l rd :
  NORM_LANDMARKS cc = None ->
  face_block options s cc image_size left_size right_size c_r c_l rd
  = Some (s, rd, [], None).
Proof. intros H. unfold face_block. rewrite H. reflexivity. Qed.

(** The face block on a list that holds index 362. *)
Lemma face_block_present options s cc image_size left_size right_size
    c_r c_l rd fl :
  NORM_LANDMARKS cc = Some fl ->
  (363 <= List.length fl)%nat ->
  exists t_r n_r n_l t_l,
    nth_error fl 263 = Some t_r /\ nth_error fl 362 = Some n_r /\
    nth_error fl 133 = Some n_l /\ nth_error fl 33 = Some t_l /\
    let rd4 := rd ++ map (point_annotation options) [t_r; n_r; n_l; t_l] in
    let raw := raw_plu_iris_size left_size right_size in
    let det := detect s left_size right_size raw image_size
                 c_r c_l t_r n_r n_l t_l in
    face_block options s cc image_size left_size right_size c_r c_l rd
    = Some (if (raw >? of_int 0)%f32
            then (det_state det, rd4, det_lines det, Some det)
            else (s, rd4, [], None)).
Proof.
  intros H L. unfold face_block. rewrite H. unfold landmark.
  destruct (nth_error fl 263) as [t_r|] eqn:E1;
    [|apply nth_error_None in E1; lia].
  destruct (nth_error fl 362) as [n_r|] eqn:E2;
    [|apply nth_error_None in E2; lia].
  destruct (nth_error fl 133) as [n_l|] eqn:E3;
    [|apply nth_error_None in E3; lia].
  destruct (nth_error fl 33) as [t_l|] eqn:E4;
    [|apply nth_error_None in E4; lia].
  exists t_r, n_r, n_l, t_l. repeat split. cbn [bind].
  unfold AddPointRenderData. rewrite <- !app_assoc. cbn [app map].
  destruct (raw_plu_iris_size left_size right_size >? of_int 0)%f32;
    reflexivity.
Qed.

(** The face block on a list that does not hold index 362: an accessor is
    called out of range. *)
Lemma face_block_short options s cc image_size left_size right_size
    c_r c_l rd fl :
  NORM_LANDMARKS cc = Some fl ->
  (List.length fl < 363)%nat ->
  face_block options s cc image_size left_size right_size c_r c_l rd = None.
Proof.
  intros H L. unfold face_block. rewrite H. unfold landmark.
  destruct (nth_error fl 263) as [t_r|]; [|reflexivity]. cbn [bind].
  assert (E : nth_error fl 362 = None) by (apply nth_error_None; lia).
  rewrite E. reflexivity.
Qed.

(** ** Structural errors *)

(** The two [RET_CHECK]s. *)
Lemma structural_error_detect options s cc iris_landmarks :
  IRIS cc = Some iris_landmarks ->
  List.length iris_landmarks <> 10%nat \/ IMAGE_SIZE cc = None ->
  exists message,
    Process_detect options s cc = Some (failed message s, None).
Proof.
  intros HI HE.
  unfold Process_detect. rewrite HI. unfold landmark_size.
  destruct (Z.of_nat (List.length iris_landmarks)
            =? kNumIrisLandmarksPerEye * 2) eqn:E.
  - apply Z.eqb_eq in E. change (kNumIrisLandmarksPerEye * 2) with 10 in E.
    destruct HE as [HE|HE]; [lia|]. rewrite HE. cbn [negb].
    eexists. reflexivity.
  - cbn [negb]. eexists. reflexivity.
Qed.

Lemma structural_error_aux options s cc iris_landmarks :
  IRIS cc = Some iris_landmarks ->
  List.length iris_landmarks <> 10%nat \/ IMAGE_SIZE cc = None ->
  exists message, Process options s cc = Some (failed message s).
Proof.
  intros HI HE.
  destruct (structural_error_detect options s cc _ HI HE) as (m & P).
  exists m. unfold Process. rewrite P. reflexivity.
Qed.

(** C5 (amended). For every frame whose iris landmark input is present and
    either does not contain exactly 10 points or comes without an image size,
    [Process] returns an error status, adds no render data to the output, runs
    no detector block and leaves every member (all filter channels, all
    baseline slots, all warning counters) exactly as before the call; the
    instance then processes any next frame as if the failed frame had not
    been sent. *)
Theorem structural_error_leaves_state options s cc iris_landmarks :
  IRIS cc = Some iris_landmarks ->
  List.length iris_landmarks <> 10%nat \/ IMAGE_SIZE cc = None ->
  (exists message,
      Process options s cc
      = Some {| status := InternalError message; state := s;
                RENDER_DATA := None |}) /\
  detection options s cc = None /\
  (forall frames, run options s (cc :: frames) = run options s frames).
Proof.
  intros HI HE.
  destruct (structural_error_detect options s cc _ HI HE) as (message & P).
  assert (Q : Process options s cc = Some (failed message s))
    by (unfold Process; rewrite P; reflexivity).
  repeat split.
  - exists message. exact Q.
  - unfold detection. rewrite P. reflexivity.
  - intros frames. cbn [run]. rewrite Q. reflexivity.
Qed.

Lemma structural_error_leaves_state_witness :
  IRIS Examples.frame_nine = Some (removelast Examples.iris10) /\
  (List.length (removelast Examples.iris10) <> 10%nat \/
   IMAGE_SIZE Examples.frame_nine = None) /\
  (exists message,
      Process Examples.options (state Examples.outcome_full) Examples.frame_nine
      = Some {| status := InternalError message;
                state := state Examples.outcome_full;
                RENDER_DATA := None |}) /\
  detection Examples.options (state Examples.outcome_full) Examples.frame_nine
  = None /\
  (forall frames,
      run Examples.options (state Examples.outcome_full)
          (Examples.frame_nine :: frames)
      = run Examples.options (state Examples.outcome_full) frames).
Proof.
  assert (L : List.length (removelast Examples.iris10) <> 10%nat \/
              IMAGE_SIZE Examples.frame_nine = None)
    by (left; simpl; discriminate).
  split; [reflexivity|]. split; [exact L|].
  exact (structural_error_leaves_state Examples.options
           (state Examples.outcome_full) Examples.frame_nine
           (removelast Examples.iris10) eq_refl L).
Defined.

(** C5, as stated, fails: a frame without image size whose iris landmark
    input is empty too (here only the face landmarks arrive) is not an
    error.  [Process] returns [OkStatus] at its first test. *)
Lemma missing_image_size_without_iris_is_ok :
  IMAGE_SIZE Examples.frame_face_only = None /\
  Process Examples.options initial Examples.frame_face_only
  = Some {| status := OkStatus; state := initial; RENDER_DATA := None |}.
Proof. split; reflexivity. Qed.

(** ** Missing face landmarks *)

(** C6. For every frame with 10 iris landmarks and an image size but no
    face landmarks, [Process] returns [OkStatus]; its output is the oval and
    the 5 landmark points of the first eye, then those of the second eye,
    then one text annotation per line of the optional depth inputs and no
    other text; the detector block does not run, and no filter channel,
    baseline slot or warning counter is modified. *)
Theorem missing_face_landmarks_degrade options s cc iris_landmarks image_size :
  IRIS cc = Some iris_landmarks ->
  List.length iris_landmarks = 10%nat ->
  IMAGE_SIZE cc = Some image_size ->
  NORM_LANDMARKS cc = None ->
  exists left_iris right_iris left_size right_size c_l c_r texts,
    GetLeftIris iris_landmarks [] = Some left_iris /\
    GetRightIris iris_landmarks [] = Some right_iris /\
    CalculateIrisDiameter left_iris image_size = Some left_size /\
    CalculateIrisDiameter right_iris image_size = Some right_size /\
    nth_error left_iris 0 = Some c_l /\
    nth_error right_iris 0 = Some c_r /\
    Process options s cc
    = Some {| status := OkStatus; state := s;
              RENDER_DATA :=
                Some (iris_annotations options c_l left_iris left_size image_size
                      ++ iris_annotations options c_r right_iris right_size
                           image_size
                      ++ texts) |} /\
    text_lines texts = depth_lines cc /\
    List.length texts = List.length (depth_lines cc) /\
    detection options s cc = None.
Proof.
  intros HI HL HS HF.
  do 10 (destruct iris_landmarks as [|? iris_landmarks]; [discriminate HL|]).
  destruct iris_landmarks; [|discriminate HL].
  pose proof (Process_detect_valid options s cc _ _ _ _ _ _ _ _ _ _ _ HI HS)
    as P. cbv zeta in P.
  rewrite (face_block_absent _ _ _ _ _ _ _ _ _ HF) in P. cbn [bind] in P.
  rewrite app_nil_r in P.
  destruct (AddTextRenderData_app options image_size (depth_lines cc)
              (iris_annotations options n [n; n1; n3; n2; n0]
                 (spec_diameter n1 n3 n2 n0 image_size) image_size ++
               iris_annotations options n4 [n4; n6; n8; n5; n7]
                 (spec_diameter n6 n8 n5 n7 image_size) image_size))
    as (texts & A & T & N).
  rewrite A, <- app_assoc in P.
  exists [n; n1; n3; n2; n0], [n4; n6; n8; n5; n7].
  exists (spec_diameter n1 n3 n2 n0 image_size),
         (spec_diameter n6 n8 n5 n7 image_size), n, n4, texts.
  repeat split; try assumption; try apply CalculateIrisDiameter_spec.
  - unfold Process. rewrite P. reflexivity.
  - unfold detection. rewrite P. reflexivity.
Qed.

Lemma missing_face_landmarks_degrade_witness :
  IRIS Examples.frame_no_face = Some Examples.iris10 /\
  List.length Examples.iris10 = 10%nat /\
  IMAGE_SIZE Examples.frame_no_face = Some (640, 480) /\
  NORM_LANDMARKS Examples.frame_no_face = None /\
  exists left_iris right_iris left_size right_size c_l c_r texts,
    GetLeftIris Examples.iris10 [] = Some left_iris /\
    GetRightIris Examples.iris10 [] = Some right_iris /\
    CalculateIrisDiameter left_iris (640, 480) = Some left_size /\
    CalculateIrisDiameter right_iris (640, 480) = Some right_size /\
    nth_error left_iris 0 = Some c_l /\
    nth_error right_iris 0 = Some c_r /\
    Process Examples.options (state Examples.outcome_full)
      Examples.frame_no_face
    = Some {| status := OkStatus; state := state Examples.outcome_full;
              RENDER_DATA :=
                Some (iris_annotations Examples.options c_l left_iris
                        left_size (640, 480)
                      ++ iris_annotations Examples.options c_r right_iris
                           right_size (640, 480)
                      ++ texts) |} /\
    text_lines texts = depth_lines Examples.frame_no_face /\
    List.length texts = List.length (depth_lines Examples.frame_no_face) /\
    detection Examples.options (state Examples.outcome_full)
      Examples.frame_no_face = None.
Proof.
  repeat (split; [reflexivity|]).
  exact (missing_face_landmarks_degrade Examples.options
           (state Examples.outcome_full) Examples.frame_no_face
           Examples.iris10 (640, 480) eq_refl eq_refl eq_refl eq_refl).
Defined.

(** ** Face corners *)

(** When [Process] has no defined outcome: exactly on a frame that passes
    the two structural checks and whose face landmark list does not hold
    index 362. *)
Lemma Process_undefined_iff options s cc :
  Process options s cc = None <->
  exists iris_landmarks image_size update_face_landmarks,
    IRIS cc = Some iris_landmarks /\
    List.length iris_landmarks = 10%nat /\
    IMAGE_SIZE cc = Some image_size /\
    NORM_LANDMARKS cc = Some update_face_landmarks /\
    (List.length update_face_landmarks < 363)%nat.
Proof.
  split.
  - intros H.
    destruct (IRIS cc) as [iris|] eqn:HI.
    2:{ unfold Process, Process_detect in H. rewrite HI in H. discriminate H. }
    destruct (Nat.eq_dec (List.length iris) 10) as [HL|HL].
    2:{ destruct (structural_error_aux options s cc iris HI (or_introl HL))
          as (m & Q). rewrite Q in H. discriminate H. }
    destruct (IMAGE_SIZE cc) as [image_size|] eqn:HS.
    2:{ destruct (structural_error_aux options s cc iris HI (or_intror HS))
          as (m & Q). rewrite Q in H. discriminate H. }
    destruct (NORM_LANDMARKS cc) as [fl|] eqn:HF.
    2:{ exfalso. revert H.
        do 10 (destruct iris as [|? iris]; [discriminate HL|]).
        destruct iris; [|discriminate HL].
        unfold Process.
        rewrite (Process_detect_valid options s cc _ _ _ _ _ _ _ _ _ _ _ HI HS).
        cbv zeta. rewrite (face_block_absent _ _ _ _ _ _ _ _ _ HF).
        discriminate. }
    exists iris, image_size, fl. repeat split; try assumption.
    destruct (Nat.lt_ge_cases (List.length fl) 363) as [L|L]; [exact L|].
    exfalso. revert H.
    do 10 (destruct iris as [|? iris]; [discriminate HL|]).
    destruct iris; [|discriminate HL].
    unfold Process.
    rewrite (Process_detect_valid options s cc _ _ _ _ _ _ _ _ _ _ _ HI HS).
    cbv zeta.
    match goal with
    | |- context [face_block ?o ?s ?c ?i ?l ?r ?cr ?cl ?rd] =>
        destruct (face_block_present o s c i l r cr cl rd fl HF L)
          as (t_r & n_r & n_l & t_l & _ & _ & _ & _ & E)
    end.
    cbv zeta in E. rewrite E.
    destruct (_ >? _)%f32; discriminate.
  - intros (iris & image_size & fl & HI & HL & HS & HF & L).
    do 10 (destruct iris as [|? iris]; [discriminate HL|]).
    destruct iris; [|discriminate HL].
    unfold Process.
    rewrite (Process_detect_valid options s cc _ _ _ _ _ _ _ _ _ _ _ HI HS).
    cbv zeta. rewrite (face_block_short _ _ _ _ _ _ _ _ _ _ HF L).
    reflexivity.
Qed.

(** An error status comes from the two structural checks only. *)
Lemma Process_error_iff options s cc r message :
  Process options s cc = Some r ->
  status r = InternalError message ->
  exists iris_landmarks,
    IRIS cc = Some iris_landmarks /\
    (List.length iris_landmarks <> 10%nat \/ IMAGE_SIZE cc = None).
Proof.
  intros P E.
  destruct (IRIS cc) as [iris|] eqn:HI.
  2:{ unfold Process, Process_detect in P. rewrite HI in P.
      injection P as <-. discriminate E. }
  exists iris. split; [reflexivity|].
  destruct (Nat.eq_dec (List.length iris) 10) as [HL|HL]; [|left; exact HL].
  destruct (IMAGE_SIZE cc) as [image_size|] eqn:HS; [|right; reflexivity].
  exfalso.
  do 10 (destruct iris as [|? iris]; [discriminate HL|]).
  destruct iris; [|discriminate HL].
  unfold Process in P.
  rewrite (Process_detect_valid options s cc _ _ _ _ _ _ _ _ _ _ _ HI HS) in P.
  cbv zeta in P.
  destruct (face_block _ _ _ _ _ _ _ _ _) as [[[[s' rd'] fl'] det']|];
    [|discriminate P].
  cbn [bind option_map fst] in P. injection P as <-. discriminate E.
Qed.

(** C9 at a face list of 362 points (index 362 missing), with valid iris
    landmarks and image size: [Process] calls the accessor out of range
    without any test of the size of the list; no error status is returned,
    the call has no defined outcome. *)
Theorem short_face_list_is_not_checked :
  IRIS Examples.frame_short_face = Some Examples.iris10 /\
  IMAGE_SIZE Examples.frame_short_face = Some (640, 480) /\
  (exists update_face_landmarks,
      NORM_LANDMARKS Examples.frame_short_face = Some update_face_landmarks /\
      List.length update_face_landmarks = 362%nat /\
      landmark update_face_landmarks 362 = None) /\
  Process Examples.options initial Examples.frame_short_face = None.
Proof.
  split; [reflexivity|]. split; [reflexivity|]. split.
  - exists (firstn 362 Examples.corners).
    repeat apply conj; vm_compute; reflexivity.
  - vm_compute. reflexivity.
Qed.

(** ** The aggregate iris size *)

(** [raw_plu_iris_size] is the larger of its arguments. *)
Lemma raw_plu_iris_size_max (left_size right_size : float) :
  let raw := raw_plu_iris_size left_size right_size in
  (raw = left_size \/ raw = right_size) /\
  (isnan left_size = false -> isnan right_size = false ->
   leb left_size raw = true /\ leb right_size raw = true).
Proof.
  unfold raw_plu_iris_size.
  destruct (left_size <? right_size)%f32 eqn:E; split; auto; intros NL NR.
  - split; [apply ltb_leb, E|apply leb_refl, NR].
  - split; [apply leb_refl, NL|apply ltb_false_leb; assumption].
Qed.

(** The outcome of a frame with all inputs. *)
Lemma Process_detect_full options s cc
    (l0 l1 l2 l3 l4 l5 l6 l7 l8 l9 : NormalizedLandmark) (image_size : Z * Z)
    (fl : NormalizedLandmarkList) :
  IRIS cc = Some [l0; l1; l2; l3; l4; l5; l6; l7; l8; l9] ->
  IMAGE_SIZE cc = Some image_size ->
  NORM_LANDMARKS cc = Some fl ->
  (363 <= List.length fl)%nat ->
  let left_size := spec_diameter l2 l4 l3 l1 image_size in
  let right_size := spec_diameter l7 l9 l6 l8 image_size in
  let raw := raw_plu_iris_size left_size right_size in
  exists t_r n_r n_l t_l out,
    nth_error fl 263 = Some t_r /\ nth_error fl 362 = Some n_r /\
    nth_error fl 133 = Some n_l /\ nth_error fl 33 = Some t_l /\
    let det := detect s left_size right_size raw image_size
                 l5 l0 t_r n_r n_l t_l in
    Process_detect options s cc
    = Some ({| status := OkStatus;
               state := if (raw >? of_int 0)%f32 then det_state det else s;
               RENDER_DATA := Some out |},
            if (raw >? of_int 0)%f32 then Some det else None) /\
    text_lines out
    = depth_lines cc ++ (if (raw >? of_int 0)%f32 then det_lines det else []).
Proof.
  intros HI HS HF L left_size right_size raw.
  rewrite (Process_detect_valid options s cc _ _ _ _ _ _ _ _ _ _ _ HI HS).
  cbv zeta. fold left_size right_size.
  match goal with
  | |- context [face_block ?o ?s ?c ?i ?l ?r ?cr ?cl ?rd] =>
      destruct (face_block_present o s c i l r cr cl rd fl HF L)
        as (t_r & n_r & n_l & t_l & E1 & E2 & E3 & E4 & E);
      set (rd0 := rd) in *
  end.
  cbv zeta in E. fold raw in E.
  exists t_r, n_r, n_l, t_l.
  set (det := detect s left_size right_size raw image_size l5 l0 t_r n_r n_l t_l)
    in *.
  set (lines := depth_lines cc ++ (if (raw >? of_int 0)%f32 then det_lines det else [])).
  destruct (AddTextRenderData_app options image_size lines
              (rd0 ++ map (point_annotation options) [t_r; n_r; n_l; t_l]))
    as (texts & A & T & _).
  exists ((rd0 ++ map (point_annotation options) [t_r; n_r; n_l; t_l]) ++ texts).
  repeat (split; [assumption|]). split.
  - rewrite E. subst lines.
    destruct (raw >? of_int 0)%f32; cbn [bind]; rewrite A; reflexivity.
  - subst rd0. rewrite !text_lines_app, T.
    rewrite !text_lines_iris_annotations, text_lines_points. reflexivity.
Qed.

(** C10. On every frame with 10 iris landmarks, an image size and face
    landmarks (a list that holds the four corner indices), the raw aggregate
    iris size is the larger of the diameters of the two partitioned eyes: it
    is one of the two and, when neither is NaN, at least each of them.  The
    frame returns [OkStatus]; when that maximum is strictly positive the
    detector block runs with it as the raw value of the iris-size filter, the
    millimetre scale factor is 11.8 divided by the smoothed value, and this
    factor is applied to all distances: each of the 18 raw distances is the
    distance of its segment (corner to corner, outer corner to iris centre,
    inner corner to iris centre, per eye; along x, along y, and the length)
    with the image width and height multiplied by the factor, and the three
    iris sizes of the diagnostic lines are the left diameter, the right
    diameter and the smoothed size multiplied by the factor.  The filters,
    the deltas, the counters and the baseline are then updated from these raw
    distances and the diagnostic lines of the block follow the depth lines;
    otherwise the block does not run: no member changes and no diagnostic
    line of the block is produced. *)
Theorem aggregate_iris_size_gates_detector options s cc
    (l0 l1 l2 l3 l4 l5 l6 l7 l8 l9 : NormalizedLandmark) (image_size : Z * Z)
    (update_face_landmarks : NormalizedLandmarkList) :
  IRIS cc = Some [l0; l1; l2; l3; l4; l5; l6; l7; l8; l9] ->
  IMAGE_SIZE cc = Some image_size ->
  NORM_LANDMARKS cc = Some update_face_landmarks ->
  (363 <= List.length update_face_landmarks)%nat ->
  let left_size := spec_diameter l2 l4 l3 l1 image_size in
  let right_size := spec_diameter l7 l9 l6 l8 image_size in
  let raw := raw_plu_iris_size left_size right_size in
  (raw = left_size \/ raw = right_size) /\
  (isnan left_size = false -> isnan right_size = false ->
   leb left_size raw = true /\ leb right_size raw = true) /\
  exists r out t_r n_r n_l t_l,
    nth_error update_face_landmarks 263 = Some t_r /\
    nth_error update_face_landmarks 362 = Some n_r /\
    nth_error update_face_landmarks 133 = Some n_l /\
    nth_error update_face_landmarks 33 = Some t_l /\
    Process options s cc = Some r /\
    status r = OkStatus /\
    RENDER_DATA r = Some out /\
    if (raw >? of_int 0)%f32 then
      exists det,
        detection options s cc = Some det /\
        state r = det_state det /\
        det_raw_iris_size det = raw /\
        plu_iris_size (state r) = smoothed (plu_iris_size s) raw /\
        det_ratio det = (kIrisSizeInMM / plu_iris_size (state r))%f32 /\
        det_raw det
        = raw_plu_dt (of_int (fst image_size) * det_ratio det)%f32
                     (of_int (snd image_size) * det_ratio det)%f32
                     l5 l0 t_r n_r n_l t_l /\
        plu (state r) = update_plu_dt (plu s) (det_raw det) /\
        det_deltas det = calculate_delta (last_plu s) (plu (state r)) /\
        warn (state r) = count_warnings (warn s) (det_deltas det) /\
        last_plu (state r) = update_last_plu_dt (last_plu s) (plu (state r)) /\
        text_lines out = depth_lines cc ++ det_lines det /\
        distance_values (det_raw det)
        = spec_raw_distances (kIrisSizeInMM / smoothed (plu_iris_size s) raw)%f32
            image_size l5 l0 t_r n_r n_l t_l /\
        det_lines det
        = detector_lines
            (left_size * (kIrisSizeInMM / smoothed (plu_iris_size s) raw))%f32
            (right_size * (kIrisSizeInMM / smoothed (plu_iris_size s) raw))%f32
            (smoothed (plu_iris_size s) raw
             * (kIrisSizeInMM / smoothed (plu_iris_size s) raw))%f32
            (plu (state r)) (det_deltas det) (warn (state r))
    else
      detection options s cc = None /\
      state r = s /\
      text_lines out = depth_lines cc.
Proof.
  intros HI HS HF L left_size right_size raw.
  destruct (raw_plu_iris_size_max left_size right_size) as [M1 M2].
  split; [exact M1|]. split; [exact M2|].
  destruct (Process_detect_full options s cc _ _ _ _ _ _ _ _ _ _ _ _ HI HS HF L)
    as (t_r & n_r & n_l & t_l & out & E1 & E2 & E3 & E4 & P & T).
  cbv zeta in P, T. fold left_size right_size raw in P, T.
  eexists. exists out, t_r, n_r, n_l, t_l.
  repeat (split; [eassumption|]).
  split; [unfold Process; rewrite P; reflexivity|].
  split; [reflexivity|]. split; [reflexivity|].
  unfold detection. rewrite P. cbn [bind snd state].
  destruct (raw >? of_int 0)%f32.
  - eexists. split; [reflexivity|].
    repeat split. exact T.
  - repeat split. rewrite T. apply app_nil_r.
Qed.

Lemma aggregate_iris_size_gates_detector_witness :
  IRIS Examples.frame_full
  = Some [Examples.lm 0; Examples.lm 1; Examples.lm 2; Examples.lm 3;
          Examples.lm 4; Examples.lm 5; Examples.lm 6; Examples.lm 7;
          Examples.lm 8; Examples.lm 9] /\
  IMAGE_SIZE Examples.frame_full = Some (640, 480) /\
  NORM_LANDMARKS Examples.frame_full = Some Examples.corners /\
  (363 <= List.length Examples.corners)%nat /\
  (raw_plu_iris_size
     (spec_diameter (Examples.lm 2) (Examples.lm 4) (Examples.lm 3)
        (Examples.lm 1) (640, 480))
     (spec_diameter (Examples.lm 7) (Examples.lm 9) (Examples.lm 6)
        (Examples.lm 8) (640, 480))
   >? of_int 0)%f32 = true /\
  exists r det,
    Process Examples.options initial Examples.frame_full = Some r /\
    status r = OkStatus /\
    detection Examples.options initial Examples.frame_full = Some det /\
    state r = det_state det /\
    plu_iris_size (state r)
    = smoothed (plu_iris_size initial)
        (raw_plu_iris_size
           (spec_diameter (Examples.lm 2) (Examples.lm 4) (Examples.lm 3)
              (Examples.lm 1) (640, 480))
           (spec_diameter (Examples.lm 7) (Examples.lm 9) (Examples.lm 6)
              (Examples.lm 8) (640, 480))) /\
    det_ratio det = (kIrisSizeInMM / plu_iris_size (state r))%f32 /\
    exists t_r n_r n_l t_l,
      nth_error Examples.corners 263 = Some t_r /\
      nth_error Examples.corners 362 = Some n_r /\
      nth_error Examples.corners 133 = Some n_l /\
      nth_error Examples.corners 33 = Some t_l /\
      distance_values (det_raw det)
      = spec_raw_distances
          (kIrisSizeInMM
           / smoothed (plu_iris_size initial)
               (raw_plu_iris_size
                  (spec_diameter (Examples.lm 2) (Examples.lm 4) (Examples.lm 3)
                     (Examples.lm 1) (640, 480))
                  (spec_diameter (Examples.lm 7) (Examples.lm 9) (Examples.lm 6)
                     (Examples.lm 8) (640, 480))))%f32
          (640, 480) (Examples.lm 5) (Examples.lm 0) t_r n_r n_l t_l.
Proof.
  assert (HI : IRIS Examples.frame_full
               = Some [Examples.lm 0; Examples.lm 1; Examples.lm 2;
                       Examples.lm 3; Examples.lm 4; Examples.lm 5;
                       Examples.lm 6; Examples.lm 7; Examples.lm 8;
                       Examples.lm 9]) by reflexivity.
  assert (HL : (363 <= List.length Examples.corners)%nat)
    by (vm_compute; repeat constructor).
  assert (G : (raw_plu_iris_size
                 (spec_diameter (Examples.lm 2) (Examples.lm 4) (Examples.lm 3)
                    (Examples.lm 1) (640, 480))
                 (spec_diameter (Examples.lm 7) (Examples.lm 9) (Examples.lm 6)
                    (Examples.lm 8) (640, 480))
               >? of_int 0)%f32 = true) by (vm_compute; reflexivity).
  split; [exact HI|]. split; [reflexivity|]. split; [reflexivity|].
  split; [exact HL|]. split; [exact G|].
  destruct (aggregate_iris_size_gates_detector Examples.options initial
              Examples.frame_full _ _ _ _ _ _ _ _ _ _ (640, 480)
              Examples.corners HI eq_refl eq_refl HL)
    as (_ & _ & r & out & t_r & n_r & n_l & t_l & C1 & C2 & C3 & C4 & P & S & _ & B).
  cbv zeta in B. rewrite G in B.
  destruct B as (det & D & E & _ & I & R & _ & _ & _ & _ & _ & _ & V & _).
  exists r, det. do 6 (split; [assumption|]).
  exists t_r, n_r, n_l, t_l. repeat (split; [assumption|]). exact V.
Defined.

(** ** Smoothing filter *)

Lemma update_plu_dt_values (plu_dt raw : Distances) :
  distance_values (update_plu_dt plu_dt raw)
  = smoothed_each (distance_values plu_dt) (distance_values raw).
Proof. reflexivity. Qed.

Lemma smoothed_cases (stored raw : float) :
  ((stored <? of_int 0)%f32 || isinf stored = true ->
   smoothed stored raw = raw) /\
  ((stored <? of_int 0)%f32 || isinf stored = false ->
   smoothed stored raw
   = (stored * (of_int 1 - kDepthWeightUpdate) + raw * kDepthWeightUpdate)%f32).
Proof.
  unfold smoothed.
  destruct ((stored <? of_int 0)%f32 || isinf stored); split; intros H;
    try discriminate H; reflexivity.
Qed.

(** C4 (amended). The aggregate iris-size channel is updated only on a
    frame whose raw value is above zero (the frame on which the detector
    block runs), and on any other frame it keeps its stored value, as every
    other channel does.  On a frame on which the block runs, the iris-size
    channel and all 18 distance channels are updated with their raw value r
    whatever its sign: if the stored value is negative (the sentinel -1) or
    infinite, the channel is assigned exactly r, so that a channel on its
    sentinel takes any r; otherwise, a stored NaN included, it is assigned
    stored * (1 - 0.1) + r * 0.1. *)
Theorem channels_smoothed options s cc r :
  Process options s cc = Some r ->
  match detection options s cc with
  | Some det =>
      (det_raw_iris_size det >? of_int 0)%f32 = true /\
      plu_iris_size (state r)
      = smoothed (plu_iris_size s) (det_raw_iris_size det) /\
      distance_values (plu (state r))
      = smoothed_each (distance_values (plu s)) (distance_values (det_raw det))
  | None =>
      plu_iris_size (state r) = plu_iris_size s /\ plu (state r) = plu s
  end /\
  (forall stored raw,
      ((stored <? of_int 0)%f32 || isinf stored = true ->
       smoothed stored raw = raw) /\
      ((stored <? of_int 0)%f32 || isinf stored = false ->
       smoothed stored raw
       = (stored * (of_int 1 - kDepthWeightUpdate)
          + raw * kDepthWeightUpdate)%f32)) /\
  (forall raw, smoothed minus_one raw = raw).
Proof.
  intros P. split; [|split; [exact smoothed_cases|reflexivity]].
  destruct (detection options s cc) as [det|] eqn:D.
  - destruct (Process_with_detection _ _ _ _ _ P D) as (_ & -> & _).
    destruct (detection_facts _ _ _ _ D) as (G & I & _ & U & _).
    repeat split; try assumption.
    rewrite U. apply update_plu_dt_values.
  - rewrite (Process_no_detection _ _ _ _ P D). split; reflexivity.
Qed.

Lemma channels_smoothed_witness :
  Process Examples.options initial Examples.frame_full
  = Some Examples.outcome_full /\
  match detection Examples.options initial Examples.frame_full with
  | Some det =>
      (det_raw_iris_size det >? of_int 0)%f32 = true /\
      plu_iris_size (state Examples.outcome_full)
      = smoothed (plu_iris_size initial) (det_raw_iris_size det) /\
      distance_values (plu (state Examples.outcome_full))
      = smoothed_each (distance_values (plu initial))
          (distance_values (det_raw det))
  | None =>
      plu_iris_size (state Examples.outcome_full) = plu_iris_size initial /\
      plu (state Examples.outcome_full) = plu initial
  end /\
  (forall stored raw,
      ((stored <? of_int 0)%f32 || isinf stored = true ->
       smoothed stored raw = raw) /\
      ((stored <? of_int 0)%f32 || isinf stored = false ->
       smoothed stored raw
       = (stored * (of_int 1 - kDepthWeightUpdate)
          + raw * kDepthWeightUpdate)%f32)) /\
  (forall raw, smoothed minus_one raw = raw).
Proof.
  assert (P : Process Examples.options initial Examples.frame_full
              = Some Examples.outcome_full) by (vm_compute; reflexivity).
  split; [exact P|].
  exact (channels_smoothed Examples.options initial Examples.frame_full
           Examples.outcome_full P).
Defined.

(** C4, as stated, fails.  On the first frame of an instance the two right
    corners coincide: the raw value of the channel [plu_dt_a_r_x] is 0, which
    is not above zero, and yet the channel leaves its stored value -1 and
    takes the value 0. *)
Lemma distance_channel_takes_zero :
  detection Examples.options initial Examples.frame_merged
  = Some Examples.detection_merged_first /\
  dt_a_r_x (det_raw Examples.detection_merged_first) = of_int 0 /\
  leb (dt_a_r_x (det_raw Examples.detection_merged_first)) (of_int 0) = true /\
  plu_dt_a_r_x initial = minus_one /\
  plu_dt_a_r_x (det_state Examples.detection_merged_first) = of_int 0 /\
  plu_dt_a_r_x (det_state Examples.detection_merged_first)
  <> plu_dt_a_r_x initial.
Proof.
  repeat apply conj; try (vm_compute; reflexivity).
  vm_compute. intros H. discriminate H.
Qed.

(** A stored NaN is not treated as uninitialized: the weighted sum is
    applied to it and the channel stays NaN. *)
Lemma smoothed_keeps_nan (raw : float) : smoothed S754_nan raw = S754_nan.
Proof. reflexivity. Qed.

(** * Further properties of the calculator *)

(** ** Signs in binary32 arithmetic *)

Lemma sign_clear_not_ltb (v : float) :
  sign_clear v = true -> (v <? of_int 0)%f32 = false.
Proof. destruct v as [[|]|[|]| |[|] m e]; simpl; intros H; try discriminate H; reflexivity. Qed.

(** Rounding keeps the sign it is given. *)
Lemma binary_round_aux_sign (sx : bool) (mx ex : Z) (lx : SpecFloat.location) :
  match binary_round_aux prec emax sx mx ex lx with
  | S754_zero s | S754_infinity s | S754_finite s _ _ => s = sx
  | S754_nan => True
  end.
Proof.
  unfold binary_round_aux.
  destruct (shr_fexp prec emax mx ex lx) as [mrs' e'].
  destruct (shr_fexp prec emax _ e' loc_Exact) as [mrs'' e''].
  destruct (shr_m mrs''); [reflexivity| |exact I].
  destruct (e'' <=? emax - prec); reflexivity.
Qed.

Lemma binary_round_aux_clear (mx ex : Z) (lx : SpecFloat.location) :
  sign_clear (binary_round_aux prec emax false mx ex lx) = true.
Proof.
  pose proof (binary_round_aux_sign false mx ex lx) as H.
  destruct (binary_round_aux prec emax false mx ex lx); simpl;
    try rewrite H; reflexivity.
Qed.

Lemma binary_round_clear (m : positive) (e : Z) :
  sign_clear (binary_round prec emax false m e) = true.
Proof.
  unfold binary_round.
  destruct (shl_align m e _) as [mz ez]. apply binary_round_aux_clear.
Qed.

Lemma of_int_clear (n : Z) : 0 <= n -> sign_clear (of_int n) = true.
Proof.
  intros H. unfold of_int, binary_normalize.
  destruct n as [|p|p]; [reflexivity|apply binary_round_clear|lia].
Qed.

Lemma mul_clear (a b : float) :
  sign_clear a = true -> sign_clear b = true -> sign_clear (a * b)%f32 = true.
Proof.
  destruct a as [[|]|[|]| |[|] ma ea], b as [[|]|[|]| |[|] mb eb]; simpl;
    intros Ha Hb; try discriminate; try reflexivity.
  apply binary_round_aux_clear.
Qed.

(** A square has its sign bit clear, whatever the sign of its argument. *)
Lemma square_clear (a : float) : sign_clear (a * a)%f32 = true.
Proof.
  destruct a as [[|]|[|]| |[|] ma ea]; simpl; try reflexivity;
    apply binary_round_aux_clear.
Qed.

Lemma add_clear (a b : float) :
  sign_clear a = true -> sign_clear b = true -> sign_clear (a + b)%f32 = true.
Proof.
  destruct a as [[|]|[|]| |[|] ma ea], b as [[|]|[|]| |[|] mb eb]; simpl;
    intros Ha Hb; try discriminate; try reflexivity.
  unfold add, SFadd. cbn [cond_Zopp Z.add binary_normalize].
  apply binary_round_clear.
Qed.

Lemma div_clear (a b : float) :
  sign_clear a = true -> sign_clear b = true -> sign_clear (a / b)%f32 = true.
Proof.
  destruct a as [[|]|[|]| |[|] ma ea], b as [[|]|[|]| |[|] mb eb]; simpl;
    intros Ha Hb; try discriminate; try reflexivity.
  unfold div, SFdiv.
  destruct (SFdiv_core_binary prec emax (Z.pos ma) ea (Z.pos mb) eb)
    as [[mz ez] lz].
  apply binary_round_aux_clear.
Qed.

Lemma sqrt_clear (a : float) : sign_clear a = true -> sign_clear (sqrt a) = true.
Proof.
  destruct a as [[|]|[|]| |[|] ma ea]; simpl; intros Ha;
    try discriminate; try reflexivity.
  unfold sqrt, SFsqrt.
  destruct (SFsqrt_core_binary prec emax (Z.pos ma) ea) as [[mz ez] lz].
  apply binary_round_aux_clear.
Qed.

(** [a - b] and [b - a] have the same square. *)
Lemma opp_round_aux (sx : bool) (mx ex : Z) (lx : SpecFloat.location) :
  binary_round_aux prec emax (negb sx) mx ex lx
  = SFopp (binary_round_aux prec emax sx mx ex lx).
Proof.
  unfold binary_round_aux.
  destruct (shr_fexp prec emax mx ex lx) as [mrs' e'].
  destruct (shr_fexp prec emax _ e' loc_Exact) as [mrs'' e''].
  destruct (shr_m mrs''); [reflexivity| |reflexivity].
  destruct (e'' <=? emax - prec); reflexivity.
Qed.

Lemma opp_normalize (m e : Z) :
  m <> 0 ->
  binary_normalize prec emax (- m) e false
  = SFopp (binary_normalize prec emax m e false).
Proof.
  intros H. destruct m as [|p|p]; [contradiction H; reflexivity| |];
    cbn [Z.opp binary_normalize]; unfold binary_round;
    destruct (shl_align p e _) as [mz ez].
  - apply (opp_round_aux false).
  - rewrite (opp_round_aux false). destruct (binary_round_aux _ _ _ _ _ _) as [[|]|[|]| |[|] ? ?]; reflexivity.
Qed.

Lemma mul_opp_opp (a : float) : (SFopp a * SFopp a)%f32 = (a * a)%f32.
Proof.
  destruct a as [[|]|[|]| |[|] ma ea]; reflexivity.
Qed.

Lemma sub_swap_square (a b : float) :
  ((a - b) * (a - b))%f32 = ((b - a) * (b - a))%f32.
Proof.
  destruct a as [[|]|[|]| |sa ma ea], b as [[|]|[|]| |sb mb eb];
    try reflexivity;
    try (destruct sa; reflexivity); try (destruct sb; reflexivity).
  unfold sub, SFsub. cbv zeta. rewrite (Z.min_comm eb ea).
  set (A := cond_Zopp sa (Z.pos (fst (shl_align ma ea (Z.min ea eb))))).
  set (B := cond_Zopp sb (Z.pos (fst (shl_align mb eb (Z.min ea eb))))).
  destruct (Z.eq_dec (A - B) 0) as [E|E].
  - replace (B - A) with 0 by lia. rewrite E. reflexivity.
  - replace (B - A) with (- (A - B)) by lia.
    rewrite (opp_normalize _ _ E). fold mul. symmetry. apply mul_opp_opp.
Qed.

(** ** Distances *)

Lemma GetDepth_swap (x0 y0 x1 y1 : float) :
  GetDepth x0 y0 x1 y1 = GetDepth x1 y1 x0 y0.
Proof.
  unfold GetDepth.
  rewrite (sub_swap_square x0 x1), (sub_swap_square y0 y1). reflexivity.
Qed.

Lemma GetDepth_clear (x0 y0 x1 y1 : float) :
  sign_clear (GetDepth x0 y0 x1 y1) = true.
Proof.
  unfold GetDepth. apply sqrt_clear, add_clear; apply square_clear.
Qed.

Lemma two_clear : sign_clear (of_int 2) = true.
Proof. reflexivity. Qed.

Lemma CalculateIrisDiameter_clear landmarks image_size d :
  CalculateIrisDiameter landmarks image_size = Some d -> sign_clear d = true.
Proof.
  unfold CalculateIrisDiameter. intros H.
  do 4 bind_case H. injection H as <-.
  apply div_clear; [|exact two_clear].
  apply add_clear; apply GetDepth_clear.
Qed.

(** X1. The pixel distance does not depend on the order of its two points:
    [GetDepth] and [GetLandmarkDepth] are symmetric, and the diameter of an
    eye is the same when its top and bottom landmarks, or its left and right
    ones, are exchanged. *)
Theorem distance_is_symmetric :
  (forall x0 y0 x1 y1 : float, GetDepth x0 y0 x1 y1 = GetDepth x1 y1 x0 y0) /\
  (forall (ld0 ld1 : NormalizedLandmark) (image_size : Z * Z),
      GetLandmarkDepth ld0 ld1 image_size = GetLandmarkDepth ld1 ld0 image_size) /\
  (forall (c t b l r : NormalizedLandmark) (image_size : Z * Z),
      CalculateIrisDiameter [c; t; b; l; r] image_size
      = CalculateIrisDiameter [c; b; t; l; r] image_size /\
      CalculateIrisDiameter [c; t; b; l; r] image_size
      = CalculateIrisDiameter [c; t; b; r; l] image_size).
Proof.
  split; [exact GetDepth_swap|]. split.
  - intros. unfold GetLandmarkDepth. apply GetDepth_swap.
  - intros. unfold CalculateIrisDiameter, GetLandmarkDepth.
    cbn [landmark nth_error bind]. split.
    + rewrite (GetDepth_swap (x t * _)%f32). reflexivity.
    + rewrite (GetDepth_swap (x l * _)%f32). reflexivity.
Qed.

(** X2. A distance is never negative: for all coordinates, NaN and
    infinities included, [GetDepth] is not below zero, and neither is any
    diameter that [CalculateIrisDiameter] returns nor the larger of two
    diameters; their sign bit is clear unless they are NaN. *)
Theorem distance_is_not_negative :
  (forall x0 y0 x1 y1 : float,
      (GetDepth x0 y0 x1 y1 <? of_int 0)%f32 = false) /\
  (forall landmarks image_size left_size,
      CalculateIrisDiameter landmarks image_size = Some left_size ->
      (left_size <? of_int 0)%f32 = false /\
      forall landmarks' right_size,
        CalculateIrisDiameter landmarks' image_size = Some right_size ->
        sign_clear (raw_plu_iris_size left_size right_size) = true /\
        (raw_plu_iris_size left_size right_size <? of_int 0)%f32 = false) /\
  (forall x0 y0 x1 y1 : float, sign_clear (GetDepth x0 y0 x1 y1) = true) /\
  (forall landmarks image_size iris_size,
      CalculateIrisDiameter landmarks image_size = Some iris_size ->
      sign_clear iris_size = true).
Proof.
  split; [|split; [|split]].
  - intros. apply sign_clear_not_ltb, GetDepth_clear.
  - intros landmarks image_size left_size HL.
    pose proof (CalculateIrisDiameter_clear _ _ _ HL) as CL.
    split; [apply sign_clear_not_ltb, CL|].
    intros landmarks' right_size HR.
    pose proof (CalculateIrisDiameter_clear _ _ _ HR) as CR.
    assert (C : sign_clear (raw_plu_iris_size left_size right_size) = true).
    { unfold raw_plu_iris_size. destruct (left_size <? right_size)%f32; assumption. }
    split; [exact C|apply sign_clear_not_ltb, C].
  - apply GetDepth_clear.
  - apply CalculateIrisDiameter_clear.
Qed.

(** X3. The accessors of the partitioner and of the diameter are in range
    exactly on lists that are long enough: [GetLeftIris] and
    [CalculateIrisDiameter] need 5 landmarks, [GetRightIris] needs 10; on a
    shorter list the call has no defined result.  When defined, the two
    partition functions keep what the output list already holds and append
    exactly 5 landmarks. *)
Theorem partition_accessors_in_range (lds iris : NormalizedLandmarkList)
    (image_size : Z * Z) :
  (GetLeftIris lds iris = None <-> (List.length lds < 5)%nat) /\
  (GetRightIris lds iris = None <-> (List.length lds < 10)%nat) /\
  (CalculateIrisDiameter lds image_size = None <-> (List.length lds < 5)%nat) /\
  (forall out,
      GetLeftIris lds iris = Some out \/ GetRightIris lds iris = Some out ->
      exists five, out = iris ++ five /\ List.length five = 5%nat).
Proof.
  repeat apply conj.
  - do 5 (destruct lds as [|? lds]; [intros _; simpl; lia|]).
    intros H. cbv [GetLeftIris landmark nth_error bind] in H. discriminate H.
  - do 5 (destruct lds as [|? lds]; [intros _; reflexivity|]). simpl; lia.
  - do 10 (destruct lds as [|? lds]; [intros _; simpl; lia|]).
    intros H. cbv [GetRightIris landmark nth_error bind] in H. discriminate H.
  - do 10 (destruct lds as [|? lds]; [intros _; reflexivity|]). simpl; lia.
  - do 5 (destruct lds as [|? lds]; [intros _; simpl; lia|]).
    intros H. cbv [CalculateIrisDiameter landmark nth_error bind] in H.
    discriminate H.
  - do 5 (destruct lds as [|? lds]; [intros _; reflexivity|]). simpl; lia.
  - intros out [H|H]; [unfold GetLeftIris in H|unfold GetRightIris in H];
      do 5 bind_case H; injection H as <-; eexists; split; reflexivity.
Qed.

(** ** The inputs of a detector run *)

(** A detector run comes from a frame with all three inputs, and is the
    block applied to the diameters and centres of its two eyes and to its
    four corners. *)
Lemma detection_shape options s cc det :
  detection options s cc = Some det ->
  exists iris image_size fl left_iris right_iris left_size right_size
         c_r c_l t_r n_r n_l t_l,
    IRIS cc = Some iris /\
    IMAGE_SIZE cc = Some image_size /\
    NORM_LANDMARKS cc = Some fl /\
    GetLeftIris iris [] = Some left_iris /\
    GetRightIris iris [] = Some right_iris /\
    CalculateIrisDiameter left_iris image_size = Some left_size /\
    CalculateIrisDiameter right_iris image_size = Some right_size /\
    landmark right_iris 0 = Some c_r /\
    landmark left_iris 0 = Some c_l /\
    landmark fl 263 = Some t_r /\ landmark fl 362 = Some n_r /\
    landmark fl 133 = Some n_l /\ landmark fl 33 = Some t_l /\
    (raw_plu_iris_size left_size right_size >? of_int 0)%f32 = true /\
    det = detect s left_size right_size
            (raw_plu_iris_size left_size right_size) image_size
            c_r c_l t_r n_r n_l t_l.
Proof.
  unfold detection. intros H.
  destruct (Process_detect options s cc) as [[r det']|] eqn:P;
    [|discriminate H]. cbn [bind snd] in H. subst det'.
  unfold Process_detect in P.
  destruct (IRIS cc) as [iris|]; [|discriminate P].
  destruct (negb _); [discriminate P|].
  destruct (IMAGE_SIZE cc) as [image_size|]; [|discriminate P].
  do 8 bind_case P.
  bind_case P. destruct p as [[[s' rd'] lines] det'].
  injection P as _ ->.
  apply face_block_inv in E7.
  destruct E7 as (fl & t_r & n_r & n_l & t_l & F & T1 & T2 & T3 & T4 & G & D & _).
  exists iris, image_size, fl. do 10 eexists.
  repeat (split; [reflexivity || eassumption|]). exact D.
Qed.

(** ** Signs of the channels *)

Lemma gtb_zero_clear (v : float) :
  (v >? of_int 0)%f32 = true -> sign_clear v = true.
Proof.
  destruct v as [[|]|[|]| |[|] m e]; simpl; intros H;
    try discriminate H; reflexivity.
Qed.

Lemma add_zero_clear (s : bool) (v : float) :
  sign_clear v = true -> sign_clear (S754_zero s + v)%f32 = true.
Proof.
  destruct s, v as [[|]|[|]| |[|] m e]; simpl; intros H;
    try discriminate H; reflexivity.
Qed.

Lemma kDepthWeightUpdate_clear : sign_clear kDepthWeightUpdate = true.
Proof. reflexivity. Qed.

(** The smoothed value of a channel has its sign bit clear (or is NaN) as
    soon as the raw value has, whatever the stored value. *)
Lemma smoothed_clear (stored raw : float) :
  sign_clear raw = true -> sign_clear (smoothed stored raw) = true.
Proof.
  intros R. unfold smoothed.
  destruct ((stored <? of_int 0)%f32 || isinf stored) eqn:G; [exact R|].
  change (of_int 1 - kDepthWeightUpdate)%f32
    with (S754_finite false 15099494 (-24)).
  pose proof (mul_clear raw kDepthWeightUpdate R kDepthWeightUpdate_clear) as M.
  destruct stored as [sz|si| |[|] m e].
  - change (S754_zero sz * S754_finite false 15099494 (-24))%f32
      with (S754_zero (xorb sz false)).
    apply add_zero_clear, M.
  - destruct si; simpl in G; discriminate G.
  - reflexivity.
  - simpl in G. discriminate G.
  - apply add_clear; [|exact M]. apply mul_clear; reflexivity.
Qed.

Lemma raw_axis_clear (p q scale : float) :
  sign_clear scale = true ->
  sign_clear (sqrt ((p - q) * (p - q)) * scale)%f32 = true.
Proof.
  intros H. apply mul_clear; [|exact H]. apply sqrt_clear, square_clear.
Qed.

Lemma raw_length_clear (vx vy : float) :
  sign_clear (sqrt (vx * vx + vy * vy))%f32 = true.
Proof. apply sqrt_clear, add_clear; apply square_clear. Qed.

Lemma raw_plu_dt_euclidean_clear sx sy c_r c_l t_r n_r n_l t_l :
  forallb sign_clear
    (euclidean_values (raw_plu_dt sx sy c_r c_l t_r n_r n_l t_l)) = true.
Proof.
  cbn [raw_plu_dt euclidean_values forallb dt_a_r dt_a_l dt_t_r dt_t_l
       dt_n_r dt_n_l].
  rewrite !raw_length_clear. reflexivity.
Qed.

Lemma raw_plu_dt_clear sx sy c_r c_l t_r n_r n_l t_l :
  sign_clear sx = true -> sign_clear sy = true ->
  forallb sign_clear
    (distance_values (raw_plu_dt sx sy c_r c_l t_r n_r n_l t_l)) = true.
Proof.
  intros X Y.
  cbn [raw_plu_dt distance_values forallb
       dt_a_r_x dt_a_r_y dt_a_r dt_a_l_x dt_a_l_y dt_a_l
       dt_t_r_x dt_t_r_y dt_t_r dt_t_l_x dt_t_l_y dt_t_l
       dt_n_r_x dt_n_r_y dt_n_r dt_n_l_x dt_n_l_y dt_n_l].
  rewrite !raw_length_clear, !(raw_axis_clear _ _ _ X), !(raw_axis_clear _ _ _ Y).
  reflexivity.
Qed.

Lemma forallb_smoothed_each (stored raw : list float) :
  forallb sign_clear raw = true ->
  forallb sign_clear (smoothed_each stored raw) = true.
Proof.
  revert raw. induction stored as [|v stored IH]; intros [|r raw] H;
    cbn [smoothed_each forallb] in *; try reflexivity.
  apply andb_prop in H. destruct H as [H1 H2].
  rewrite (smoothed_clear v r H1), (IH raw H2). reflexivity.
Qed.

Lemma update_plu_dt_euclidean (plu_dt raw : Distances) :
  euclidean_values (update_plu_dt plu_dt raw)
  = smoothed_each (euclidean_values plu_dt) (euclidean_values raw).
Proof. reflexivity. Qed.

Lemma forallb_clear_not_below (l : list float) :
  forallb sign_clear l = true -> forallb not_below_zero l = true.
Proof.
  induction l as [|v l IH]; cbn [forallb]; [reflexivity|].
  intros H. apply andb_prop in H. destruct H as [H1 H2].
  unfold not_below_zero at 1. rewrite (sign_clear_not_ltb v H1), (IH H2).
  reflexivity.
Qed.

(** X4. A detector run leaves no channel on its sentinel.  After a frame on
    which the detector block runs, whatever the members were before, the
    iris-size channel and the six Euclidean channels are not below zero, and
    when the image width and height are not negative none of the 18 distance
    channels is below zero: each holds a value with a clear sign bit or
    NaN. *)
Theorem detector_run_leaves_no_sentinel options s cc det image_size :
  detection options s cc = Some det ->
  IMAGE_SIZE cc = Some image_size ->
  not_below_zero (plu_iris_size (det_state det)) = true /\
  forallb not_below_zero (euclidean_values (plu (det_state det))) = true /\
  (0 <= fst image_size -> 0 <= snd image_size ->
   forallb not_below_zero (distance_values (plu (det_state det))) = true).
Proof.
  intros D S.
  destruct (detection_shape _ _ _ _ D)
    as (iris & sz & fl & le & re & ls & rs & c_r & c_l & t_r & n_r & n_l & t_l
        & _ & S' & _ & _ & _ & _ & _ & _ & _ & _ & _ & _ & _ & G & ->).
  rewrite S in S'. injection S' as <-.
  assert (I : sign_clear (smoothed (plu_iris_size s) (raw_plu_iris_size ls rs))
              = true) by (apply smoothed_clear, gtb_zero_clear, G).
  split; [|split].
  - unfold not_below_zero. cbn [detect det_state plu_iris_size].
    rewrite (sign_clear_not_ltb _ I). reflexivity.
  - apply forallb_clear_not_below.
    cbn [detect det_state plu]. rewrite update_plu_dt_euclidean.
    apply forallb_smoothed_each, raw_plu_dt_euclidean_clear.
  - intros W H. apply forallb_clear_not_below.
    cbn [detect det_state plu]. rewrite update_plu_dt_values.
    assert (R : sign_clear (kIrisSizeInMM
                            / smoothed (plu_iris_size s)
                                (raw_plu_iris_size ls rs))%f32 = true)
      by (apply div_clear; [reflexivity|exact I]).
    apply forallb_smoothed_each, raw_plu_dt_clear;
      (apply mul_clear; [apply of_int_clear; assumption|exact R]).
Qed.

Lemma detector_run_leaves_no_sentinel_witness :
  detection Examples.options initial Examples.frame_merged
  = Some Examples.detection_merged_first /\
  IMAGE_SIZE Examples.frame_merged = Some (640, 480) /\
  not_below_zero (plu_iris_size (det_state Examples.detection_merged_first))
  = true /\
  forallb not_below_zero
    (euclidean_values (plu (det_state Examples.detection_merged_first)))
  = true /\
  (0 <= fst (640, 480) -> 0 <= snd (640, 480) ->
   forallb not_below_zero
     (distance_values (plu (det_state Examples.detection_merged_first)))
   = true).
Proof.
  assert (D : detection Examples.options initial Examples.frame_merged
              = Some Examples.detection_merged_first)
    by (vm_compute; reflexivity).
  split; [exact D|]. split; [reflexivity|].
  exact (detector_run_leaves_no_sentinel Examples.options initial
           Examples.frame_merged Examples.detection_merged_first (640, 480)
           D eq_refl).
Defined.

(** ** Invariants of the members along a run *)

Lemma count_warnings_unavailable (w : Counters) :
  count_warnings w all_unavailable = w.
Proof. destruct w; reflexivity. Qed.

Lemma calculate_delta_unavailable (last_plu_dt plu_dt : Distances) :
  (dt_a_r last_plu_dt >? of_int 0)%f32 = false \/
  (dt_a_r plu_dt >? of_int 0)%f32 = false ->
  calculate_delta last_plu_dt plu_dt = all_unavailable.
Proof.
  intros [H|H]; rewrite calculate_delta_spec, H;
    [reflexivity|rewrite andb_false_r; reflexivity].
Qed.

Lemma minus_one_not_above_zero : (minus_one >? of_int 0)%f32 = false.
Proof. reflexivity. Qed.

(** The baseline is untouched and nothing has been counted, or the
    reference of the baseline is above zero. *)
Lemma baseline_step options s cc r :
  Process options s cc = Some r ->
  (last_plu s = last_plu initial /\ warn s = warn initial) \/
  (last_plu_dt_a_r s >? of_int 0)%f32 = true ->
  (last_plu (state r) = last_plu initial /\ warn (state r) = warn initial) \/
  (last_plu_dt_a_r (state r) >? of_int 0)%f32 = true.
Proof.
  intros P J.
  destruct (detection options s cc) as [det|] eqn:D.
  2:{ rewrite (Process_no_detection _ _ _ _ P D). exact J. }
  destruct (Process_with_detection _ _ _ _ _ P D) as (_ & -> & _).
  destruct (detection_facts _ _ _ _ D) as (_ & _ & _ & _ & ED & EW & EL).
  unfold last_plu_dt_a_r in *. rewrite EL, update_last_plu_dt_copy.
  destruct (((dt_a_r (last_plu s) <? of_int 0)%f32 || isinf (dt_a_r (last_plu s)))
            && (dt_a_r (plu (det_state det)) >? of_int 0)%f32) eqn:G.
  - right. apply andb_prop in G. apply G.
  - destruct J as [[JL JW]|J]; [left|right; exact J].
    split; [exact JL|].
    rewrite EW, ED, calculate_delta_unavailable, count_warnings_unavailable;
      [exact JW|].
    left. rewrite JL. reflexivity.
Qed.

Lemma baseline_run options frames :
  forall s s',
    run options s frames = Some s' ->
    (last_plu s = last_plu initial /\ warn s = warn initial) \/
    (last_plu_dt_a_r s >? of_int 0)%f32 = true ->
    (last_plu s' = last_plu initial /\ warn s' = warn initial) \/
    (last_plu_dt_a_r s' >? of_int 0)%f32 = true.
Proof.
  induction frames as [|cc rest IH]; intros s s' R J.
  - injection R as <-. exact J.
  - cbn [run] in R. destruct (Process options s cc) as [r|] eqn:P;
      [|discriminate R]. cbn [bind] in R.
    apply (IH _ _ R). apply (baseline_step _ _ _ _ P J).
Qed.

(** X5. On an instance started from its initial members, after any
    sequence of frames: either the baseline is untouched (all 18 slots on -1)
    and every warning counter is still 0, or the reference of the baseline,
    [last_plu_dt_a_r], is above zero.  So no warning is counted before the
    baseline is written, and the reference is never 0 nor NaN. *)
Theorem baseline_untouched_or_positive options frames s :
  run options initial frames = Some s ->
  (last_plu s = last_plu initial /\ warn s = warn initial) \/
  (last_plu_dt_a_r s >? of_int 0)%f32 = true.
Proof.
  intros R. apply (baseline_run _ _ _ _ R). left. split; reflexivity.
Qed.

Lemma baseline_untouched_or_positive_witness :
  run Examples.options initial
      [Examples.frame_merged; Examples.frame_full; Examples.frame_shifted]
  = Some (Examples.state_of
            (run Examples.options initial
                 [Examples.frame_merged; Examples.frame_full;
                  Examples.frame_shifted])) /\
  ((last_plu (Examples.state_of
                (run Examples.options initial
                     [Examples.frame_merged; Examples.frame_full;
                      Examples.frame_shifted]))
    = last_plu initial /\
    warn (Examples.state_of
            (run Examples.options initial
                 [Examples.frame_merged; Examples.frame_full;
                  Examples.frame_shifted]))
    = warn initial) \/
   (last_plu_dt_a_r
      (Examples.state_of
         (run Examples.options initial
              [Examples.frame_merged; Examples.frame_full;
               Examples.frame_shifted])) >? of_int 0)%f32 = true).
Proof.
  assert (R : run Examples.options initial
                  [Examples.frame_merged; Examples.frame_full;
                   Examples.frame_shifted]
              = Some (Examples.state_of
                        (run Examples.options initial
                             [Examples.frame_merged; Examples.frame_full;
                              Examples.frame_shifted])))
    by (vm_compute; reflexivity).
  split; [exact R|].
  exact (baseline_untouched_or_positive Examples.options _ _ R).
Defined.

(** *** Counters and the number of frames *)

Lemma add_flags_bound (k : Z) (counts : list Z) :
  forall flags,
    List.length flags = List.length counts ->
    Forall (fun c => 0 <= c <= k) counts ->
    Forall (fun c => 0 <= c <= k + 1) (add_flags counts flags).
Proof.
  induction counts as [|c counts IH]; intros [|b flags] H F; simpl in *;
    try discriminate; constructor; inversion F; subst.
  - destruct b; lia.
  - apply IH; congruence.
Qed.

Lemma counters_bound_run options frames :
  forall s s' k,
    0 <= k ->
    k + Z.of_nat (List.length frames) <= INT_MAX ->
    Forall (fun c => 0 <= c <= k) (counter_values (warn s)) ->
    run options s frames = Some s' ->
    Forall (fun c => 0 <= c <= k + Z.of_nat (List.length frames))
           (counter_values (warn s')).
Proof.
  induction frames as [|cc rest IH]; intros s s' k K M F R.
  - injection R as <-. cbn [List.length Z.of_nat].
    eapply Forall_impl; [|exact F]. simpl. intros c Hc. lia.
  - cbn [run] in R. destruct (Process options s cc) as [r|] eqn:P;
      [|discriminate R]. cbn [bind] in R.
    assert (L : Z.of_nat (List.length (cc :: rest))
                = Z.of_nat (List.length rest) + 1) by (cbn [List.length]; lia).
    rewrite L in *.
    assert (F1 : counters_fit 1 (warn s)).
    { unfold counters_fit. eapply Forall_impl; [|exact F]. simpl.
      intros c Hc. lia. }
    pose proof (Process_counters _ _ _ _ F1 P) as V.
    assert (F' : Forall (fun c => 0 <= c <= k + 1)
                        (counter_values (warn (state r)))).
    { rewrite V. apply add_flags_bound; [|exact F].
      rewrite frame_exceeds_length. reflexivity. }
    replace (k + (Z.of_nat (List.length rest) + 1))
      with ((k + 1) + Z.of_nat (List.length rest)) by lia.
    apply (IH (state r) s' (k + 1)); try assumption; lia.
Qed.

(** X6. On an instance started from its initial members, after n frames
    (n within the range of [int]) every one of the 9 warning counters lies
    between 0 and n: a frame counts at most once per delta. *)
Theorem counters_bounded_by_frames options frames s :
  Z.of_nat (List.length frames) <= INT_MAX ->
  run options initial frames = Some s ->
  Forall (fun c => 0 <= c <= Z.of_nat (List.length frames))
         (counter_values (warn s)).
Proof.
  intros M R.
  apply (counters_bound_run options frames initial s 0); try assumption; try lia.
  repeat constructor; simpl; lia.
Qed.

Lemma counters_bounded_by_frames_witness :
  Z.of_nat (List.length [Examples.frame_full; Examples.frame_shifted;
                         Examples.frame_full]) <= INT_MAX /\
  run Examples.options initial
      [Examples.frame_full; Examples.frame_shifted; Examples.frame_full]
  = Some Examples.state_shifted /\
  Forall (fun c => 0 <= c <= Z.of_nat (List.length [Examples.frame_full;
                                                    Examples.frame_shifted;
                                                    Examples.frame_full]))
         (counter_values (warn Examples.state_shifted)).
Proof.
  assert (M : Z.of_nat (List.length [Examples.frame_full; Examples.frame_shifted;
                                     Examples.frame_full]) <= INT_MAX)
    by (vm_compute; discriminate).
  assert (R : run Examples.options initial
                  [Examples.frame_full; Examples.frame_shifted;
                   Examples.frame_full]
              = Some Examples.state_shifted) by (vm_compute; reflexivity).
  split; [exact M|]. split; [exact R|].
  exact (counters_bounded_by_frames Examples.options _ _ M R).
Defined.

(** *** NaN *)

Lemma smoothed_nan (raw : float) : smoothed S754_nan raw = S754_nan.
Proof. reflexivity. Qed.

Lemma stays_nan_smoothed_each (stored : list float) :
  forall raw, List.length raw = List.length stored ->
              Forall2 stays_nan stored (smoothed_each stored raw).
Proof.
  induction stored as [|v stored IH]; intros [|r raw] H; simpl in *;
    try discriminate; constructor.
  - intros ->. apply smoothed_nan.
  - apply IH. congruence.
Qed.

Lemma stays_nan_refl (l : list float) : Forall2 stays_nan l l.
Proof. induction l; constructor; [intros H; exact H|assumption]. Qed.

Lemma stays_nan_trans (a b c : list float) :
  Forall2 stays_nan a b -> Forall2 stays_nan b c -> Forall2 stays_nan a c.
Proof.
  intros H. revert c. induction H; intros c' H'; inversion H'; subst;
    constructor; [|auto].
  intros E. auto.
Qed.

Lemma nan_not_above_zero : (S754_nan >? of_int 0)%f32 = false.
Proof. reflexivity. Qed.

Lemma nan_step options s cc r :
  Process options s cc = Some r ->
  Forall2 stays_nan (distance_values (plu s)) (distance_values (plu (state r))) /\
  (plu_iris_size s = S754_nan -> plu_iris_size (state r) = S754_nan) /\
  (plu_dt_a_r s = S754_nan ->
   plu_dt_a_r (state r) = S754_nan /\
   warn (state r) = warn s /\ last_plu (state r) = last_plu s).
Proof.
  intros P.
  destruct (detection options s cc) as [det|] eqn:D.
  2:{ rewrite (Process_no_detection _ _ _ _ P D).
      split; [apply stays_nan_refl|]. split; [intros H; exact H|].
      intros H. repeat split. exact H. }
  destruct (Process_with_detection _ _ _ _ _ P D) as (_ & -> & _).
  destruct (detection_facts _ _ _ _ D) as (_ & EI & _ & EP & ED & EW & EL).
  split; [|split].
  - rewrite EP, update_plu_dt_values. apply stays_nan_smoothed_each.
    reflexivity.
  - intros H. rewrite EI, H. apply smoothed_nan.
  - unfold plu_dt_a_r. intros H.
    assert (N : dt_a_r (plu (det_state det)) = S754_nan).
    { rewrite EP. cbn [update_plu_dt dt_a_r]. rewrite H. apply smoothed_nan. }
    split; [exact N|]. split.
    + rewrite EW, ED, calculate_delta_unavailable.
      * apply count_warnings_unavailable.
      * right. rewrite N. exact nan_not_above_zero.
    + rewrite EL, update_last_plu_dt_copy, N, nan_not_above_zero, andb_false_r.
      reflexivity.
Qed.

Lemma nan_run options frames :
  forall s s',
    run options s frames = Some s' ->
    Forall2 stays_nan (distance_values (plu s)) (distance_values (plu s')) /\
    (plu_iris_size s = S754_nan -> plu_iris_size s' = S754_nan) /\
    (plu_dt_a_r s = S754_nan ->
     plu_dt_a_r s' = S754_nan /\ warn s' = warn s /\ last_plu s' = last_plu s).
Proof.
  induction frames as [|cc rest IH]; intros s s' R.
  - injection R as <-. split; [apply stays_nan_refl|].
    split; [intros H; exact H|]. intros H. repeat split. exact H.
  - cbn [run] in R. destruct (Process options s cc) as [r|] eqn:P;
      [|discriminate R]. cbn [bind] in R.
    destruct (nan_step _ _ _ _ P) as (A1 & B1 & C1).
    destruct (IH _ _ R) as (A2 & B2 & C2).
    split; [eapply stays_nan_trans; eassumption|]. split; [auto|].
    intros H. destruct (C1 H) as (N1 & W1 & L1).
    destruct (C2 N1) as (N2 & W2 & L2).
    repeat split; congruence.
Qed.

(** A detector run on members whose [plu_dt_a_r] is NaN has no delta. *)
Lemma nan_no_delta options s cc det :
  plu_dt_a_r s = S754_nan ->
  detection options s cc = Some det ->
  det_deltas det = all_unavailable.
Proof.
  unfold plu_dt_a_r. intros H D.
  destruct (detection_facts _ _ _ _ D) as (_ & _ & _ & EP & ED & _).
  rewrite ED. apply calculate_delta_unavailable. right.
  rewrite EP. cbn [update_plu_dt dt_a_r]. rewrite H, smoothed_nan.
  exact nan_not_above_zero.
Qed.

(** X7. A channel that holds NaN never recovers: through every sequence of
    frames each of the 18 distance channels and the iris-size channel stays
    NaN once it is NaN (the cold-start test only looks for negative and
    infinite values).  While [plu_dt_a_r] is NaN no delta is available, so
    that no warning counter moves and no baseline slot changes, on any later
    frame: after the frames, a detector run on a further frame gives the
    sentinel -100 for all 9 deltas. *)
Theorem nan_channel_never_recovers options frames :
  forall s s',
    run options s frames = Some s' ->
    Forall2 stays_nan (distance_values (plu s)) (distance_values (plu s')) /\
    (plu_iris_size s = S754_nan -> plu_iris_size s' = S754_nan) /\
    (plu_dt_a_r s = S754_nan ->
     plu_dt_a_r s' = S754_nan /\ warn s' = warn s /\ last_plu s' = last_plu s) /\
    (plu_dt_a_r s = S754_nan ->
     forall cc det,
       detection options s' cc = Some det ->
       det_deltas det = all_unavailable).
Proof.
  intros s s' R.
  destruct (nan_run _ _ _ _ R) as (A & B & C).
  split; [exact A|]. split; [exact B|]. split; [exact C|].
  intros H cc det D. destruct (C H) as (N & _ & _).
  exact (nan_no_delta _ _ _ _ N D).
Qed.

Lemma nan_channel_never_recovers_witness :
  run Examples.options MoreExamples.state_nan
      [Examples.frame_shifted; Examples.frame_full]
  = Some MoreExamples.state_nan_later /\
  plu_dt_a_r MoreExamples.state_nan = S754_nan /\
  Forall2 stays_nan (distance_values (plu MoreExamples.state_nan))
          (distance_values (plu MoreExamples.state_nan_later)) /\
  (plu_iris_size MoreExamples.state_nan = S754_nan ->
   plu_iris_size MoreExamples.state_nan_later = S754_nan) /\
  (plu_dt_a_r MoreExamples.state_nan = S754_nan ->
   plu_dt_a_r MoreExamples.state_nan_later = S754_nan /\
   warn MoreExamples.state_nan_later = warn MoreExamples.state_nan /\
   last_plu MoreExamples.state_nan_later = last_plu MoreExamples.state_nan) /\
  (plu_dt_a_r MoreExamples.state_nan = S754_nan ->
   forall cc det,
     detection Examples.options MoreExamples.state_nan_later cc = Some det ->
     det_deltas det = all_unavailable).
Proof.
  assert (R : run Examples.options MoreExamples.state_nan
                  [Examples.frame_shifted; Examples.frame_full]
              = Some MoreExamples.state_nan_later)
    by (vm_compute; reflexivity).
  split; [exact R|]. split; [reflexivity|].
  exact (nan_channel_never_recovers Examples.options _ _ _ R).
Defined.

(** ** Status, output and what they depend on *)

(** The three ways [Process] returns. *)
Lemma Process_cases options s cc r :
  Process options s cc = Some r ->
  (IRIS cc = None /\
   r = {| status := OkStatus; state := s; RENDER_DATA := None |}) \/
  (exists iris message,
      IRIS cc = Some iris /\
      (List.length iris <> 10%nat \/ IMAGE_SIZE cc = None) /\
      r = failed message s) \/
  (exists iris image_size out,
      IRIS cc = Some iris /\ List.length iris = 10%nat /\
      IMAGE_SIZE cc = Some image_size /\
      status r = OkStatus /\ RENDER_DATA r = Some out).
Proof.
  intros P.
  destruct (IRIS cc) as [iris|] eqn:HI.
  2:{ left. split; [reflexivity|].
      unfold Process, Process_detect in P. rewrite HI in P.
      injection P as <-. reflexivity. }
  right.
  destruct (Nat.eq_dec (List.length iris) 10) as [HL|HL].
  2:{ left. destruct (structural_error_aux options s cc iris HI (or_introl HL))
        as (m & Q). rewrite Q in P. injection P as <-.
      exists iris, m. repeat split. left. exact HL. }
  destruct (IMAGE_SIZE cc) as [image_size|] eqn:HS.
  2:{ left. destruct (structural_error_aux options s cc iris HI (or_intror HS))
        as (m & Q). rewrite Q in P. injection P as <-.
      exists iris, m. repeat split. right. reflexivity. }
  right.
  do 10 (destruct iris as [|? iris]; [discriminate HL|]).
  destruct iris; [|discriminate HL].
  unfold Process in P.
  rewrite (Process_detect_valid options s cc _ _ _ _ _ _ _ _ _ _ _ HI HS) in P.
  cbv zeta in P.
  destruct (face_block _ _ _ _ _ _ _ _ _) as [[[[s' rd'] fl'] det']|];
    [|discriminate P].
  cbn [bind option_map fst] in P. injection P as <-.
  do 3 eexists. repeat split; reflexivity.
Qed.

(** X8. For every defined call of [Process]: the status is an error exactly
    when the iris landmark input is present and either does not hold 10
    points or comes without image size; render data is added to the output
    exactly when the iris input is present and the status is not an error;
    and an error leaves every member as it was. *)
Theorem status_and_output_of_a_frame options s cc r :
  Process options s cc = Some r ->
  ((exists message, status r = InternalError message) <->
   (exists iris,
       IRIS cc = Some iris /\
       (List.length iris <> 10%nat \/ IMAGE_SIZE cc = None))) /\
  (RENDER_DATA r = None <->
   (IRIS cc = None \/ exists message, status r = InternalError message)) /\
  ((exists message, status r = InternalError message) -> state r = s).
Proof.
  intros P.
  destruct (Process_cases _ _ _ _ P)
    as [(HI & ->)|[(iris & m & HI & HE & ->)|(iris & sz & out & HI & HL & HS & ST & RD)]].
  - repeat split.
    + intros (m & E). discriminate E.
    + intros (iris & E & _). rewrite HI in E. discriminate E.
    + left. exact HI.
  - repeat split.
    + intros _. exists iris. split; assumption.
    + intros _. exists m. reflexivity.
    + intros _. right. exists m. reflexivity.
  - repeat split.
    + intros (m & E). rewrite ST in E. discriminate E.
    + intros (iris' & E & [N|N]).
      * rewrite HI in E. injection E as <-. contradiction.
      * rewrite HS in N. discriminate N.
    + intros E. rewrite RD in E. discriminate E.
    + intros [E|(m & E)].
      * rewrite HI in E. discriminate E.
      * rewrite ST in E. discriminate E.
    + intros (m & E). rewrite ST in E. discriminate E.
Qed.

Lemma status_and_output_of_a_frame_witness :
  Process Examples.options initial Examples.frame_full
  = Some Examples.outcome_full /\
  ((exists message, status Examples.outcome_full = InternalError message) <->
   (exists iris,
       IRIS Examples.frame_full = Some iris /\
       (List.length iris <> 10%nat \/ IMAGE_SIZE Examples.frame_full = None))) /\
  (RENDER_DATA Examples.outcome_full = None <->
   (IRIS Examples.frame_full = None \/
    exists message, status Examples.outcome_full = InternalError message)) /\
  ((exists message, status Examples.outcome_full = InternalError message) ->
   state Examples.outcome_full = initial).
Proof.
  assert (P : Process Examples.options initial Examples.frame_full
              = Some Examples.outcome_full) by (vm_compute; reflexivity).
  split; [exact P|].
  exact (status_and_output_of_a_frame Examples.options initial
           Examples.frame_full Examples.outcome_full P).
Defined.

(** The face block: members, lines and detector run do not depend on the
    options nor on the render data so far. *)
Lemma face_block_members o1 o2 s cc1 cc2 image_size ls rs c_r c_l rd1 rd2 :
  NORM_LANDMARKS cc1 = NORM_LANDMARKS cc2 ->
  option_map (fun p : State * RenderData * list Line * option Detection =>
                let '(s', _, lines, det) := p in (s', lines, det))
             (face_block o1 s cc1 image_size ls rs c_r c_l rd1)
  = option_map (fun p : State * RenderData * list Line * option Detection =>
                  let '(s', _, lines, det) := p in (s', lines, det))
               (face_block o2 s cc2 image_size ls rs c_r c_l rd2).
Proof.
  intros H. unfold face_block. rewrite H.
  destruct (NORM_LANDMARKS cc2) as [fl|]; [|reflexivity].
  destruct (landmark fl 263); [|reflexivity]. cbn [bind].
  destruct (landmark fl 362); [|reflexivity]. cbn [bind].
  destruct (landmark fl 133); [|reflexivity]. cbn [bind].
  destruct (landmark fl 33); [|reflexivity]. cbn [bind].
  destruct (_ >? _)%f32; reflexivity.
Qed.

Lemma Process_detect_members o1 o2 s cc1 cc2 :
  IRIS cc1 = IRIS cc2 ->
  NORM_LANDMARKS cc1 = NORM_LANDMARKS cc2 ->
  IMAGE_SIZE cc1 = IMAGE_SIZE cc2 ->
  option_map (fun p : Outcome * option Detection =>
                (status (fst p), state (fst p), snd p))
             (Process_detect o1 s cc1)
  = option_map (fun p : Outcome * option Detection =>
                  (status (fst p), state (fst p), snd p))
               (Process_detect o2 s cc2).
Proof.
  intros HI HF HS.
  destruct (IRIS cc2) as [iris|] eqn:I2.
  2:{ unfold Process_detect. rewrite HI, I2. reflexivity. }
  destruct (Nat.eq_dec (List.length iris) 10) as [HL|HL].
  2:{ unfold Process_detect. rewrite HI, I2. unfold landmark_size.
      destruct (Z.of_nat (List.length iris) =? kNumIrisLandmarksPerEye * 2) eqn:E.
      - apply Z.eqb_eq in E. change (kNumIrisLandmarksPerEye * 2) with 10 in E. lia.
      - reflexivity. }
  destruct (IMAGE_SIZE cc2) as [image_size|] eqn:S2.
  2:{ unfold Process_detect. rewrite HI, I2, HS, S2. unfold landmark_size.
      rewrite HL. reflexivity. }
  do 10 (destruct iris as [|? iris]; [discriminate HL|]).
  destruct iris; [|discriminate HL].
  rewrite (Process_detect_valid o1 s cc1 _ _ _ _ _ _ _ _ _ _ _ HI HS).
  rewrite (Process_detect_valid o2 s cc2 _ _ _ _ _ _ _ _ _ _ _ I2 S2).
  cbv zeta.
  match goal with
  | |- context [face_block o1 s cc1 ?i ?l ?r ?cr ?cl ?rd1] =>
      match goal with
      | |- context [face_block o2 s cc2 i l r cr cl ?rd2] =>
          pose proof (face_block_members o1 o2 s cc1 cc2 i l r cr cl rd1 rd2 HF)
            as M;
          destruct (face_block o1 s cc1 i l r cr cl rd1) as [[[[s1 r1] f1] d1]|];
          destruct (face_block o2 s cc2 i l r cr cl rd2) as [[[[s2 r2] f2] d2]|]
      end
  end; cbn [option_map bind fst snd status state] in *; try discriminate M;
    [|reflexivity].
  injection M as -> -> ->. reflexivity.
Qed.

(** X9. The members never depend on the rendering options nor on the two
    optional depth inputs: two frames with the same iris landmarks, face
    landmarks and image size, processed from the same members under any two
    option sets, give the same status, the same members and the same detector
    run, and are defined together. *)
Theorem members_ignore_options_and_depth o1 o2 s cc1 cc2 :
  IRIS cc1 = IRIS cc2 ->
  NORM_LANDMARKS cc1 = NORM_LANDMARKS cc2 ->
  IMAGE_SIZE cc1 = IMAGE_SIZE cc2 ->
  option_map (fun r => (status r, state r)) (Process o1 s cc1)
  = option_map (fun r => (status r, state r)) (Process o2 s cc2) /\
  detection o1 s cc1 = detection o2 s cc2.
Proof.
  intros HI HF HS.
  pose proof (Process_detect_members o1 o2 s cc1 cc2 HI HF HS) as M.
  unfold Process, detection.
  destruct (Process_detect o1 s cc1) as [[r1 d1]|];
    destruct (Process_detect o2 s cc2) as [[r2 d2]|];
    cbn [option_map bind fst snd] in *; try discriminate M.
  - injection M as -> -> ->. split; reflexivity.
  - split; reflexivity.
Qed.

Lemma members_ignore_options_and_depth_witness :
  IRIS Examples.frame_full = IRIS MoreExamples.frame_full_depth /\
  NORM_LANDMARKS Examples.frame_full
  = NORM_LANDMARKS MoreExamples.frame_full_depth /\
  IMAGE_SIZE Examples.frame_full = IMAGE_SIZE MoreExamples.frame_full_depth /\
  option_map (fun r => (status r, state r))
    (Process Examples.options (state Examples.outcome_full) Examples.frame_full)
  = option_map (fun r => (status r, state r))
      (Process MoreExamples.options_bottom (state Examples.outcome_full)
         MoreExamples.frame_full_depth) /\
  detection Examples.options (state Examples.outcome_full) Examples.frame_full
  = detection MoreExamples.options_bottom (state Examples.outcome_full)
      MoreExamples.frame_full_depth.
Proof.
  do 3 (split; [reflexivity|]).
  exact (members_ignore_options_and_depth Examples.options
           MoreExamples.options_bottom (state Examples.outcome_full)
           Examples.frame_full MoreExamples.frame_full_depth
           eq_refl eq_refl eq_refl).
Defined.

(** ** Render data *)

Lemma to_int_range (a : float) (b : Z) :
  to_int a = Some b -> INT_MIN <= b <= INT_MAX.
Proof.
  unfold to_int. destruct (trunc a) as [n|]; [|discriminate].
  destruct ((INT_MIN <=? n) && (n <=? INT_MAX)) eqn:E; [|discriminate].
  intros H. injection H as <-.
  apply andb_prop in E. destruct E as [E1 E2].
  apply Z.leb_le in E1. apply Z.leb_le in E2. split; assumption.
Qed.

(** The conversion that gives the first baseline is defined exactly when
    the first position has an integral part that an [int] holds. *)
Lemma to_int_first_position options image_size n :
  to_int (first_position options image_size n)
  = first_baseline options image_size n.
Proof.
  unfold to_int, first_baseline.
  destruct (trunc (first_position options image_size n)) as [b|]; [|reflexivity].
  unfold INT_MIN, INT_MAX.
  replace (b <? 2 ^ 31) with (b <=? 2147483647)
    by (destruct (Z.leb_spec b 2147483647), (Z.ltb_spec b (2 ^ 31));
        try reflexivity; lia).
  reflexivity.
Qed.

Lemma AddTextRenderData_first_position options image_size lines rd :
  AddTextRenderData options image_size lines rd
  = add_text_lines options (horizontal_offset_px options)
      (to_int (first_position options image_size (List.length lines)))
      (label_height options) 0 lines rd.
Proof.
  unfold AddTextRenderData, first_position, label_height.
  destruct (location options); reflexivity.
Qed.

Lemma add_text_lines_numbered options first lines :
  forall (i : nat) rd,
    add_text_lines options (horizontal_offset_px options)
      (Some first) (label_height options) (Z.of_nat i) lines rd
    = rd ++ map (fun p => label_annotation options first (fst p) (snd p))
              (numbered i lines).
Proof.
  induction lines as [|line rest IH]; intros i rd;
    cbn [add_text_lines numbered map].
  - symmetry. apply app_nil_r.
  - replace (Z.of_nat i + 1) with (Z.of_nat (S i)) by lia.
    rewrite IH, <- app_assoc. reflexivity.
Qed.

Lemma AddTextRenderData_labels options image_size lines rd first :
  first_baseline options image_size (List.length lines) = Some first ->
  AddTextRenderData options image_size lines rd
  = rd ++ label_annotations options first lines.
Proof.
  intros F. rewrite AddTextRenderData_first_position, to_int_first_position, F.
  unfold label_annotations.
  apply (add_text_lines_numbered options first lines 0%nat).
Qed.

(** Without a defined conversion no appended text is given a baseline. *)
Lemma add_text_lines_no_baseline options left_px height lines :
  forall i rd,
    exists texts,
      add_text_lines options left_px None height i lines rd = rd ++ texts /\
      Forall (fun a => text_baseline a = Some None) texts.
Proof.
  induction lines as [|line rest IH]; intros i rd; cbn [add_text_lines].
  - exists []. split; [symmetry; apply app_nil_r|constructor].
  - destruct (IH (i + 1) (rd ++ [{| scene_tag := None;
                                     color := {| color_r := 255; color_g := 0;
                                                 color_b := 0 |};
                                     thickness := of_int 2;
                                     data := Text line (font_height_px options)
                                               left_px None (font_face options) |}]))
      as (texts & E & A).
    eexists. split; [cbn [option_map]; rewrite E, <- app_assoc; reflexivity|].
    constructor; [reflexivity|exact A].
Qed.

Lemma AddTextRenderData_no_baseline options image_size lines rd :
  first_baseline options image_size (List.length lines) = None ->
  exists texts,
    AddTextRenderData options image_size lines rd = rd ++ texts /\
    Forall (fun a => text_baseline a = Some None) texts.
Proof.
  intros F. rewrite AddTextRenderData_first_position, to_int_first_position, F.
  apply add_text_lines_no_baseline.
Qed.

(** A font height of 2000000000 puts the first line at 3000000256, which no
    [int] holds: the conversion is undefined and the text has no baseline. *)
Example baseline_out_of_range :
  trunc (first_position MoreExamples.options_large_font (640, 480) 1)
  = Some 3000000256 /\
  first_baseline MoreExamples.options_large_font (640, 480) 1 = None /\
  map text_baseline
    (AddTextRenderData MoreExamples.options_large_font (640, 480) [[]] [])
  = [Some None].
Proof. vm_compute. repeat split. Qed.

Lemma length_numbered (lines : list Line) :
  forall i, List.length (numbered i lines) = List.length lines.
Proof. induction lines; intros i; simpl; [reflexivity|f_equal; auto]. Qed.

Lemma text_lines_labels options first (lines : list Line) :
  forall i,
    text_lines (map (fun p => label_annotation options first
                                (fst p) (snd p)) (numbered i lines))
    = lines.
Proof.
  induction lines as [|l ls IH]; intros i; [reflexivity|].
  cbn [numbered map text_lines flat_map label_annotation data fst snd app].
  f_equal. apply IH.
Qed.

(** X10. When the position of the first line, truncated toward zero, is an
    [int] (the conversion that [AddTextRenderData] applies to it is then
    defined, and its result is the first baseline), [AddTextRenderData] keeps
    the annotations it is given and appends exactly one text annotation per
    line, in the order of the lines: line number i (from 0) is red, of
    thickness 2, at the left offset and font of the options, with its
    baseline i line heights below the first baseline, where the line height
    is the font height times 1.5 rounded up.  With no line the render data is
    unchanged. *)
Theorem text_annotations_one_per_line options image_size lines rd first :
  first_baseline options image_size (List.length lines) = Some first ->
  AddTextRenderData options image_size lines rd
  = rd ++ label_annotations options first lines /\
  List.length (label_annotations options first lines) = List.length lines /\
  text_lines (label_annotations options first lines) = lines /\
  (forall i line,
      nth_error lines i = Some line ->
      nth_error (AddTextRenderData options image_size lines rd)
                (List.length rd + i)
      = Some (label_annotation options first i line)) /\
  INT_MIN <= first <= INT_MAX /\
  (lines = [] -> AddTextRenderData options image_size lines rd = rd).
Proof.
  intros F.
  split; [apply AddTextRenderData_labels, F|]. split.
  { unfold label_annotations. rewrite length_map. apply length_numbered. }
  split.
  { apply text_lines_labels. }
  split; [|split].
  - intros i line H. rewrite (AddTextRenderData_labels _ _ _ _ _ F).
    rewrite nth_error_app2 by lia.
    replace (List.length rd + i - List.length rd)%nat with i by lia.
    unfold label_annotations. rewrite nth_error_map.
    assert (G : forall k l j, nth_error l j = Some line ->
                              nth_error (numbered k l) j = Some ((k + j)%nat, line)).
    { intros k l. revert k. induction l as [|a l IH]; intros k [|j] E;
        simpl in *; try discriminate.
      - injection E as ->. rewrite Nat.add_0_r. reflexivity.
      - rewrite (IH (S k) j E). f_equal. f_equal. lia. }
    rewrite (G 0%nat lines i H). reflexivity.
  - apply (to_int_range (first_position options image_size (List.length lines))).
    rewrite to_int_first_position. exact F.
  - intros ->. unfold AddTextRenderData. reflexivity.
Qed.

Lemma text_annotations_one_per_line_witness :
  first_baseline Examples.options (640, 480)
    (List.length (depth_lines MoreExamples.frame_full_depth)) = Some 275 /\
  AddTextRenderData Examples.options (640, 480)
    (depth_lines MoreExamples.frame_full_depth) []
  = [] ++ label_annotations Examples.options 275
            (depth_lines MoreExamples.frame_full_depth).
Proof.
  assert (F : first_baseline Examples.options (640, 480)
                (List.length (depth_lines MoreExamples.frame_full_depth))
              = Some 275)
    by (vm_compute; reflexivity).
  split; [exact F|].
  exact (proj1 (text_annotations_one_per_line Examples.options (640, 480)
                  (depth_lines MoreExamples.frame_full_depth) [] 275 F)).
Defined.

(** X11. [RenderIris] reads the first landmark without a test: on an empty
    list the call has no defined result.  On any other list it keeps the
    annotations it is given and appends the oval around the first landmark,
    then one point per landmark in the order of the list. *)
Theorem render_iris_oval_then_points options image_size iris_size rd :
  RenderIris [] options image_size iris_size rd = None /\
  (forall center rest,
      RenderIris (center :: rest) options image_size iris_size rd
      = Some (rd ++ oval_annotation options center iris_size image_size
                 :: map (point_annotation options) (center :: rest)) /\
      exists out,
        RenderIris (center :: rest) options image_size iris_size rd = Some out /\
        List.length out = (List.length rd + 2 + List.length rest)%nat).
Proof.
  split; [reflexivity|]. intros center rest.
  pose proof (RenderIris_annotations options center rest image_size iris_size rd)
    as R.
  split; [exact R|]. eexists. split; [exact R|].
  unfold iris_annotations. rewrite length_app. cbn [List.length map].
  rewrite length_map. lia.
Qed.

(** ** The render data of a frame *)

Lemma length_detector_lines a b c plu_dt d w :
  List.length (detector_lines a b c plu_dt d w) = 16%nat.
Proof. reflexivity. Qed.

(** X12. For every frame with 10 iris landmarks and an image size on which
    [Process] is defined, and options for which the position of the first
    text line fits an [int], the render data is, in this order: the oval and
    the 5 points of the first eye, the oval and the 5 points of the second
    eye, the 4 eye-corner points (landmarks 263, 362, 133, 33) when face
    landmarks are present, and one text annotation per line, the lines being
    those of the optional depth inputs followed by the 16 lines of the
    detector block when it runs.  So the output holds 12 annotations, plus 4
    with face landmarks, plus one per line. *)
Theorem render_data_of_a_frame options s cc
    (l0 l1 l2 l3 l4 l5 l6 l7 l8 l9 : NormalizedLandmark) (image_size : Z * Z)
    (r : Outcome) (first : Z) :
  IRIS cc = Some [l0; l1; l2; l3; l4; l5; l6; l7; l8; l9] ->
  IMAGE_SIZE cc = Some image_size ->
  Process options s cc = Some r ->
  first_baseline options image_size
    (List.length (depth_lines cc ++ frame_detector_lines options s cc))
  = Some first ->
  RENDER_DATA r
  = Some (iris_annotations options l0 [l0; l2; l4; l3; l1]
            (spec_diameter l2 l4 l3 l1 image_size) image_size
          ++ iris_annotations options l5 [l5; l7; l9; l6; l8]
               (spec_diameter l7 l9 l6 l8 image_size) image_size
          ++ map (point_annotation options) (face_corners (NORM_LANDMARKS cc))
          ++ label_annotations options first
               (depth_lines cc ++ frame_detector_lines options s cc)) /\
  List.length (face_corners (NORM_LANDMARKS cc))
  = match NORM_LANDMARKS cc with Some _ => 4%nat | None => 0%nat end /\
  List.length (frame_detector_lines options s cc)
  = match detection options s cc with Some _ => 16%nat | None => 0%nat end /\
  exists out,
    RENDER_DATA r = Some out /\
    List.length out
    = (12 + List.length (face_corners (NORM_LANDMARKS cc))
       + List.length (depth_lines cc)
       + List.length (frame_detector_lines options s cc))%nat.
Proof.
  intros HI HS P F.
  pose proof (Process_detection _ _ _ _ P) as PD.
  rewrite (Process_detect_valid options s cc _ _ _ _ _ _ _ _ _ _ _ HI HS) in PD.
  cbv zeta in PD.
  revert F.
  assert (Main :
    first_baseline options image_size
      (List.length (depth_lines cc ++ frame_detector_lines options s cc))
    = Some first ->
    RENDER_DATA r
    = Some (iris_annotations options l0 [l0; l2; l4; l3; l1]
              (spec_diameter l2 l4 l3 l1 image_size) image_size
            ++ iris_annotations options l5 [l5; l7; l9; l6; l8]
                 (spec_diameter l7 l9 l6 l8 image_size) image_size
            ++ map (point_annotation options) (face_corners (NORM_LANDMARKS cc))
            ++ label_annotations options first
                 (depth_lines cc ++ frame_detector_lines options s cc)) /\
    List.length (face_corners (NORM_LANDMARKS cc))
    = match NORM_LANDMARKS cc with Some _ => 4%nat | None => 0%nat end /\
    List.length (frame_detector_lines options s cc)
    = match detection options s cc with Some _ => 16%nat | None => 0%nat end).
  { unfold frame_detector_lines.
    destruct (NORM_LANDMARKS cc) as [fl|] eqn:HF.
    - destruct (Nat.lt_ge_cases (List.length fl) 363) as [L|L].
      + rewrite (face_block_short _ _ _ _ _ _ _ _ _ _ HF L) in PD.
        discriminate PD.
      + match type of PD with
        | context [face_block ?o ?s ?c ?i ?l ?r ?cr ?cl ?rd] =>
            destruct (face_block_present o s c i l r cr cl rd fl HF L)
              as (t_r & n_r & n_l & t_l & E1 & E2 & E3 & E4 & E)
        end.
        cbv zeta in E. rewrite E in PD. clear E.
        cbn [face_corners flat_map]. rewrite E1, E2, E3, E4. cbn [app].
        destruct (_ >? _)%f32; cbn [bind] in PD; injection PD as <- <-;
          cbn [RENDER_DATA]; intros F;
          rewrite (AddTextRenderData_labels _ _ _ _ _ F);
          repeat split; reflexivity.
    - rewrite (face_block_absent _ _ _ _ _ _ _ _ _ HF) in PD.
      cbn [bind] in PD. injection PD as <- <-.
      cbn [RENDER_DATA face_corners map app]. intros F.
      rewrite (AddTextRenderData_labels _ _ _ _ _ F).
      repeat split; reflexivity. }
  intros F. destruct (Main F) as (M1 & M2 & M3).
  split; [exact M1|]. split; [exact M2|]. split; [exact M3|].
  eexists. split; [exact M1|].
  rewrite !length_app, length_map.
  unfold label_annotations. rewrite length_map, length_numbered, length_app.
  unfold iris_annotations. cbn [List.length map]. lia.
Qed.

Lemma render_data_of_a_frame_witness :
  IRIS MoreExamples.frame_full_depth
  = Some [Examples.lm 0; Examples.lm 1; Examples.lm 2; Examples.lm 3;
          Examples.lm 4; Examples.lm 5; Examples.lm 6; Examples.lm 7;
          Examples.lm 8; Examples.lm 9] /\
  IMAGE_SIZE MoreExamples.frame_full_depth = Some (640, 480) /\
  first_baseline MoreExamples.options_bottom (640, 480)
    (List.length (depth_lines MoreExamples.frame_full_depth ++
                  frame_detector_lines MoreExamples.options_bottom initial
                    MoreExamples.frame_full_depth)) = Some (-60) /\
  (exists r,
      Process MoreExamples.options_bottom initial MoreExamples.frame_full_depth
      = Some r /\
      exists out,
        RENDER_DATA r = Some out /\
        List.length out
        = (12 + List.length (face_corners
                               (NORM_LANDMARKS MoreExamples.frame_full_depth))
           + List.length (depth_lines MoreExamples.frame_full_depth)
           + List.length (frame_detector_lines MoreExamples.options_bottom
                            initial MoreExamples.frame_full_depth))%nat).
Proof.
  assert (P : Process MoreExamples.options_bottom initial
                MoreExamples.frame_full_depth
              = Some MoreExamples.outcome_full_depth)
    by (vm_compute; reflexivity).
  assert (F : first_baseline MoreExamples.options_bottom (640, 480)
                (List.length (depth_lines MoreExamples.frame_full_depth ++
                              frame_detector_lines MoreExamples.options_bottom
                                initial MoreExamples.frame_full_depth))
              = Some (-60))
    by (vm_compute; reflexivity).
  split; [reflexivity|]. split; [reflexivity|]. split; [exact F|].
  exists MoreExamples.outcome_full_depth. split; [exact P|].
  apply (render_data_of_a_frame MoreExamples.options_bottom initial
           MoreExamples.frame_full_depth _ _ _ _ _ _ _ _ _ _ (640, 480)
           MoreExamples.outcome_full_depth (-60) eq_refl eq_refl P F).
Defined.

(** The annotations of [frame_full_depth] on a new instance: 12 for the
    irises, 4 corners, 2 depth lines and 16 detector lines. *)
Example render_data_count :
  option_map (fun r => option_map (@List.length RenderAnnotation) (RENDER_DATA r))
    (Process MoreExamples.options_bottom initial MoreExamples.frame_full_depth)
  = Some (Some 34%nat).
Proof. vm_compute. reflexivity. Qed.

(** ** Out-of-range accesses *)

(** X13. [Process] calls a landmark accessor out of range on exactly one
    kind of frame: one that passes the two structural checks (10 iris
    landmarks, image size present) and whose face landmark list is present
    with fewer than 363 points.  On every other frame, whatever the members,
    all accesses are in range and the call returns. *)
Theorem out_of_range_only_on_short_face_list options s cc :
  (Process options s cc = None <->
   exists iris_landmarks image_size update_face_landmarks,
     IRIS cc = Some iris_landmarks /\
     List.length iris_landmarks = 10%nat /\
     IMAGE_SIZE cc = Some image_size /\
     NORM_LANDMARKS cc = Some update_face_landmarks /\
     (List.length update_face_landmarks < 363)%nat) /\
  (match NORM_LANDMARKS cc with
   | Some update_face_landmarks =>
       (363 <= List.length update_face_landmarks)%nat
   | None => True
   end -> exists r, Process options s cc = Some r).
Proof.
  split; [apply Process_undefined_iff|].
  intros H. destruct (Process options s cc) as [r|] eqn:P; [exists r; reflexivity|].
  apply Process_undefined_iff in P.
  destruct P as (i & sz & fl & _ & _ & _ & F & L).
  rewrite F in H. lia.
Qed.

(** ** Deltas at the baseline *)

Lemma sub_self (v : float) :
  finite_value v = true -> (v - v)%f32 = of_int 0.
Proof.
  destruct v as [[|]|[|]| |s m e]; simpl; intros H; try discriminate H;
    try reflexivity.
  unfold sub, SFsub. cbv zeta. rewrite Z.sub_diag. reflexivity.
Qed.

Lemma spec_delta_self (a b : float) :
  finite_value a = true -> finite_value b = true ->
  spec_delta a a b b = of_int 0.
Proof.
  intros A B. unfold spec_delta. rewrite (sub_self a A), (sub_self b B).
  reflexivity.
Qed.

Lemma spec_deltas_self (b : Distances) :
  forallb finite_value (inner_outer_values b) = true ->
  spec_deltas b b = all_zero.
Proof.
  unfold inner_outer_values. cbn [forallb]. intros H.
  repeat match type of H with
         | (_ && _) = true => apply andb_prop in H; destruct H as [? H]
         end.
  unfold spec_deltas. cbv zeta.
  rewrite !spec_delta_self by assumption. reflexivity.
Qed.

Lemma count_warnings_zero (w : Counters) : count_warnings w all_zero = w.
Proof. destruct w; reflexivity. Qed.

(** X14. When, after the updates of a frame, the channels equal the
    baseline they are compared with (a baseline whose reference is above zero
    and whose inner and outer corner-to-centre values are finite), all 9
    deltas are exactly zero and no warning counter moves on that frame. *)
Theorem deltas_vanish_at_baseline options s cc det :
  detection options s cc = Some det ->
  plu (det_state det) = last_plu s ->
  (last_plu_dt_a_r s >? of_int 0)%f32 = true ->
  forallb finite_value (inner_outer_values (last_plu s)) = true ->
  det_deltas det = all_zero /\ warn (det_state det) = warn s.
Proof.
  intros D E G F.
  destruct (detection_facts _ _ _ _ D) as (_ & _ & _ & _ & ED & EW & _).
  assert (Z : det_deltas det = all_zero).
  { rewrite ED, E, calculate_delta_spec. unfold last_plu_dt_a_r in G.
    rewrite G. cbn [andb]. apply spec_deltas_self, F. }
  split; [exact Z|]. rewrite EW, Z. apply count_warnings_zero.
Qed.

Lemma deltas_vanish_at_baseline_witness :
  detection Examples.options (state Examples.outcome_full) Examples.frame_full
  = Some Examples.detection_full_second /\
  plu (det_state Examples.detection_full_second)
  = last_plu (state Examples.outcome_full) /\
  (last_plu_dt_a_r (state Examples.outcome_full) >? of_int 0)%f32 = true /\
  forallb finite_value (inner_outer_values (last_plu (state Examples.outcome_full)))
  = true /\
  det_deltas Examples.detection_full_second = all_zero /\
  warn (det_state Examples.detection_full_second)
  = warn (state Examples.outcome_full).
Proof.
  assert (D : detection Examples.options (state Examples.outcome_full)
                Examples.frame_full
              = Some Examples.detection_full_second)
    by (vm_compute; reflexivity).
  split; [exact D|]. do 3 (split; [reflexivity|]).
  exact (deltas_vanish_at_baseline Examples.options
           (state Examples.outcome_full) Examples.frame_full
           Examples.detection_full_second D eq_refl eq_refl eq_refl).
Defined.

(** ** Depth *)

Lemma kIrisSizeInMM_clear : sign_clear kIrisSizeInMM = true.
Proof. reflexivity. Qed.

(** X15. [CalculateDepth] is never negative for an iris size that is not:
    whatever the centre, the focal length and the image size, NaN and
    infinities included, the depth of an iris size with a clear sign bit is
    not below zero; when the size is +0 it is +infinity or NaN rather than
    an error. *)
Theorem depth_is_not_negative (center : NormalizedLandmark)
    (focal_length iris_size img_w img_h : float) :
  sign_clear iris_size = true ->
  sign_clear (CalculateDepth center focal_length iris_size img_w img_h) = true /\
  (CalculateDepth center focal_length iris_size img_w img_h <? of_int 0)%f32
  = false /\
  (iris_size = S754_zero false ->
   CalculateDepth center focal_length iris_size img_w img_h = S754_infinity false \/
   CalculateDepth center focal_length iris_size img_w img_h = S754_nan).
Proof.
  intros H.
  assert (N : forall y', sign_clear (kIrisSizeInMM
                 * sqrt (focal_length * focal_length + y' * y'))%f32 = true).
  { intros y'. apply mul_clear; [exact kIrisSizeInMM_clear|].
    apply sqrt_clear, add_clear; apply square_clear. }
  assert (C : sign_clear (CalculateDepth center focal_length iris_size
                            img_w img_h) = true).
  { unfold CalculateDepth. cbv zeta.
    apply div_clear; [apply N|exact H]. }
  split; [exact C|]. split; [apply sign_clear_not_ltb, C|].
  intros ->. unfold CalculateDepth. cbv zeta.
  match goal with
  | |- (?n / _)%f32 = _ \/ _ => pose proof (N _ : sign_clear n = true) as G;
                                destruct n as [sn|sn| |sn m e]
  end; cbn in G |- *; try (right; reflexivity);
    destruct sn; try discriminate G; left; reflexivity.
Qed.

Lemma depth_is_not_negative_witness :
  sign_clear (of_int 0) = true /\
  sign_clear (CalculateDepth (Examples.pt (Examples.dec 3 10) Examples.half)
                (of_int 500) (of_int 0) (of_int 640) (of_int 480)) = true /\
  (CalculateDepth (Examples.pt (Examples.dec 3 10) Examples.half)
     (of_int 500) (of_int 0) (of_int 640) (of_int 480) <? of_int 0)%f32
  = false.
Proof.
  split; [reflexivity|].
  destruct (depth_is_not_negative (Examples.pt (Examples.dec 3 10) Examples.half)
              (of_int 500) (of_int 0) (of_int 640) (of_int 480) eq_refl)
    as (C & L & _).
  split; [exact C|exact L].
Defined.

(** The depth of an iris of size +0 at focal length 500 is +infinity. *)
Example depth_of_empty_iris :
  CalculateDepth (Examples.pt (Examples.dec 3 10) Examples.half)
    (of_int 500) (of_int 0) (of_int 640) (of_int 480)
  = S754_infinity false.
Proof. vm_compute. reflexivity. Qed.

(** ** The first detector run of an instance *)

Lemma update_plu_dt_initial (raw : Distances) :
  update_plu_dt (plu initial) raw = raw.
Proof. destruct raw; reflexivity. Qed.

(** X16. The first detector run of a new instance is a cold start: every
    one of the 18 distance channels and the iris-size channel takes exactly
    its raw value (no smoothing against the sentinel), all 9 deltas are
    unavailable and no counter moves, and the baseline is the copy of these
    raw values when the raw corner-to-corner length of the right eye is above
    zero and stays untouched otherwise. *)
Theorem first_detector_run_is_cold_start options cc det :
  detection options initial cc = Some det ->
  plu_iris_size (det_state det) = det_raw_iris_size det /\
  plu (det_state det) = det_raw det /\
  det_deltas det = all_unavailable /\
  warn (det_state det) = warn initial /\
  last_plu (det_state det)
  = (if (dt_a_r (det_raw det) >? of_int 0)%f32
     then det_raw det else last_plu initial).
Proof.
  intros D.
  destruct (detection_facts _ _ _ _ D) as (_ & EI & _ & EP & ED & EW & EL).
  rewrite update_plu_dt_initial in EP.
  assert (Z : det_deltas det = all_unavailable).
  { rewrite ED. apply calculate_delta_unavailable. left. reflexivity. }
  repeat split.
  - exact EI.
  - exact EP.
  - exact Z.
  - rewrite EW, Z. apply count_warnings_unavailable.
  - rewrite EL, update_last_plu_dt_copy, EP. reflexivity.
Qed.

Lemma first_detector_run_is_cold_start_witness :
  detection Examples.options initial Examples.frame_merged
  = Some Examples.detection_merged_first /\
  plu_iris_size (det_state Examples.detection_merged_first)
  = det_raw_iris_size Examples.detection_merged_first /\
  plu (det_state Examples.detection_merged_first)
  = det_raw Examples.detection_merged_first /\
  det_deltas Examples.detection_merged_first = all_unavailable /\
  warn (det_state Examples.detection_merged_first) = warn initial /\
  last_plu (det_state Examples.detection_merged_first)
  = (if (dt_a_r (det_raw Examples.detection_merged_first) >? of_int 0)%f32
     then det_raw Examples.detection_merged_first else last_plu initial).
Proof.
  assert (D : detection Examples.options initial Examples.frame_merged
              = Some Examples.detection_merged_first)
    by (vm_compute; reflexivity).
  split; [exact D|].
  exact (first_detector_run_is_cold_start Examples.options
           Examples.frame_merged Examples.detection_merged_first D).
Defined.
